(** * Seismological data integration tool: embedding of
      [structured_database.py] and its properties.

    The script is a notebook export: its cells run at module level (fetch
    from two catalogs, normalise, merge, store in SQLite, query, plot) and
    a final cell packages a command-line entry point [main].  The embedding
    follows the script statement by statement:

    - Python objects are values of [pyval]; a raised exception is the
      [Raise] case of [result];
    - a pandas DataFrame is a list of labelled columns; the two
      [standardize_*] functions assign columns in place, so they are
      computations in [ST DataFrame] whose state is the caller's frame;
    - the SQLite file, the open connection and everything the program
      prints, fetches or executes are the fields of [world], threaded
      through the program monad [M]; a raise keeps the world reached so
      far, and only what was committed is in the file;
    - library behaviour that the script relies on but does not define
      (the HTTP servers, Python's [float], [pd.to_datetime],
      [Timestamp.isoformat], SQLite's SELECT engine) are parameters of
      the development; [Demo] gives simple instances for the examples.

    A [str] is its UTF-8 encoding.  Not modelled: dtypes (a cell keeps its
    Python value), index labels and integer column labels, rounding,
    overflow and underflow of floats, what matplotlib draws. *)

From stdpp Require Import base option list strings gmap.
From Stdlib Require Import ZArith Lia Ascii.

Set Warnings "-register-all".

Open Scope string_scope.
Open Scope Z_scope.
Open Scope list_scope.

(** ** Python values and exceptions *)

(** A Python [float]: a decimal [m * 10^e], an infinity or NaN.  Rounding to
    binary64 is not modelled; nothing below depends on it. *)
Inductive pyfloat :=
| FNaN
| FInf (neg : bool)
| FFin (m e : Z).

Inductive pyval :=
| VNone
| VBool (b : bool)
| VInt (z : Z)
| VFloat (f : pyfloat)
| VStr (s : string)
| VTime (ns : Z)          (* pandas Timestamp, nanoseconds since the epoch *)
| VNaT                    (* pandas NaT *)
| VList (l : list pyval)
| VDict (kv : list (string * pyval)).

Inductive exn :=
| KeyError (k : string)
| IndexError
| TypeError
| ValueError
| AttributeError
| NotImplementedError
| OverflowError
| OutOfBoundsDatetime
| RequestException
| ProgrammingError        (* sqlite3: unsupported parameter type, closed db *)
| OperationalError.       (* sqlite3: no such table, syntax error,
                             database or disk is full *)

Inductive result (A : Type) :=
| Ok (a : A)
| Raise (e : exn).
Arguments Ok {A} a.
Arguments Raise {A} e.

Definition rbind {A B} (r : result A) (k : A -> result B) : result B :=
  match r with
  | Ok a => k a
  | Raise e => Raise e
  end.

Notation "'try!' x := r 'in' k" := (rbind r (fun x => k))
  (at level 10, x pattern, r at level 100, k at level 200).

Fixpoint rmap {A B} (f : A -> result B) (l : list A) : result (list B) :=
  match l with
  | [] => Ok []
  | x :: l' => try! y := f x in try! ys := rmap f l' in Ok (y :: ys)
  end.

(** [pd.isna] on a scalar. *)
Definition isna (v : pyval) : bool :=
  match v with
  | VNone | VNaT | VFloat FNaN => true
  | _ => false
  end.

Definition NaN : pyval := VFloat FNaN.

(** ** Strings: [str.splitlines] and [str.split]

    A Python [str] is held as its UTF-8 encoding, one [ascii] per byte. *)

(** The one-byte line boundaries: LF, VT, FF, CR, FS, GS, RS. *)
Definition is_linebreak (c : ascii) : bool :=
  let n := nat_of_ascii c in
  ((n =? 10) || (n =? 11) || (n =? 12) || (n =? 13)
   || (n =? 28) || (n =? 29) || (n =? 30))%nat.

(** [s.splitlines()]: line boundaries are removed, ["\r\n"] counts once and
    a final boundary opens no further line.  Besides the one-byte
    boundaries the line is cut at U+0085 (bytes C2 85), U+2028 and U+2029
    (bytes E2 80 A8 and E2 80 A9). *)
Fixpoint splitlines (s : string) : list string :=
  match s with
  | EmptyString => []
  | String c s' =>
      let same_line :=
        match splitlines s' with
        | [] => [String c EmptyString]
        | h :: t => String c h :: t
        end in
      let n := nat_of_ascii c in
      if is_linebreak c then
        if (n =? 13)%nat then
          match s' with
          | String c' s'' =>
              if (nat_of_ascii c' =? 10)%nat
              then EmptyString :: splitlines s''
              else EmptyString :: splitlines s'
          | EmptyString => [EmptyString]
          end
        else EmptyString :: splitlines s'
      else if (n =? 194)%nat then
        match s' with
        | String c' s'' =>
            if (nat_of_ascii c' =? 133)%nat
            then EmptyString :: splitlines s''
            else same_line
        | EmptyString => same_line
        end
      else if (n =? 226)%nat then
        match s' with
        | String c1 (String c2 s3) =>
            if ((nat_of_ascii c1 =? 128)
                && ((nat_of_ascii c2 =? 168) || (nat_of_ascii c2 =? 169)))%nat
            then EmptyString :: splitlines s3
            else same_line
        | _ => same_line
        end
      else same_line
  end.

(** The characters of a [str]: in UTF-8 a continuation byte (10xxxxxx)
    belongs to the character before it. *)
Definition is_continuation (c : ascii) : bool :=
  let n := nat_of_ascii c in ((128 <=? n) && (n <? 192))%nat.

Definition starts_with_continuation (s : string) : bool :=
  match s with
  | String c _ => is_continuation c
  | EmptyString => false
  end.

Fixpoint code_points (s : string) : list string :=
  match s with
  | EmptyString => []
  | String c s' =>
      match code_points s' with
      | h :: t =>
          if starts_with_continuation s' then String c h :: t
          else String c EmptyString :: h :: t
      | [] => [String c EmptyString]
      end
  end.

(** An integer in decimal, as [str(z)] and SQLite write it. *)
Definition digit_char (d : Z) : ascii := ascii_of_nat (48 + Z.to_nat d).

Fixpoint digits_of (fuel : nat) (n : Z) (acc : string) : string :=
  match fuel with
  | O => acc
  | S fuel' =>
      let acc' := String (digit_char (n mod 10)) acc in
      if n <? 10 then acc' else digits_of fuel' (n / 10) acc'
  end.

(** The decimal digits of [n >= 0]. *)
Definition digits (n : Z) : string := digits_of (S (Z.to_nat (Z.log2 n))) n "".

Definition text_of_int (z : Z) : string :=
  if z <? 0 then String "-" (digits (- z)) else digits z.

(** [s.split(sep)] for a one-character separator: never empty. *)
Fixpoint split (sep : ascii) (s : string) : list string :=
  match s with
  | EmptyString => [EmptyString]
  | String c s' =>
      if Ascii.eqb c sep then EmptyString :: split sep s'
      else match split sep s' with
           | [] => [String c EmptyString]
           | h :: t => String c h :: t
           end
  end.

Definition pipe : ascii := "|"%char.


(** ** DataFrames *)

(** A frame is its row count and its columns under string labels, in
    column order.  Index labels are not modelled: the script only ever
    iterates rows in position order and resets the index when it
    concatenates.  Columns under integer labels, which no statement of the
    script selects, are not held. *)
Record DataFrame := mkDF {
  df_len : nat;
  df_cols : list (string * list pyval)
}.

(** A row as [iterrows] yields it: a Series indexed by the column labels. *)
Definition Row := list (string * pyval).

Definition columns (df : DataFrame) : list string := map fst (df_cols df).

(** Every column has one cell per row. *)
Definition cols_len_ok (df : DataFrame) : Prop :=
  Forall (fun c => length c.2 = df_len df) (df_cols df).

(** A well-formed frame: one cell per row in every column, distinct
    labels. *)
Definition df_wf (df : DataFrame) : Prop :=
  cols_len_ok df /\ NoDup (columns df).

Definition empty_frame : DataFrame := mkDF 0 [].

Fixpoint assoc {A} (k : string) (l : list (string * A)) : option A :=
  match l with
  | [] => None
  | (k', v) :: l' => if String.eqb k k' then Some v else assoc k l'
  end.

Definition count_label (c : string) (df : DataFrame) : nat :=
  length (filter (fun kv => kv.1 = c) (df_cols df)).

(** [df[c]]: the column as a Series.  A missing label raises [KeyError]; a
    label carried by several columns selects a sub-frame, which none of the
    Series operations applied below accepts. *)
Definition getitem (c : string) (df : DataFrame) : result (list pyval) :=
  match assoc c (df_cols df) with
  | None => Raise (KeyError c)
  | Some vs => if (count_label c df =? 1)%nat then Ok vs else Raise ValueError
  end.

(** [df[c] = vs]: in-place assignment.  An existing label is overwritten
    where it stands, a new one is appended as the last column. *)
Definition setitem (c : string) (vs : list pyval) (df : DataFrame) : DataFrame :=
  match assoc c (df_cols df) with
  | Some _ =>
      mkDF (df_len df)
           (map (fun kv => if String.eqb c kv.1 then (kv.1, vs) else kv) (df_cols df))
  | None => mkDF (df_len df) (df_cols df ++ [(c, vs)])
  end.

(** [df[[c1, ..., cn]]]: a new frame with the listed columns, in the listed
    order. *)
Fixpoint select_cols (cs : list string) (cols : list (string * list pyval))
  : result (list (string * list pyval)) :=
  match cs with
  | [] => Ok []
  | c :: cs' =>
      match assoc c cols with
      | None => Raise (KeyError c)
      | Some _ =>
          try! rest := select_cols cs' cols in
          Ok (filter (fun kv => kv.1 = c) cols ++ rest)
      end
  end.

Definition project (cs : list string) (df : DataFrame) : result DataFrame :=
  try! cols := select_cols cs (df_cols df) in Ok (mkDF (df_len df) cols).

(** [df.iterrows()], without the index labels. *)
Definition row_at (df : DataFrame) (i : nat) : Row :=
  map (fun kv => (kv.1, nth i kv.2 NaN)) (df_cols df).

Definition iterrows (df : DataFrame) : list Row :=
  map (row_at df) (seq 0 (df_len df)).

(** [row[c]] and [row.get(c, default)]. *)
Definition row_getitem (c : string) (r : Row) : result pyval :=
  match assoc c r with
  | Some v => Ok v
  | None => Raise (KeyError c)
  end.

Definition row_get (c : string) (default : pyval) (r : Row) : pyval :=
  match assoc c r with
  | Some v => v
  | None => default
  end.

(** [df.head()]: the first five rows. *)
Definition head (df : DataFrame) : DataFrame :=
  mkDF (Nat.min 5 (df_len df)) (map (fun kv => (kv.1, take 5 kv.2)) (df_cols df)).

(** [pd.concat([a, b], ignore_index=True)]: rows of [a], then rows of [b];
    the columns are the union of the labels, a frame lacking a label
    contributes NaN cells. *)
Definition column_or_nan (c : string) (df : DataFrame) : list pyval :=
  match assoc c (df_cols df) with
  | Some vs => vs
  | None => replicate (df_len df) NaN
  end.

Definition concat (a b : DataFrame) : DataFrame :=
  let labels :=
    columns a ++ filter (fun c => assoc c (df_cols a) = None) (columns b) in
  mkDF (df_len a + df_len b)
       (map (fun c => (c, column_or_nan c a ++ column_or_nan c b)) labels).

(** [df.dropna(subset=cs)]: keeps the rows with no missing value in the
    listed columns, as a new frame. *)
Definition keep_mask (cs : list string) (df : DataFrame) : result (list bool) :=
  try! sub := rmap (fun c => getitem c df) cs in
  Ok (map (fun i => forallb (fun vs => negb (isna (nth i vs NaN))) sub)
          (seq 0 (df_len df))).

Fixpoint mask_filter {A} (m : list bool) (l : list A) : list A :=
  match m, l with
  | true :: m', x :: l' => x :: mask_filter m' l'
  | false :: m', _ :: l' => mask_filter m' l'
  | _, _ => []
  end.

Definition dropna (cs : list string) (df : DataFrame) : result DataFrame :=
  try! m := keep_mask cs df in
  Ok (mkDF (length (filter (fun b => b = true) m))
           (map (fun kv => (kv.1, mask_filter m kv.2)) (df_cols df))).

(** [df.isna().sum()]: missing cells per column. *)
Definition isna_sum (df : DataFrame) : list (string * nat) :=
  map (fun kv => (kv.1, length (filter (fun v => isna v = true) kv.2))) (df_cols df).

(** [pd.DataFrame(data, columns=headers)] on a list of rows.  Short rows are
    padded with [None] up to the longest one; a width different from the
    number of labels raises [ValueError]; no rows give an empty frame that
    still has the labels. *)
Definition frame_of_rows (data : list (list pyval)) (headers : list string)
  : result DataFrame :=
  match data with
  | [] => Ok (mkDF 0 (map (fun h => (h, [])) headers))
  | _ =>
      let width := foldr Nat.max 0%nat (map length data) in
      if (width =? length headers)%nat then
        Ok (mkDF (length data)
                 (imap (fun j h => (h, map (fun r => nth j r VNone) data)) headers))
      else Raise ValueError
  end.

(** ** [pd.json_normalize] *)

(** [d[k] = v] on a dict kept in insertion order. *)
Fixpoint dict_set {A} (k : string) (v : A) (d : list (string * A)) : list (string * A) :=
  match d with
  | [] => [(k, v)]
  | (k', v') :: d' =>
      if String.eqb k k' then (k, v) :: d' else (k', v') :: dict_set k v d'
  end.

Definition dict_update {A} (d extra : list (string * A)) : list (string * A) :=
  foldl (fun acc kv => dict_set kv.1 kv.2 acc) d extra.

(** The key of an entry under [path]; nothing is prefixed to a key under
    the empty path. *)
Definition dotted (path k : string) : string :=
  match path with
  | EmptyString => k
  | _ => path +:+ "." +:+ k
  end.

(** The entries of a nested dict under their dotted paths. *)
Fixpoint flatten (path : string) (v : pyval) : list (string * pyval) :=
  match v with
  | VDict kv =>
      (fix go (kv : list (string * pyval)) : list (string * pyval) :=
         match kv with
         | [] => []
         | (k, x) :: kv' => flatten (dotted path k) x ++ go kv'
         end) kv
  | _ => [(path, v)]
  end.

Definition is_dict (v : pyval) : bool :=
  match v with VDict _ => true | _ => false end.

(** What the normalisation makes of one element of the list: a record, or
    a list again (a nested list is normalised element by element and stays
    a list). *)
Inductive normalised :=
| NRecord (d : list (string * pyval))
| NList.

(** One element: a dict gives its scalar entries first, then the flattened
    nested dicts; a list stays a list; any other value gives the empty
    record. *)
Definition normalise_record (v : pyval) : normalised :=
  match v with
  | VDict kv =>
      let top := filter (fun e => is_dict e.2 = false) kv in
      let nested := flat_map (fun e => flatten e.1 e.2)
                             (filter (fun e => is_dict e.2 = true) kv) in
      NRecord (dict_update (dict_update [] top) nested)
  | VList _ => NList
  | _ => NRecord []
  end.

(** The records, when every element gave one. *)
Fixpoint records (rows : list normalised) : option (list (list (string * pyval))) :=
  match rows with
  | [] => Some []
  | NRecord d :: rows' => cons d <$> records rows'
  | NList :: _ => None
  end.

(** [pd.DataFrame(list_of_dicts)]: labels in order of first appearance, a
    record lacking a label gets NaN. *)
Definition frame_of_dicts (ds : list (list (string * pyval))) : DataFrame :=
  let labels := foldl (fun acc d => foldl (fun acc' kv =>
                   if bool_decide (kv.1 ∈ acc') then acc' else acc' ++ [kv.1]) acc d)
                   [] ds in
  mkDF (length ds)
       (map (fun c => (c, map (fun d => default NaN (assoc c d)) ds)) labels).

(** [pd.DataFrame(rows)] on the normalised elements.  The first element
    decides: after a record every element is read as a record, and a list
    among them raises [AttributeError]; after a list the elements are laid
    out by position under the labels 0, 1, ..., integers that no string
    label selects, so the frame has its rows and no column of this model. *)
Definition frame_of_normalised (rows : list normalised) : result DataFrame :=
  match rows with
  | NList :: _ => Ok (mkDF (length rows) [])
  | _ => match records rows with
         | Some ds => Ok (frame_of_dicts ds)
         | None => Raise AttributeError
         end
  end.

Definition json_normalize (data : pyval) : result DataFrame :=
  match data with
  | VList [] => Ok empty_frame
  | VList l => frame_of_normalised (map normalise_record l)
  | VDict kv => frame_of_normalised [normalise_record (VDict kv)]
  | _ => Raise NotImplementedError
  end.

(** [obj[key]] for a string key. *)
Definition py_getitem (obj : pyval) (key : string) : result pyval :=
  match obj with
  | VDict kv => match assoc key kv with
                | Some v => Ok v
                | None => Raise (KeyError key)
                end
  | _ => Raise TypeError
  end.

(** [x[i]] for a position [i], as in [lambda x: x[0]]. *)
Definition py_index (i : nat) (x : pyval) : result pyval :=
  match x with
  | VList l => match l !! i with
               | Some v => Ok v
               | None => Raise IndexError
               end
  | VStr s => match code_points s !! i with
              | Some c => Ok (VStr c)
              | None => Raise IndexError
              end
  | VDict _ => Raise (KeyError (text_of_int (Z.of_nat i)))
  | _ => Raise TypeError
  end.

(** ** The store: one SQLite file *)

Inductive sqlval :=
| SNull
| SInt (z : Z)
| SReal (f : pyfloat)
| SText (s : string).

Record coldef := mkCol {
  c_name : string;
  c_type : string;
  c_autoinc : bool          (* INTEGER PRIMARY KEY AUTOINCREMENT *)
}.

Record table := mkTable {
  t_cols : list coldef;
  t_rows : list (list sqlval);
  t_seq : Z                 (* largest id ever handed out *)
}.

Abbreviation database := (gmap string table).

Inductive stmt :=
| CreateTableIfNotExists (name : string) (cols : list coldef)
| InsertInto (name : string) (cols : list string)
| RawSql (text : string).

Record connection := mkConn {
  conn_db : database;       (* the file as this connection sees it *)
  conn_in_tx : bool
}.

Inductive printed :=
| PText (s : string)
| PFrame (df : DataFrame)
| PCounts (c : list (string * nat))
| PErrorRow (r : Row)
| PErrorMessage (e : exn).

Inductive event :=
| EvHttpGet (url : string) (params : list (string * pyval))
| EvConnect
| EvExecute (s : stmt) (params : list pyval)
| EvFetchAll
| EvCommit
| EvClose
| EvPrint (p : printed)
| EvPlot (xs ys cs : list pyval).

Record world := mkWorld {
  w_disk : database;              (* committed content of seismological_data.db *)
  w_conn : option connection;
  w_out : list event              (* what the run did, oldest first *)
}.

(** ** State and exceptions *)

(** A computation over a mutable [S] that returns or raises; the state at
    the point of a raise is kept. *)
Definition ST (S A : Type) : Type := S -> result A * S.

Definition ret {S A} (a : A) : ST S A := fun s => (Ok a, s).
Definition raise {S A} (e : exn) : ST S A := fun s => (Raise e, s).
Definition bind {S A B} (m : ST S A) (k : A -> ST S B) : ST S B :=
  fun s => match m s with
           | (Ok a, s') => k a s'
           | (Raise e, s') => (Raise e, s')
           end.
Definition lift {S A} (r : result A) : ST S A := fun s => (r, s).
Definition get {S} : ST S S := fun s => (Ok s, s).
Definition modify {S} (f : S -> S) : ST S unit := fun s => (Ok tt, f s).

#[global] Instance ST_ret {S} : MRet (ST S) := @ret S.
#[global] Instance ST_bind {S} : MBind (ST S) := fun A B k m => bind m k.

(** [try: m except Exception as e: h e]. *)
Definition try_except {S A} (m : ST S A) (h : exn -> ST S A) : ST S A :=
  fun s => match m s with
           | (Ok a, s') => (Ok a, s')
           | (Raise e, s') => h e s'
           end.

(** [for x in xs: body x]. *)
Fixpoint for_each {S A} (xs : list A) (body : A -> ST S unit) : ST S unit :=
  match xs with
  | [] => ret tt
  | x :: xs' => body x ;; for_each xs' body
  end.

(** The program proper runs over the world. *)
Abbreviation M := (ST world).

Definition emit (e : event) : M unit :=
  modify (fun w => mkWorld (w_disk w) (w_conn w) (w_out w ++ [e])).

Definition print (p : printed) : M unit := emit (EvPrint p).

(** ** [sqlite3] *)

Definition int64_min : Z := - 2 ^ 63.
Definition int64_max : Z := 2 ^ 63 - 1.

(** How [sqlite3] binds one Python parameter.  [None] and a NaN float are
    stored as NULL; int, float and str (and their subclasses) are accepted
    besides.  Adapters are looked up by exact type, so a pandas Timestamp
    (a subclass of [datetime]) or NaT has none, like a list or a dict: the
    statement fails with "type ... is not supported" ([ProgrammingError];
    [InterfaceError] before Python 3.11). *)
Definition bind_param (v : pyval) : result sqlval :=
  match v with
  | VNone => Ok SNull
  | VBool b => Ok (SInt (if b then 1 else 0))
  | VInt z => if (int64_min <=? z) && (z <=? int64_max) then Ok (SInt z)
              else Raise OverflowError
  | VFloat FNaN => Ok SNull
  | VFloat f => Ok (SReal f)
  | VStr s => Ok (SText s)
  | VTime _ | VNaT | VList _ | VDict _ => Raise ProgrammingError
  end.

(** *** Column affinity

    A value is converted on its way into a column, by the affinity that
    SQLite derives from the declared type.  As for Python floats, a REAL is
    a decimal here: rounding to binary64, overflow and underflow are not
    modelled. *)

Inductive affinity := AffText | AffNumeric | AffInteger | AffReal | AffBlob.

Definition upper (c : ascii) : ascii :=
  let n := nat_of_ascii c in
  if ((97 <=? n) && (n <=? 122))%nat then ascii_of_nat (n - 32) else c.

(** [p], in capitals, starts [s] or occurs in it, whatever the case. *)
Fixpoint starts_ci (p s : string) : bool :=
  match p, s with
  | EmptyString, _ => true
  | String a p', String b s' => Ascii.eqb a (upper b) && starts_ci p' s'
  | String _ _, EmptyString => false
  end.

Fixpoint contains_ci (p s : string) : bool :=
  starts_ci p s ||
  match s with
  | EmptyString => false
  | String _ s' => contains_ci p s'
  end.

(** The affinity of a declared type: INT first, then CHAR, CLOB or TEXT,
    then BLOB or no type at all, then REAL, FLOA or DOUB, else NUMERIC. *)
Definition affinity_of (decl : string) : affinity :=
  if contains_ci "INT" decl then AffInteger
  else if contains_ci "CHAR" decl || contains_ci "CLOB" decl || contains_ci "TEXT" decl
  then AffText
  else if contains_ci "BLOB" decl || String.eqb decl "" then AffBlob
  else if contains_ci "REAL" decl || contains_ci "FLOA" decl || contains_ci "DOUB" decl
  then AffReal
  else AffNumeric.

(** The integer a decimal is equal to, when it is one strictly between the
    smallest and the largest 64-bit integer. *)
Definition int_of_decimal (m e : Z) : option Z :=
  let whole :=
    if 0 <=? e then Some (m * 10 ^ e)
    else if m mod 10 ^ (- e) =? 0 then Some (m / 10 ^ (- e)) else None in
  match whole with
  | Some v => if (int64_min <? v) && (v <? int64_max) then Some v else None
  | None => None
  end.

(** Reading a text as a number.  The text is optional blanks, an optional
    sign, digits with an optional point (at least one digit), an optional
    exponent ([e] or [E], optional sign, digits) and optional blanks. *)
Inductive numchar :=
| CBlank | CDigit (d : Z) | CPlus | CMinus | CPoint | CExp | COther.

Definition classify (c : ascii) : numchar :=
  let n := nat_of_ascii c in
  if ((n =? 32) || ((9 <=? n) && (n <=? 13)))%nat then CBlank
  else if ((48 <=? n) && (n <=? 57))%nat then CDigit (Z.of_nat n - 48)
  else if (n =? 43)%nat then CPlus
  else if (n =? 45)%nat then CMinus
  else if (n =? 46)%nat then CPoint
  else if ((n =? 101) || (n =? 69))%nat then CExp
  else COther.

(** Where the reader stands in the text. *)
Inductive numphase :=
| PLead           (* leading blanks *)
| PSign           (* after the sign *)
| PInt            (* in the digits before the point *)
| PFrac           (* after the point *)
| PExp            (* after [e] *)
| PExpSign        (* after the sign of the exponent *)
| PExpDigits      (* in the digits of the exponent *)
| PTrail.         (* trailing blanks *)

(** What was read so far: sign and digits of the mantissa, number of digits
    after the point, whether a digit was seen, sign and digits of the
    exponent, whether the text is still a plain integer. *)
Record numacc := mkAcc {
  a_neg : bool;
  a_mant : Z;
  a_scale : Z;
  a_digit : bool;
  a_eneg : bool;
  a_exp : Z;
  a_plain : bool
}.

Definition acc0 : numacc := mkAcc false 0 0 false false 0 true.

Definition push_digit (frac : bool) (d : Z) (a : numacc) : numacc :=
  mkAcc (a_neg a) (10 * a_mant a + d) (if frac then a_scale a + 1 else a_scale a)
        true (a_eneg a) (a_exp a) (a_plain a).

Definition push_exp_digit (d : Z) (a : numacc) : numacc :=
  mkAcc (a_neg a) (a_mant a) (a_scale a) (a_digit a) (a_eneg a) (10 * a_exp a + d)
        (a_plain a).

Definition set_neg (a : numacc) : numacc :=
  mkAcc true (a_mant a) (a_scale a) (a_digit a) (a_eneg a) (a_exp a) (a_plain a).

Definition set_eneg (a : numacc) : numacc :=
  mkAcc (a_neg a) (a_mant a) (a_scale a) (a_digit a) true (a_exp a) (a_plain a).

Definition not_plain (a : numacc) : numacc :=
  mkAcc (a_neg a) (a_mant a) (a_scale a) (a_digit a) (a_eneg a) (a_exp a) false.

Fixpoint read_number (s : string) (ph : numphase) (a : numacc) : option numacc :=
  match s with
  | EmptyString =>
      match ph with
      | PInt | PExpDigits | PTrail => Some a
      | PFrac => if a_digit a then Some a else None
      | _ => None
      end
  | String c s' =>
      match classify c with
      | COther => None
      | CBlank =>
          match ph with
          | PLead => read_number s' PLead a
          | PInt | PExpDigits | PTrail => read_number s' PTrail a
          | PFrac => if a_digit a then read_number s' PTrail a else None
          | _ => None
          end
      | CDigit d =>
          match ph with
          | PLead | PSign | PInt => read_number s' PInt (push_digit false d a)
          | PFrac => read_number s' PFrac (push_digit true d a)
          | PExp | PExpSign | PExpDigits => read_number s' PExpDigits (push_exp_digit d a)
          | PTrail => None
          end
      | CPlus =>
          match ph with
          | PLead => read_number s' PSign a
          | PExp => read_number s' PExpSign a
          | _ => None
          end
      | CMinus =>
          match ph with
          | PLead => read_number s' PSign (set_neg a)
          | PExp => read_number s' PExpSign (set_eneg a)
          | _ => None
          end
      | CPoint =>
          match ph with
          | PLead | PSign | PInt => read_number s' PFrac (not_plain a)
          | _ => None
          end
      | CExp =>
          match ph with
          | PInt => read_number s' PExp (not_plain a)
          | PFrac => if a_digit a then read_number s' PExp (not_plain a) else None
          | _ => None
          end
      end
  end.

(** The number a text stands for under NUMERIC affinity: an integer when
    the text is a plain integer that fits 64 bits or a decimal equal to an
    integer, a REAL otherwise; [None] when the text is not a number. *)
Definition numeric_of_text (s : string) : option sqlval :=
  a ← read_number s PLead acc0;
  let m := if a_neg a then - a_mant a else a_mant a in
  let e := (if a_eneg a then - a_exp a else a_exp a) - a_scale a in
  Some (if a_plain a
        then if (int64_min <=? m) && (m <=? int64_max) then SInt m else SReal (FFin m 0)
        else match int_of_decimal m e with
             | Some v => SInt v
             | None => SReal (FFin m e)
             end).

Fixpoint strip_zeros (fuel : nat) (m e : Z) : Z * Z :=
  match fuel with
  | O => (m, e)
  | S fuel' => if (m mod 10 =? 0) && negb (m =? 0) then strip_zeros fuel' (m / 10) (e + 1)
               else (m, e)
  end.

Fixpoint zeros (n : nat) : string :=
  match n with
  | O => ""
  | S n' => String "0" (zeros n')
  end.

Fixpoint take_str (n : nat) (s : string) : string :=
  match n, s with
  | S n', String c s' => String c (take_str n' s')
  | _, _ => ""
  end.

Fixpoint drop_str (n : nat) (s : string) : string :=
  match n, s with
  | S n', String _ s' => drop_str n' s'
  | _, _ => s
  end.

(** A REAL as text, as [printf("%!.15g")] writes it: fifteen significant
    digits, no trailing zero but always a digit after the point, an
    exponent when the first digit is worth less than [1e-4] or at least
    [1e15]. *)
Definition text_of_real (f : pyfloat) : string :=
  match f with
  | FNaN => "NaN"
  | FInf neg => if neg then "-Inf" else "Inf"
  | FFin m e =>
      if m =? 0 then "0.0"
      else
        let n := Z.of_nat (String.length (digits (Z.abs m))) in
        let '(m15, e15) :=
          if 15 <? n then
            let k := n - 15 in
            let q := Z.abs m / 10 ^ k in
            let next := (Z.abs m / 10 ^ (k - 1)) mod 10 in
            ((if 5 <=? next then q + 1 else q), e + k)
          else (Z.abs m, e) in
        let '(ms, es) := strip_zeros 16 m15 e15 in
        let ds := digits ms in
        let len := Z.of_nat (String.length ds) in
        let x := len + es - 1 in
        let sign := if m <? 0 then "-" else "" in
        let body :=
          if (x <? -4) || (14 <? x) then
            take_str 1 ds +:+ "." +:+
            (if len =? 1 then "0" else drop_str 1 ds) +:+
            "e" +:+ (if x <? 0 then "-" else "+") +:+
            (if Z.abs x <? 10 then "0" else "") +:+ digits (Z.abs x)
          else if 0 <=? x then
            if len <=? x + 1
            then ds +:+ zeros (Z.to_nat (x + 1 - len)) +:+ ".0"
            else take_str (Z.to_nat (x + 1)) ds +:+ "." +:+ drop_str (Z.to_nat (x + 1)) ds
          else "0." +:+ zeros (Z.to_nat (- x - 1)) +:+ ds in
        sign +:+ body
  end.

(** A value as a column of the given affinity stores it.  NUMERIC and
    INTEGER turn a text that is a number into that number and a REAL equal
    to an integer into that integer; REAL does the same and then turns
    integers into REALs; TEXT turns numbers into text; NULL stays NULL. *)
Definition apply_affinity (a : affinity) (v : sqlval) : sqlval :=
  match a with
  | AffBlob => v
  | AffText =>
      match v with
      | SInt z => SText (text_of_int z)
      | SReal f => SText (text_of_real f)
      | _ => v
      end
  | AffNumeric | AffInteger =>
      match v with
      | SText s => default v (numeric_of_text s)
      | SReal (FFin m e) => match int_of_decimal m e with
                            | Some z => SInt z
                            | None => v
                            end
      | _ => v
      end
  | AffReal =>
      match v with
      | SText s => match numeric_of_text s with
                   | Some (SInt z) => SReal (FFin z 0)
                   | Some n => n
                   | None => v
                   end
      | SInt z => SReal (FFin z 0)
      | _ => v
      end
  end.

Definition has_col (t : table) (c : string) : bool :=
  existsb (fun cd => String.eqb (c_name cd) c) (t_cols t).

Definition needs_id (t : table) (cols : list string) : bool :=
  existsb (fun cd => c_autoinc cd && negb (existsb (String.eqb (c_name cd)) cols))
          (t_cols t).

(** One [INSERT INTO t (cols) VALUES (?, ..., ?)] on a table: a listed
    column stores its value under its affinity, columns not listed get
    NULL, the AUTOINCREMENT key gets the next id.  [None]: no id is left
    (the counter stands at the largest 64-bit integer). *)
Definition insert_row (t : table) (cols : list string) (vals : list sqlval)
  : option table :=
  if needs_id t cols && (int64_max <=? t_seq t) then None
  else
    let given := zip cols vals in
    let row := map (fun cd =>
                 match assoc (c_name cd) given with
                 | Some v => apply_affinity (affinity_of (c_type cd)) v
                 | None => if c_autoinc cd then SInt (t_seq t + 1) else SNull
                 end) (t_cols t) in
    Some (mkTable (t_cols t) (t_rows t ++ [row])
                  (if needs_id t cols then t_seq t + 1 else t_seq t)).

(** [CREATE TABLE IF NOT EXISTS name (cols)]: an existing table of that
    name is left as it is, whatever its columns and rows. *)
Definition create_if_absent (name : string) (cols : list coldef) (db : database)
  : database :=
  match db !! name with
  | Some _ => db
  | None => <[name := mkTable cols [] 0]> db
  end.

Definition set_conn (c : option connection) (w : world) : world :=
  mkWorld (w_disk w) c (w_out w).

(** [sqlite3.connect('seismological_data.db')]. *)
Definition sqlite3_connect : M unit :=
  emit EvConnect ;;
  modify (fun w => set_conn (Some (mkConn (w_disk w) false)) w).

(** The open connection; using a closed one raises. *)
Definition the_conn : M connection :=
  fun w => match w_conn w with
           | Some c => (Ok c, w)
           | None => (Raise ProgrammingError, w)
           end.

(** [conn.commit()] and [conn.close()]; closing drops what was not
    committed. *)
Definition commit : M unit :=
  emit EvCommit ;;
  c ← the_conn;
  modify (fun w => mkWorld (conn_db c) (Some (mkConn (conn_db c) false)) (w_out w)).

Definition close : M unit :=
  emit EvClose ;; modify (set_conn None).

Section Program.

(** The collaborators the script calls but does not define. *)

(** The reply of the [n]-th HTTP request of the run (counting from 0): its
    body as text and as decoded JSON, or a transport failure. *)
Record response := mkResponse {
  resp_text : string;
  resp_json : result pyval
}.
Variable http_get : nat -> string -> list (string * pyval) -> result response.

(** Python's [float(s)] on a string: [None] when it raises [ValueError]. *)
Variable py_float : string -> option pyfloat.

(** [pd.to_datetime] on one cell of a Series ([unit_ms] tells whether
    [unit='ms'] was passed); the whole Series is available because pandas
    may infer the format from other cells. *)
Variable to_datetime_cell : bool -> list pyval -> pyval -> result pyval.

(** [Timestamp.isoformat()]: the date and the time of day, which the
    result shows with a ["T"] between them. *)
Variable isoformat : Z -> string * string.

(** SQLite evaluating one SELECT statement given as text. *)
Variable sqlite_select : string -> database -> result (list (list sqlval)).

Definition to_datetime (unit_ms : bool) (vs : list pyval) : result (list pyval) :=
  rmap (to_datetime_cell unit_ms vs) vs.

(** [x.isoformat()]: defined on Timestamp and NaT. *)
Definition py_isoformat (x : pyval) : result pyval :=
  match x with
  | VTime ns => Ok (VStr ((isoformat ns).1 +:+ "T" +:+ (isoformat ns).2))
  | VNaT => Ok (VStr "NaT")
  | _ => Raise AttributeError
  end.

(** One cell of [Series.astype(float)] on an object Series. *)
Definition astype_float_cell (v : pyval) : result pyval :=
  match v with
  | VNone => Ok NaN
  | VBool b => Ok (VFloat (FFin (if b then 1 else 0) 0))
  | VInt z => Ok (VFloat (FFin z 0))
  | VFloat f => Ok (VFloat f)
  | VStr s => match py_float s with
              | Some f => Ok (VFloat f)
              | None => Raise ValueError
              end
  | VTime _ | VNaT | VList _ | VDict _ => Raise TypeError
  end.

Definition astype_float (vs : list pyval) : result (list pyval) :=
  rmap astype_float_cell vs.

(** [cursor.execute(statement, params)]; the result is what the cursor then
    holds for [fetchall].  A statement is compiled first (unknown table or
    column), a data change opens a transaction, then the parameters are
    bound and the statement runs.  When no id is left the statement fails
    with "database or disk is full" and SQLite rolls the open transaction
    back: the connection sees the file again.  DDL outside a transaction is
    written through to the file. *)
Definition execute (s : stmt) (params : list pyval) : M (list (list sqlval)) :=
  emit (EvExecute s params) ;;
  c ← the_conn;
  match s with
  | CreateTableIfNotExists name cols =>
      let db' := create_if_absent name cols (conn_db c) in
      modify (fun w => mkWorld (if conn_in_tx c then w_disk w else db')
                               (Some (mkConn db' (conn_in_tx c))) (w_out w)) ;;
      mret []
  | InsertInto name cols =>
      match conn_db c !! name with
      | None => raise OperationalError
      | Some t =>
          if negb (forallb (has_col t) cols) then raise OperationalError
          else
            modify (set_conn (Some (mkConn (conn_db c) true))) ;;
            if negb (length cols =? length params)%nat then raise ProgrammingError
            else
              vals ← lift (rmap bind_param params);
              match insert_row t cols vals with
              | Some t' =>
                  modify (set_conn (Some (mkConn (<[name := t']> (conn_db c)) true))) ;;
                  mret []
              | None =>
                  modify (fun w => set_conn (Some (mkConn (w_disk w) false)) w) ;;
                  raise OperationalError
              end
      end
  | RawSql text => lift (sqlite_select text (conn_db c))
  end.

Definition fetchall (cur : list (list sqlval)) : M (list (list sqlval)) :=
  emit EvFetchAll ;; ret cur.

(** ** Source adapters *)

Definition is_http_get (e : event) : bool :=
  match e with EvHttpGet _ _ => true | _ => false end.

Definition requests_made (w : world) : nat :=
  length (filter (fun e => is_http_get e = true) (w_out w)).

(** [requests.get(url, params=params)]. *)
Definition requests_get (url : string) (params : list (string * pyval)) : M response :=
  w ← get;
  emit (EvHttpGet url params) ;;
  lift (http_get (requests_made w) url params).

Definition fetch_usgs_data (start_time end_time min_magnitude : pyval) : M DataFrame :=
  let url := "https://earthquake.usgs.gov/fdsnws/event/1/query" in
  let params := [("format", VStr "geojson"); ("starttime", start_time);
                 ("endtime", end_time); ("minmagnitude", min_magnitude)] in
  response ← requests_get url params;
  data ← lift (resp_json response);
  features ← lift (py_getitem data "features");
  lift (json_normalize features).

Definition fetch_isc_data (start_time end_time min_magnitude : pyval) : M DataFrame :=
  let url := "http://isc-mirror.iris.washington.edu/fdsnws/event/1/query" in
  let params := [("format", VStr "text"); ("starttime", start_time);
                 ("endtime", end_time); ("minmagnitude", min_magnitude)] in
  response ← requests_get url params;
  match splitlines (resp_text response) with
  | [] => raise IndexError                    (* lines[0] *)
  | line0 :: rest =>
      let headers := split pipe line0 in
      let data := map (fun line => map VStr (split pipe line)) rest in
      lift (frame_of_rows data headers)
  end.

(** ** Normalizer *)

Definition df_get (c : string) : ST DataFrame (list pyval) :=
  df ← get; lift (getitem c df).

Definition df_set (c : string) (vs : list pyval) : ST DataFrame unit :=
  modify (setitem c vs).

Definition canonical_columns : list string :=
  ["time"; "magnitude"; "longitude"; "latitude"].

(** Both functions run on the caller's frame: the state of [ST DataFrame] is
    the object bound to the argument, the value is the returned frame. *)
Definition standardize_usgs_data : ST DataFrame DataFrame :=
  t ← df_get "properties.time";
  time ← lift (to_datetime true t);
  df_set "time" time ;;
  mag ← df_get "properties.mag";
  df_set "magnitude" mag ;;
  c0 ← df_get "geometry.coordinates";
  lon ← lift (rmap (py_index 0) c0);
  df_set "longitude" lon ;;
  c1 ← df_get "geometry.coordinates";
  lat ← lift (rmap (py_index 1) c1);
  df_set "latitude" lat ;;
  df ← get;
  lift (project canonical_columns df).

Definition standardize_isc_data : ST DataFrame DataFrame :=
  t ← df_get "Time";
  time ← lift (to_datetime false t);
  df_set "time" time ;;
  m ← df_get "Magnitude";
  mag ← lift (astype_float m);
  df_set "magnitude" mag ;;
  lo ← df_get "Longitude";
  lon ← lift (astype_float lo);
  df_set "longitude" lon ;;
  la ← df_get "Latitude";
  lat ← lift (astype_float la);
  df_set "latitude" lat ;;
  df ← get;
  lift (project canonical_columns df).

(** [clean = f(raw)] inside the program: the pair is the returned frame and
    the caller's frame after the call. *)
Definition call_frame {A} (f : ST DataFrame A) (raw : DataFrame) : M (A * DataFrame) :=
  lift (match f raw with
        | (Ok a, raw') => Ok (a, raw')
        | (Raise e, _) => Raise e
        end).

(** ** The script *)

Record Args := mkArgs {
  fetch : bool;               (* --fetch *)
  query : option string       (* --query <predicate> *)
}.

Definition date_from : pyval := VStr "2023-01-01".
Definition date_to : pyval := VStr "2023-12-31".
Definition five : pyval := VFloat (FFin 50 (-1)).

Definition earthquakes_cols : list coldef :=
  [ mkCol "id" "INTEGER" true;
    mkCol "time" "TIMESTAMP" false;
    mkCol "magnitude" "FLOAT" false;
    mkCol "longitude" "FLOAT" false;
    mkCol "latitude" "FLOAT" false;
    mkCol "source" "TEXT" false ].

Definition create_earthquakes : stmt :=
  CreateTableIfNotExists "earthquakes" earthquakes_cols.

Definition insert_earthquake : stmt :=
  InsertInto "earthquakes" ["time"; "magnitude"; "longitude"; "latitude"; "source"].

Definition nl : string := String (ascii_of_nat 10) EmptyString.

Definition result_columns : list string :=
  ["id"; "time"; "magnitude"; "longitude"; "latitude"; "source"].

(** What [fetchall] hands back for one stored value. *)
Definition py_of_sql (v : sqlval) : pyval :=
  match v with
  | SNull => VNone
  | SInt z => VInt z
  | SReal f => VFloat f
  | SText s => VStr s
  end.

Definition frame_of_results (results : list (list sqlval)) : result DataFrame :=
  frame_of_rows (map (map py_of_sql) results) result_columns.

(** Lines 94-107: open the file and make sure the table is there (the
    store's initialize step). *)
Definition initialize : M unit :=
  sqlite3_connect ;;
  execute create_earthquakes [] ;;
  mret tt.

(** [m] run [n] times in a row. *)
Fixpoint times {S} (n : nat) (m : ST S unit) : ST S unit :=
  match n with
  | O => mret tt
  | S n' => m ;; times n' m
  end.

(** The parameter tuple of the module-level insert loops. *)
Definition tagged_params (tag : string) (row : Row) : M (list pyval) :=
  t ← lift (row_getitem "time" row);
  iso ← lift (py_isoformat t);
  mag ← lift (row_getitem "magnitude" row);
  lon ← lift (row_getitem "longitude" row);
  lat ← lift (row_getitem "latitude" row);
  mret [iso; mag; lon; lat; VStr tag].

(** The parameter tuple of the insert loop in [main]. *)
Definition main_params (row : Row) : M (list pyval) :=
  t ← lift (row_getitem "time" row);
  mag ← lift (row_getitem "magnitude" row);
  lon ← lift (row_getitem "longitude" row);
  lat ← lift (row_getitem "latitude" row);
  mret [t; mag; lon; lat; row_get "source" (VStr "Unknown") row].

(** Lines 115-120: the source-A loop, no handler. *)
Definition insert_usgs (usgs_data_clean : DataFrame) : M unit :=
  for_each (iterrows usgs_data_clean) (fun row =>
    ps ← tagged_params "USGS" row;
    execute insert_earthquake ps ;; mret tt).

(** Lines 136-144: the source-B loop, each row under its own handler. *)
Definition insert_isc (isc_data_clean : DataFrame) : M unit :=
  for_each (iterrows isc_data_clean) (fun row =>
    try_except
      (ps ← tagged_params "ISC" row;
       execute insert_earthquake ps ;; mret tt)
      (fun e => print (PErrorRow row) ;; print (PErrorMessage e))).

(** Lines 212-216: the loop of [main] over the merged table, no handler. *)
Definition insert_combined (combined_data : DataFrame) : M unit :=
  for_each (iterrows combined_data) (fun row =>
    ps ← main_params row;
    execute insert_earthquake ps ;; mret tt).

(** [f"SELECT * FROM earthquakes WHERE {p}"]. *)
Definition select_where (p : string) : stmt :=
  RawSql ("SELECT * FROM earthquakes WHERE " +:+ p).

(** Truth value of [args.query]: [None] and the empty string are false. *)
Definition truthy (q : option string) : bool :=
  match q with
  | None | Some EmptyString => false
  | Some _ => true
  end.

Definition main (args : Args) : M unit :=
  if fetch args then
    usgs_data ← fetch_usgs_data date_from date_to five;
    isc_data ← fetch_isc_data date_from date_to five;
    '(usgs_data_clean, _) ← call_frame standardize_usgs_data usgs_data;
    '(isc_data_clean, _) ← call_frame standardize_isc_data isc_data;
    let combined_data := concat usgs_data_clean isc_data_clean in
    sqlite3_connect ;;
    insert_combined combined_data ;;
    commit ;;
    close ;;
    print (PText "Data fetched and stored successfully.")
  else if truthy (query args) then
    sqlite3_connect ;;
    cur ← execute (select_where (default "" (query args))) [];
    results ← fetchall cur;
    query_results ← lift (frame_of_results results);
    print (PFrame query_results) ;;
    close
  else mret tt.

(** The module-level cells, in order. *)
Definition cells : M unit :=
  (* In[1], In[2] *)
  usgs_data ← fetch_usgs_data date_from date_to five;
  print (PFrame (head usgs_data)) ;;
  isc_data ← fetch_isc_data date_from date_to five;
  print (PFrame (head isc_data)) ;;
  (* In[3] *)
  '(usgs_data_clean, _) ← call_frame standardize_usgs_data usgs_data;
  '(isc_data_clean, _) ← call_frame standardize_isc_data isc_data;
  let combined_data := concat usgs_data_clean isc_data_clean in
  print (PFrame (head combined_data)) ;;
  (* In[4] *)
  initialize ;;
  (* In[13] *)
  insert_usgs usgs_data_clean ;;
  isc_data_clean ← lift (dropna ["magnitude"; "longitude"; "latitude"] isc_data_clean);
  print (PCounts (isna_sum isc_data_clean)) ;;
  insert_isc isc_data_clean ;;
  commit ;;
  close ;;
  (* In[14] *)
  sqlite3_connect ;;
  cur ← execute (RawSql (nl +:+ "SELECT * FROM earthquakes WHERE magnitude > 6.0" +:+ nl)) [];
  results ← fetchall cur;
  high_magnitude_quakes ← lift (frame_of_results results);
  print (PFrame high_magnitude_quakes) ;;
  close ;;
  (* In[15]: what matplotlib does with the data is not modelled *)
  xs ← lift (getitem "longitude" combined_data);
  ys ← lift (getitem "latitude" combined_data);
  cs ← lift (getitem "magnitude" combined_data);
  emit (EvPlot xs ys cs).

(** Running the file as a program: every cell, then [main]. *)
Definition run_program (args : Args) : M unit :=
  cells ;; main args.

End Program.

(** ** Vocabulary of the properties *)

(** The caller's frame once the four assignments of a normalizer ran. *)
Definition after_assignments (time mag lon lat : list pyval) (raw : DataFrame)
  : DataFrame :=
  setitem "latitude" lat
    (setitem "longitude" lon (setitem "magnitude" mag (setitem "time" time raw))).

(** The caller's frame once the listed columns were assigned, in order. *)
Definition assigned (cols : list (string * list pyval)) (raw : DataFrame) : DataFrame :=
  foldl (fun df kv => setitem kv.1 kv.2 df) raw cols.

(** A normalized table: exactly the four canonical columns, each with one
    cell per row. *)
Definition normalized (t : DataFrame) : Prop :=
  columns t = canonical_columns /\ cols_len_ok t.

(** The table, if there, is the one this program creates. *)
Definition store_ok (db : database) : Prop :=
  forall t, db !! "earthquakes" = Some t -> t_cols t = earthquakes_cols.

(** The columns of a table besides its surrogate key. *)
Definition data_columns (t : table) : list string :=
  map c_name (filter (fun c => c_autoinc c = false) (t_cols t)).

(** A cell of a text column that [float] rejects. *)
Definition unparseable (py_float : string -> option pyfloat) (v : pyval) : bool :=
  match v with
  | VStr s => match py_float s with None => true | Some _ => false end
  | _ => false
  end.

(** Some magnitude, longitude or latitude field of the raw source-B table
    does not parse. *)
Definition has_unparseable (py_float : string -> option pyfloat) (raw : DataFrame)
  : bool :=
  existsb (fun c => match assoc c (df_cols raw) with
                    | Some vs => existsb (unparseable py_float) vs
                    | None => false
                    end)
          ["Magnitude"; "Longitude"; "Latitude"].

(** A run that changes nothing and does nothing observable. *)
Definition noop (m : M unit) (w : world) : Prop := m w = (Ok tt, w).

Definition is_execute (e : event) : bool :=
  match e with EvExecute _ _ => true | _ => false end.

Definition is_commit (e : event) : bool :=
  match e with EvCommit => true | _ => false end.

(** The statements a run handed to [cursor.execute], oldest first. *)
Definition executed (w : world) : list event :=
  filter (fun e => is_execute e = true) (w_out w).

(** A fetch only adds its request to the trace. *)
Definition fetched (w w' : world) : Prop :=
  w_disk w' = w_disk w /\ w_conn w' = w_conn w /\
  exists url ps, w_out w' = w_out w ++ [EvHttpGet url ps].

(** [sep.join(pieces)]. *)
Fixpoint join (sep : ascii) (pieces : list string) : string :=
  match pieces with
  | [] => EmptyString
  | [x] => x
  | x :: rest => x +:+ String sep (join sep rest)
  end.

(** The characters of a string. *)
Fixpoint chars (s : string) : list ascii :=
  match s with
  | EmptyString => []
  | String c s' => c :: chars s'
  end.

(** The two requests of the script. *)
Definition usgs_url : string := "https://earthquake.usgs.gov/fdsnws/event/1/query".
Definition isc_url : string :=
  "http://isc-mirror.iris.washington.edu/fdsnws/event/1/query".

Definition usgs_params (start_time end_time min_magnitude : pyval)
  : list (string * pyval) :=
  [("format", VStr "geojson"); ("starttime", start_time);
   ("endtime", end_time); ("minmagnitude", min_magnitude)].

Definition isc_params (start_time end_time min_magnitude : pyval)
  : list (string * pyval) :=
  [("format", VStr "text"); ("starttime", start_time);
   ("endtime", end_time); ("minmagnitude", min_magnitude)].

(** The world once one more request was sent. *)
Definition requested (url : string) (ps : list (string * pyval)) (w : world) : world :=
  mkWorld (w_disk w) (w_conn w) (w_out w ++ [EvHttpGet url ps]).

(** One row of cells under the header labels; a missing cell is [None]. *)
Definition under_headers (headers : list string) (r : list pyval) : Row :=
  imap (fun j h => (h, nth j r VNone)) headers.

(** The fields of one text line as cells. *)
Definition fields (line : string) : list pyval := map VStr (split pipe line).

(** The largest number of fields among some lines. *)
Definition widest (lines : list string) : nat :=
  foldr Nat.max 0%nat (map (fun line => length (fields line)) lines).

(** What a normalizer may do to the caller's frame: the row count, the
    columns outside the four it assigns and the labels already there all
    stay. *)
Definition only_assigns_canonical (raw raw' : DataFrame) : Prop :=
  df_len raw' = df_len raw /\
  (forall c, c ∉ canonical_columns -> assoc c (df_cols raw') = assoc c (df_cols raw)) /\
  (forall c, c ∈ columns raw -> c ∈ columns raw').

Definition is_list (v : pyval) : bool :=
  match v with VList _ => true | _ => false end.

(** A coordinate cell with fewer than two elements. *)
Definition short_coordinates (v : pyval) : bool :=
  match v with
  | VList l => (length l <? 2)%nat
  | _ => false
  end.

(** A row with no missing value under the listed labels. *)
Definition row_complete (cs : list string) (row : Row) : bool :=
  forallb (fun c => negb (isna (row_get c NaN row))) cs.

(** The id of a stored record, its first field. *)
Definition record_id (r : list sqlval) : option Z :=
  match r with
  | SInt z :: _ => Some z
  | _ => None
  end.

(** Every record has an id, no id exceeds the counter of the table and no
    two records share one. *)
Definition ids_ok (t : table) : Prop :=
  Forall (fun r => exists z, record_id r = Some z /\ z <= t_seq t) (t_rows t) /\
  NoDup (map record_id (t_rows t)).

(** The affinities of the five data columns of [earthquakes]: NUMERIC for
    the TIMESTAMP, REAL for the three FLOATs, TEXT for the source. *)
Definition data_affinities : list affinity :=
  map (fun cd => affinity_of (c_type cd))
      (filter (fun cd => c_autoinc cd = false) earthquakes_cols).

(** Five bound values as the data columns store them. *)
Definition stored_fields (vals : list sqlval) : list sqlval :=
  zip_with apply_affinity data_affinities vals.

(** The connection after one more record went into [earthquakes]. *)
Definition with_record (c : connection) (t : table) (vals : list sqlval)
  : connection :=
  mkConn (<["earthquakes" :=
             mkTable earthquakes_cols
                     (t_rows t ++ [SInt (t_seq t + 1) :: stored_fields vals])
                     (t_seq t + 1)]> (conn_db c))
         true.

(** The connection after SQLite rolled its transaction back. *)
Definition rolled_back (w : world) : connection := mkConn (w_disk w) false.

(** The world after a statement was handed to an open connection [c]. *)
Definition attempted (s : stmt) (ps : list pyval) (c : connection) (w : world)
  : world :=
  mkWorld (w_disk w) (Some c) (w_out w ++ [EvExecute s ps]).

(** A Timestamp or NaT, what [pd.to_datetime] makes of a cell. *)
Definition is_datetime (v : pyval) : bool :=
  match v with
  | VTime _ | VNaT => true
  | _ => false
  end.

(** [pd.to_datetime] yields Timestamps and NaT, nothing else. *)
Definition datetime_parser
    (to_datetime_cell : bool -> list pyval -> pyval -> result pyval) : Prop :=
  forall unit_ms series v r,
    to_datetime_cell unit_ms series v = Ok r -> is_datetime r = true.

(** The committed file is the same in both worlds. *)
Definition same_file (w w' : world) : Prop := w_disk w' = w_disk w.

(** The world right after [sqlite3.connect]. *)
Definition connected (w : world) : world :=
  mkWorld (w_disk w) (Some (mkConn (w_disk w) false)) (w_out w ++ [EvConnect]).

(** A complete record of source B: an id, a time text, three non-null
    numbers and the tag. *)
Definition isc_record (r : list sqlval) : Prop :=
  exists id iso m lo la,
    r = [SInt id; SText iso; m; lo; la; SText "ISC"] /\
    m <> SNull /\ lo <> SNull /\ la <> SNull.

(** A record of source A: an id, a time text, three values and the tag. *)
Definition usgs_record (r : list sqlval) : Prop :=
  exists id iso m lo la, r = [SInt id; SText iso; m; lo; la; SText "USGS"].

(** The file and the open connection both hold the canonical table.  The
    file has the records [base]; the connection has them followed by
    [pending] and by records that satisfy [P] or, once a transaction was
    rolled back, by records that satisfy [P] only. *)
Definition pending_over (P : list sqlval -> Prop) (base pending : list (list sqlval))
    (w : world) : Prop :=
  exists c t td added,
    w_conn w = Some c /\ conn_db c !! "earthquakes" = Some t /\
    t_cols t = earthquakes_cols /\
    w_disk w !! "earthquakes" = Some td /\
    t_cols td = earthquakes_cols /\ t_rows td = base /\
    Forall P added /\
    (t_rows t = base ++ pending ++ added \/ t_rows t = base ++ added).




(** The rows of the canonical table in the committed file. *)
Definition stored_rows (w : world) : list (list sqlval) :=
  match w_disk w !! "earthquakes" with
  | Some t => t_rows t
  | None => []
  end.

(** ** Concrete collaborators for the examples

    Simple stand-ins that agree with the real libraries on the inputs the
    examples use: decimal literals for [float], three ISO timestamps for
    [pd.to_datetime] and [isoformat], a server that always sends the same
    two bodies, and an engine that knows two WHERE clauses. *)
Module Demo.

Definition digit_of (c : ascii) : option Z :=
  let n := nat_of_ascii c in
  if ((48 <=? n) && (n <=? 57))%nat then Some (Z.of_nat n - 48) else None.

(** Reads digits into [acc]; [seen] tells whether one was read, [frac]
    counts the digits after the point ([None] before it). *)
Fixpoint read_decimal (s : string) (acc : Z) (seen : bool) (frac : option Z)
  : option pyfloat :=
  match s with
  | EmptyString =>
      if seen then Some (FFin acc (- default 0 frac)) else None
  | String c s' =>
      match digit_of c with
      | Some d => read_decimal s' (10 * acc + d) true (Z.succ <$> frac)
      | None =>
          if Ascii.eqb c "."%char then
            match frac with
            | None => read_decimal s' acc seen (Some 0)
            | Some _ => None
            end
          else None
      end
  end.

Definition fneg (f : pyfloat) : pyfloat :=
  match f with
  | FNaN => FNaN
  | FInf b => FInf (negb b)
  | FFin m e => FFin (- m) e
  end.

Definition py_float (s : string) : option pyfloat :=
  match s with
  | "nan" => Some FNaN
  | String "-" s' => fneg <$> read_decimal s' 0 false None
  | _ => read_decimal s 0 false None
  end.

Definition known_times : list (string * Z) :=
  [ ("2023-01-01T00:00:00", 1672531200);
    ("2023-05-01T00:00:00", 1682899200);
    ("2023-05-02T00:00:00", 1682985600) ].

Definition to_datetime_cell (unit_ms : bool) (_ : list pyval) (v : pyval)
  : result pyval :=
  match v with
  | VNone | VFloat FNaN => Ok VNaT
  | VInt ms => if unit_ms then Ok (VTime (ms * 1000000)) else Raise ValueError
  | VStr s => if unit_ms then Raise ValueError
              else match assoc s known_times with
                   | Some secs => Ok (VTime (secs * 1000000000))
                   | None => Raise ValueError
                   end
  | _ => Raise TypeError
  end.

Definition isoformat (ns : Z) : string * string :=
  match filter (fun kv => kv.2 * 1000000000 = ns) known_times with
  | (s, _) :: _ => (take_str 10 s, drop_str 11 s)
  | [] => ("1970-01-01", "00:00:00")
  end.

Definition usgs_url : string := "https://earthquake.usgs.gov/fdsnws/event/1/query".

(** A network that answers the feature query with [collection] and the
    text query with [text], every time. *)
Definition http_get (collection : pyval) (text : string)
  (_ : nat) (url : string) (_ : list (string * pyval)) : result response :=
  if String.eqb url usgs_url then Ok (mkResponse "" (Ok collection))
  else Ok (mkResponse text (Raise ValueError)).

(** [m1 * 10^e1 > m2 * 10^e2] on decimals. *)
Definition dec_gtb (m1 e1 m2 e2 : Z) : bool :=
  let e := Z.min e1 e2 in
  m2 * 10 ^ (e2 - e) <? m1 * 10 ^ (e1 - e).

Definition magnitude_above_6 (row : list sqlval) : bool :=
  match row !! 2%nat with
  | Some (SReal (FFin m e)) => dec_gtb m e 6 0
  | Some (SReal (FInf false)) => true
  | Some (SInt z) => 6 <? z
  | Some (SText _) => true
  | _ => false
  end.

Definition rows_of (db : database) : result (list (list sqlval)) :=
  match db !! "earthquakes" with
  | Some t => Ok (t_rows t)
  | None => Raise OperationalError
  end.

Definition sqlite_select (text : string) (db : database)
  : result (list (list sqlval)) :=
  if String.eqb text "SELECT * FROM earthquakes WHERE 1=1" then rows_of db
  else if String.eqb text (nl +:+ "SELECT * FROM earthquakes WHERE magnitude > 6.0" +:+ nl)
          || String.eqb text "SELECT * FROM earthquakes WHERE magnitude > 6.0"
  then try! rows := rows_of db in Ok (filter (fun r => magnitude_above_6 r = true) rows)
  else Raise OperationalError.


Definition feature (ms : pyval) (mag : pyval) (coords : list pyval) : pyval :=
  VDict [ ("type", VStr "Feature");
          ("properties", VDict [("mag", mag); ("time", ms)]);
          ("geometry", VDict [("type", VStr "Point"); ("coordinates", VList coords)]);
          ("id", VStr "us7000") ].

Definition collection (features : list pyval) : pyval :=
  VDict [("type", VStr "FeatureCollection"); ("features", VList features)].

Definition lf (s : string) : string := s +:+ nl.

Definition isc_header : string :=
  "#EventID|Time|Latitude|Longitude|Depth/km|Magnitude|EventLocationName".

Definition fresh : world := mkWorld ∅ None [].

Definition dec (m e : Z) : pyval := VFloat (FFin m e).

(** A file holding the two records of the query scenario. *)
Definition two_records : table :=
  mkTable earthquakes_cols
    [ [SInt 1; SText "2023-05-01T00:00:00Z"; SReal (FFin 62 (-1));
       SReal (FFin (-1201) (-1)); SReal (FFin 350 (-1)); SText "A"];
      [SInt 2; SText "2023-05-02T00:00:00Z"; SReal (FFin 51 (-1));
       SReal (FFin 1400 (-1)); SReal (FFin 360 (-1)); SText "B"] ]
    2.

Definition stored2 : world := mkWorld {["earthquakes" := two_records]} None [].

(** Two features for source A, three lines for source B. *)
Definition features2 : list pyval :=
  [ feature (VInt 1672531200000) (dec 62 (-1)) [dec (-1201) (-1); dec 350 (-1); VInt 10];
    feature (VInt 1682899200000) (dec 54 (-1)) [dec 1400 (-1); dec 360 (-1); VInt 20] ].

Definition text3 : string :=
  lf isc_header
  +:+ lf "101|2023-05-02T00:00:00|36.0|140.0|10|5.1|NEAR EAST COAST OF HONSHU"
  +:+ lf "102|2023-01-01T00:00:00|-20.5|-70.2|35|6.5|NORTHERN CHILE"
  +:+ lf "103|2023-05-01T00:00:00|38.1|22.4|12|5.0|GREECE".

Definition ok_or_empty (r : result DataFrame) : DataFrame :=
  match r with Ok df => df | Raise _ => empty_frame end.

Definition table_of_text (text : string) : DataFrame :=
  match splitlines text with
  | [] => empty_frame
  | line0 :: rest =>
      ok_or_empty (frame_of_rows (map (fun line => map VStr (split pipe line)) rest)
                                 (split pipe line0))
  end.

(** A reply of source B with one non-numeric magnitude and one well-formed
    line. *)
Definition bad_text : string :=
  lf isc_header
  +:+ lf "201|2023-05-01T00:00:00|38.1|22.4|12|n/a|GREECE"
  +:+ lf "202|2023-05-02T00:00:00|36.0|140.0|10|5.1|NEAR EAST COAST OF HONSHU".

(** A reply of source B whose second line stops after the longitude. *)
Definition short_text : string :=
  lf isc_header
  +:+ lf "301|2023-05-02T00:00:00|36.0|140.0|10|5.1|NEAR EAST COAST OF HONSHU"
  +:+ lf "302|2023-05-01T00:00:00|38.1|22.4".

(** A feature whose magnitude is JSON null, before a complete one. *)
Definition features_null_mag : list pyval :=
  [ feature (VInt 1672531200000) VNone [dec (-1201) (-1); dec 350 (-1); VInt 10];
    feature (VInt 1682899200000) (dec 54 (-1)) [dec 1400 (-1); dec 360 (-1); VInt 20] ].

(** A feature whose coordinates are a list of positions. *)
Definition features_line : list pyval :=
  [ feature (VInt 1672531200000) (dec 62 (-1))
            [VList [dec (-1201) (-1); dec 350 (-1)]; VList [dec (-1200) (-1); dec 351 (-1)]] ].

Definition raw_usgs : DataFrame := ok_or_empty (json_normalize (VList features2)).
Definition raw_bad : DataFrame := table_of_text bad_text.
Definition raw_isc : DataFrame := table_of_text text3.

(** The demo network and the program run against it. *)
Definition net : nat -> string -> list (string * pyval) -> result response :=
  http_get (collection features2) text3.

Definition run_on (collection_ : pyval) (text : string) (args : Args) : M unit :=
  run_program (http_get collection_ text) py_float to_datetime_cell isoformat
              sqlite_select args.

Definition main_on (collection_ : pyval) (text : string) (args : Args) : M unit :=
  main (http_get collection_ text) py_float to_datetime_cell sqlite_select args.

Definition clean_usgs : DataFrame :=
  ok_or_empty (standardize_usgs_data to_datetime_cell raw_usgs).1.
Definition clean_isc : DataFrame :=
  ok_or_empty (standardize_isc_data py_float to_datetime_cell raw_isc).1.

Definition clean_short : DataFrame :=
  ok_or_empty (standardize_isc_data py_float to_datetime_cell
                 (table_of_text short_text)).1.
Definition kept_short : DataFrame :=
  ok_or_empty (dropna ["magnitude"; "longitude"; "latitude"] clean_short).

(** A reply of source B whose data line has one field more than the
    header. *)
Definition wide_text : string :=
  lf "Time|Magnitude" +:+ lf "2023-05-01T00:00:00|5.0|GREECE".

(** A feature whose coordinates hold a longitude only. *)
Definition features_short : list pyval :=
  [ feature (VInt 1672531200000) (dec 62 (-1)) [dec (-1201) (-1)] ].

Definition raw_short_coordinates : DataFrame :=
  ok_or_empty (json_normalize (VList features_short)).

(** An open connection onto the file of the query scenario. *)
Definition opened : world :=
  mkWorld {["earthquakes" := two_records]}
          (Some (mkConn {["earthquakes" := two_records]} false))
          [EvConnect].

(** The parameters of one insert as the script loops pass them, and as
    [main] passes them, with a Timestamp. *)
Definition params_text : list pyval :=
  [VStr "2023-05-01T00:00:00"; dec 50 (-1); dec 224 (-1); dec 381 (-1); VStr "ISC"].

Definition params_timestamp : list pyval :=
  [VTime 1682899200000000000; dec 50 (-1); dec 224 (-1); dec 381 (-1); VStr "Unknown"].

Definition bound_text : list sqlval :=
  [SText "2023-05-01T00:00:00"; SReal (FFin 50 (-1)); SReal (FFin 224 (-1));
   SReal (FFin 381 (-1)); SText "ISC"].

(** Parameters that the columns convert: an integer magnitude, a longitude
    and a latitude given as text. *)
Definition params_mixed : list pyval :=
  [VStr "2023-05-01T00:00:00"; VInt 7; VStr "140"; VStr " 36.5 "; VStr "USGS"].

Definition bound_mixed : list sqlval :=
  [SText "2023-05-01T00:00:00"; SInt 7; SText "140"; SText " 36.5 "; SText "USGS"].

(** A file whose table has handed out every id but one, and an open
    connection onto it. *)
Definition last_id : table :=
  mkTable earthquakes_cols
    [ [SInt (int64_max - 1); SText "2023-05-01T00:00:00Z"; SReal (FFin 62 (-1));
       SReal (FFin (-1201) (-1)); SReal (FFin 350 (-1)); SText "A"] ]
    (int64_max - 1).

Definition nearly_full : world :=
  mkWorld {["earthquakes" := last_id]}
          (Some (mkConn {["earthquakes" := last_id]} false))
          [EvConnect].

(** The same once one more record was inserted, not yet committed: no id is
    left. *)
Definition full : world :=
  (execute sqlite_select insert_earthquake params_text nearly_full).2.

(** An open connection onto an empty file. *)
Definition fresh_conn : world := mkWorld ∅ (Some (mkConn ∅ false)) [EvConnect].

End Demo.


(** * Properties *)

(** ** Results and lists *)

Lemma rmap_length {A B} (f : A -> result B) l l' :
  rmap f l = Ok l' -> length l' = length l.
Proof.
  revert l'. induction l as [|x l IH]; intros l' H; simpl in H.
  - by inversion H.
  - destruct (f x); [|done]. simpl in H.
    destruct (rmap f l) as [ys|]; [|done]. simpl in H.
    inversion H; subst. simpl. f_equal. by apply IH.
Qed.

Lemma eqb_neq_false (a b : string) : a ≠ b -> String.eqb a b = false.
Proof. intros H. by apply String.eqb_neq. Qed.

(** ** Column assignment *)

Lemma assoc_app_Some {A} k (l1 l2 : list (string * A)) v :
  assoc k l1 = Some v -> assoc k (l1 ++ l2) = Some v.
Proof.
  induction l1 as [|[k' v'] l1 IH]; simpl; [done|].
  destruct (String.eqb k k'); auto.
Qed.

Lemma assoc_app_None {A} k (l1 l2 : list (string * A)) :
  assoc k l1 = None -> assoc k (l1 ++ l2) = assoc k l2.
Proof.
  induction l1 as [|[k' v'] l1 IH]; simpl; [done|].
  destruct (String.eqb k k'); [done|auto].
Qed.

Lemma assoc_replace_eq k vs (l : list (string * list pyval)) v0 :
  assoc k l = Some v0 ->
  assoc k (map (fun kv => if String.eqb k kv.1 then (kv.1, vs) else kv) l) = Some vs.
Proof.
  induction l as [|[k' v'] l IH]; simpl; [done|].
  destruct (String.eqb k k') eqn:E; simpl; rewrite E; auto.
Qed.

Lemma assoc_replace_ne k k' vs (l : list (string * list pyval)) :
  k ≠ k' ->
  assoc k' (map (fun kv => if String.eqb k kv.1 then (kv.1, vs) else kv) l) = assoc k' l.
Proof.
  intros Hne. induction l as [|[k0 v0] l IH]; simpl; [done|].
  destruct (String.eqb k k0) eqn:E; simpl.
  - apply String.eqb_eq in E. subst k0.
    rewrite (eqb_neq_false k' k) by congruence. apply IH.
  - destruct (String.eqb k' k0); [done|apply IH].
Qed.

Lemma assoc_setitem_eq c vs df :
  assoc c (df_cols (setitem c vs df)) = Some vs.
Proof.
  unfold setitem. destruct (assoc c (df_cols df)) eqn:E; simpl.
  - by eapply assoc_replace_eq.
  - rewrite assoc_app_None by done. simpl. by rewrite String.eqb_refl.
Qed.

Lemma assoc_setitem_ne c c' vs df :
  c ≠ c' -> assoc c' (df_cols (setitem c vs df)) = assoc c' (df_cols df).
Proof.
  intros Hne. unfold setitem. destruct (assoc c (df_cols df)) eqn:E; simpl.
  - by apply assoc_replace_ne.
  - destruct (assoc c' (df_cols df)) eqn:E'.
    + by apply assoc_app_Some.
    + rewrite assoc_app_None by done. simpl.
      by rewrite (eqb_neq_false c' c) by congruence.
Qed.

Lemma df_len_setitem c vs df : df_len (setitem c vs df) = df_len df.
Proof. unfold setitem. by destruct (assoc c (df_cols df)). Qed.

Lemma count_label_setitem_ne c c' vs df :
  c ≠ c' -> count_label c' (setitem c vs df) = count_label c' df.
Proof.
  intros Hne. unfold count_label, setitem.
  destruct (assoc c (df_cols df)) eqn:E; simpl.
  - clear E. induction (df_cols df) as [|[k0 v0] cols IH]; simpl; [done|].
    destruct (String.eqb c k0) eqn:E0; simpl.
    + apply String.eqb_eq in E0. subst k0.
      rewrite !filter_cons. simpl.
      destruct (decide (c = c')); [done|]. apply IH.
    + rewrite !filter_cons. simpl.
      destruct (decide (k0 = c')); simpl; by rewrite IH.
  - rewrite filter_app, length_app. simpl.
    rewrite filter_cons. simpl. destruct (decide (c = c')); [done|].
    simpl. lia.
Qed.

Lemma getitem_setitem_ne c c' vs df :
  c ≠ c' -> getitem c' (setitem c vs df) = getitem c' df.
Proof.
  intros Hne. unfold getitem.
  rewrite assoc_setitem_ne by done.
  by rewrite count_label_setitem_ne by done.
Qed.

Lemma getitem_assoc c df vs :
  getitem c df = Ok vs -> assoc c (df_cols df) = Some vs.
Proof.
  unfold getitem. destruct (assoc c (df_cols df)); [|done].
  destruct (_ =? _)%nat; [|done]. by intros [= ->].
Qed.

(** ** The normalizer, step by step *)

Ltac unfold_st :=
  unfold mbind, mret, ST_bind, ST_ret, bind, ret, raise, lift, get, modify,
         df_get, df_set in *.

Section Normalizer.

Variable py_float : string -> option pyfloat.
Variable to_datetime_cell : bool -> list pyval -> pyval -> result pyval.

Lemma standardize_usgs_data_inv raw out raw' :
  standardize_usgs_data to_datetime_cell raw = (Ok out, raw') ->
  exists t time mag c lon lat,
    getitem "properties.time" raw = Ok t /\
    to_datetime to_datetime_cell true t = Ok time /\
    getitem "properties.mag" raw = Ok mag /\
    getitem "geometry.coordinates" raw = Ok c /\
    rmap (py_index 0) c = Ok lon /\
    rmap (py_index 1) c = Ok lat /\
    raw' = after_assignments time mag lon lat raw /\
    project canonical_columns raw' = Ok out.
Proof.
  unfold standardize_usgs_data. unfold_st. simpl.
  destruct (getitem "properties.time" raw) as [t|] eqn:E1; simpl; [|done].
  destruct (to_datetime _ true t) as [time|] eqn:E2; simpl; [|done].
  rewrite getitem_setitem_ne by done.
  destruct (getitem "properties.mag" raw) as [mag|] eqn:E3; simpl; [|done].
  rewrite !getitem_setitem_ne by done.
  destruct (getitem "geometry.coordinates" raw) as [c|] eqn:E4; simpl; [|done].
  destruct (rmap (py_index 0) c) as [lon|] eqn:E5; simpl; [|done].
  rewrite !getitem_setitem_ne by done. rewrite E4. simpl.
  destruct (rmap (py_index 1) c) as [lat|] eqn:E6; simpl; [|done].
  fold (after_assignments time mag lon lat raw).
  intros [= Hp <-]. by exists t, time, mag, c, lon, lat.
Qed.

Lemma standardize_isc_data_inv raw out raw' :
  standardize_isc_data py_float to_datetime_cell raw = (Ok out, raw') ->
  exists t time m mag lo lon la lat,
    getitem "Time" raw = Ok t /\
    to_datetime to_datetime_cell false t = Ok time /\
    getitem "Magnitude" raw = Ok m /\ astype_float py_float m = Ok mag /\
    getitem "Longitude" raw = Ok lo /\ astype_float py_float lo = Ok lon /\
    getitem "Latitude" raw = Ok la /\ astype_float py_float la = Ok lat /\
    raw' = after_assignments time mag lon lat raw /\
    project canonical_columns raw' = Ok out.
Proof.
  unfold standardize_isc_data. unfold_st. simpl.
  destruct (getitem "Time" raw) as [t|] eqn:E1; simpl; [|done].
  destruct (to_datetime _ false t) as [time|] eqn:E2; simpl; [|done].
  rewrite getitem_setitem_ne by done.
  destruct (getitem "Magnitude" raw) as [m|] eqn:E3; simpl; [|done].
  destruct (astype_float _ m) as [mag|] eqn:E4; simpl; [|done].
  rewrite !getitem_setitem_ne by done.
  destruct (getitem "Longitude" raw) as [lo|] eqn:E5; simpl; [|done].
  destruct (astype_float _ lo) as [lon|] eqn:E6; simpl; [|done].
  rewrite !getitem_setitem_ne by done.
  destruct (getitem "Latitude" raw) as [la|] eqn:E7; simpl; [|done].
  destruct (astype_float _ la) as [lat|] eqn:E8; simpl; [|done].
  fold (after_assignments time mag lon lat raw).
  intros [= Hp <-]. by exists t, time, m, mag, lo, lon, la, lat.
Qed.

End Normalizer.

(** ** Well-formed frames *)

Lemma assoc_None_not_in {A} k (l : list (string * A)) :
  assoc k l = None <-> k ∉ map fst l.
Proof.
  induction l as [|[k' v] l IH]; simpl.
  - split; [intros _; apply not_elem_of_nil|done].
  - rewrite not_elem_of_cons. destruct (String.eqb k k') eqn:E.
    + apply String.eqb_eq in E. split; [done|]. intros [? _]. done.
    + apply String.eqb_neq in E. rewrite IH. tauto.
Qed.

Lemma assoc_Some_in {A} k (l : list (string * A)) v :
  assoc k l = Some v -> (k, v) ∈ l.
Proof.
  induction l as [|[k' v'] l IH]; simpl; [done|].
  destruct (String.eqb k k') eqn:E.
  - apply String.eqb_eq in E. intros [= ->]. subst. apply elem_of_cons. by left.
  - intros H. apply elem_of_cons. right. auto.
Qed.

Lemma in_assoc_NoDup {A} k v (l : list (string * A)) :
  NoDup (map fst l) -> (k, v) ∈ l -> assoc k l = Some v.
Proof.
  induction l as [|[k' v'] l IH]; simpl; intros Hnd Hin.
  - by apply elem_of_nil in Hin.
  - apply NoDup_cons in Hnd as [Hk Hnd].
    apply elem_of_cons in Hin as [[= -> ->]|Hin].
    + by rewrite String.eqb_refl.
    + destruct (String.eqb k k') eqn:E; [|auto].
      apply String.eqb_eq in E. subst k'. exfalso. apply Hk.
      apply list_elem_of_In, in_map_iff. exists (k, v). split; [done|].
      by apply list_elem_of_In.
Qed.

Lemma filter_label_absent (c : string) (l : list (string * list pyval)) :
  c ∉ map fst l -> filter (fun kv => kv.1 = c) l = [].
Proof.
  induction l as [|[k v] l IH]; simpl; intros H; [done|].
  apply not_elem_of_cons in H as [Hne H].
  rewrite filter_cons. simpl. destruct (decide (k = c)); [congruence|auto].
Qed.

Lemma filter_label_NoDup (c : string) (l : list (string * list pyval)) vs :
  NoDup (map fst l) -> assoc c l = Some vs ->
  filter (fun kv => kv.1 = c) l = [(c, vs)].
Proof.
  induction l as [|[k v] l IH]; simpl; intros Hnd H; [done|].
  apply NoDup_cons in Hnd as [Hk Hnd]. rewrite filter_cons. simpl.
  destruct (String.eqb c k) eqn:E.
  - apply String.eqb_eq in E. subst k. inversion H; subst.
    destruct (decide (c = c)); [|done]. by rewrite filter_label_absent.
  - apply String.eqb_neq in E. destruct (decide (k = c)); [congruence|auto].
Qed.

Lemma setitem_columns_replace c vs (l : list (string * list pyval)) :
  map fst (map (fun kv => if String.eqb c kv.1 then (kv.1, vs) else kv) l) = map fst l.
Proof.
  induction l as [|[k v] l IH]; simpl; [done|].
  destruct (String.eqb c k); simpl; by rewrite IH.
Qed.

Lemma setitem_wf c vs df :
  df_wf df -> length vs = df_len df -> df_wf (setitem c vs df).
Proof.
  intros [Hlen Hnd] Hvs. unfold df_wf, cols_len_ok, columns, setitem in *.
  destruct (assoc c (df_cols df)) eqn:E; simpl.
  - split.
    + apply Forall_forall. intros x Hx.
      apply list_elem_of_In, in_map_iff in Hx as [[k v] [<- Hin]]. simpl.
      destruct (String.eqb c k); simpl; [done|].
      rewrite Forall_forall in Hlen.
      apply (Hlen (k, v)). by apply list_elem_of_In.
    + by rewrite setitem_columns_replace.
  - split.
    + apply Forall_app. split; [done|]. by constructor.
    + rewrite map_app. simpl. apply NoDup_app. split; [done|].
      split.
      * intros x Hx Hc. apply list_elem_of_singleton in Hc. subst x.
        by apply assoc_None_not_in in E.
      * apply NoDup_singleton.
Qed.

Lemma getitem_length c df vs :
  cols_len_ok df -> getitem c df = Ok vs -> length vs = df_len df.
Proof.
  intros Hlen H. apply getitem_assoc, assoc_Some_in in H.
  unfold cols_len_ok in Hlen. rewrite Forall_forall in Hlen.
  by apply (Hlen (c, vs)).
Qed.

(** Selecting distinct labels from a frame with distinct labels. *)
Lemma select_cols_NoDup cs (cols : list (string * list pyval)) sel :
  NoDup (map fst cols) -> select_cols cs cols = Ok sel ->
  map fst sel = cs /\ (forall kv, kv ∈ sel -> kv ∈ cols).
Proof.
  intros Hnd. revert sel. induction cs as [|c cs IH]; simpl; intros sel H.
  - inversion H. split; [done|]. intros kv Hkv. by apply elem_of_nil in Hkv.
  - destruct (assoc c cols) as [vs|] eqn:E; [|done].
    destruct (select_cols cs cols) as [rest|]; [|done]. simpl in H.
    inversion H; subst. destruct (IH rest eq_refl) as [Hl Hin].
    rewrite (filter_label_NoDup c cols vs) by done. simpl. split.
    + by rewrite Hl.
    + intros kv Hkv. apply elem_of_cons in Hkv as [->|Hkv]; [|auto].
      by apply assoc_Some_in.
Qed.

Lemma project_wf cs df out :
  df_wf df -> NoDup cs -> project cs df = Ok out ->
  columns out = cs /\ df_wf out /\ df_len out = df_len df.
Proof.
  intros [Hlen Hnd] Hcs. unfold project.
  destruct (select_cols cs (df_cols df)) as [sel|] eqn:E; [|done]. simpl.
  intros [= <-]. destruct (select_cols_NoDup _ _ _ Hnd E) as [Hl Hin].
  unfold df_wf, cols_len_ok, columns in *. simpl. repeat split; try done.
  - apply Forall_forall. intros kv Hkv. rewrite Forall_forall in Hlen. auto.
  - by rewrite Hl.
Qed.

Lemma NoDup_canonical_columns : NoDup canonical_columns.
Proof. apply NoDup_ListNoDup. repeat constructor; simpl; intuition congruence. Qed.

Lemma after_assignments_wf time mag lon lat raw :
  df_wf raw ->
  length time = df_len raw -> length mag = df_len raw ->
  length lon = df_len raw -> length lat = df_len raw ->
  df_wf (after_assignments time mag lon lat raw) /\
  df_len (after_assignments time mag lon lat raw) = df_len raw.
Proof.
  intros Hwf H1 H2 H3 H4. unfold after_assignments. split.
  - repeat (apply setitem_wf; rewrite ?df_len_setitem; try done).
  - by rewrite !df_len_setitem.
Qed.

Lemma standardize_usgs_data_normalized tdc raw out raw' :
  df_wf raw -> standardize_usgs_data tdc raw = (Ok out, raw') ->
  normalized out /\ df_len out = df_len raw.
Proof.
  intros Hwf H.
  apply standardize_usgs_data_inv in H
    as (t & time & mag & c & lon & lat & H1 & H2 & H3 & H4 & H5 & H6 & -> & Hp).
  pose proof Hwf as [Hlen _].
  destruct (after_assignments_wf time mag lon lat raw Hwf) as [Hwf' Hl'].
  - unfold to_datetime in H2. apply rmap_length in H2. rewrite H2.
    by eapply getitem_length.
  - by eapply getitem_length.
  - apply rmap_length in H5. rewrite H5. by eapply getitem_length.
  - apply rmap_length in H6. rewrite H6. by eapply getitem_length.
  - destruct (project_wf _ _ _ Hwf' NoDup_canonical_columns Hp) as (Hc & [Ho _] & Hn).
    repeat split; try done. congruence.
Qed.

Lemma standardize_isc_data_normalized pf tdc raw out raw' :
  df_wf raw -> standardize_isc_data pf tdc raw = (Ok out, raw') ->
  normalized out /\ df_len out = df_len raw.
Proof.
  intros Hwf H.
  apply standardize_isc_data_inv in H
    as (t & time & m & mag & lo & lon & la & lat &
        H1 & H2 & H3 & H4 & H5 & H6 & H7 & H8 & -> & Hp).
  pose proof Hwf as [Hlen _].
  destruct (after_assignments_wf time mag lon lat raw Hwf) as [Hwf' Hl'].
  - unfold to_datetime in H2. apply rmap_length in H2. rewrite H2.
    by eapply getitem_length.
  - apply rmap_length in H4. rewrite H4. by eapply getitem_length.
  - apply rmap_length in H6. rewrite H6. by eapply getitem_length.
  - apply rmap_length in H8. rewrite H8. by eapply getitem_length.
  - destruct (project_wf _ _ _ Hwf' NoDup_canonical_columns Hp) as (Hc & [Ho _] & Hn).
    repeat split; try done. congruence.
Qed.

(** ** Merger *)

Lemma concat_labels_same a b :
  columns b = columns a ->
  filter (fun c => assoc c (df_cols a) = None) (columns b) = [].
Proof.
  intros ->. unfold columns.
  assert (H : forall l, (forall c, c ∈ l -> c ∈ map fst (df_cols a)) ->
            filter (fun c => assoc c (df_cols a) = None) l = []).
  { induction l as [|c l IH]; intros Hin; [done|].
    rewrite filter_cons. destruct (decide _) as [Hn|_].
    - apply assoc_None_not_in in Hn. exfalso. apply Hn, Hin, elem_of_cons. by left.
    - apply IH. intros c' Hc'. apply Hin, elem_of_cons. by right. }
  by apply H.
Qed.

Lemma column_or_nan_in df k v :
  NoDup (columns df) -> (k, v) ∈ df_cols df -> column_or_nan k df = v.
Proof.
  intros Hnd Hin. unfold column_or_nan. by rewrite (in_assoc_NoDup k v).
Qed.

Lemma row_at_concat_l a b i :
  columns b = columns a -> NoDup (columns a) -> cols_len_ok a ->
  (i < df_len a)%nat -> row_at (concat a b) i = row_at a i.
Proof.
  intros Hc Hnd Hlen Hi. unfold row_at, concat. simpl.
  rewrite concat_labels_same, app_nil_r by done.
  unfold columns. rewrite !map_map. apply map_ext_in. intros [k v] Hin. simpl.
  apply list_elem_of_In in Hin. f_equal.
  rewrite (column_or_nan_in a k v) by done.
  unfold cols_len_ok in Hlen. rewrite Forall_forall in Hlen.
  specialize (Hlen _ Hin). simpl in Hlen.
  rewrite app_nth1 by lia. done.
Qed.

Lemma row_at_concat_r a b j :
  columns b = columns a -> NoDup (columns a) -> cols_len_ok a ->
  row_at (concat a b) (df_len a + j) = row_at b j.
Proof.
  intros Hc Hnd Hlen. unfold row_at, concat. simpl.
  rewrite concat_labels_same, app_nil_r by done.
  rewrite <- Hc in Hnd. rewrite <- Hc at 1.
  unfold columns. rewrite !map_map. apply map_ext_in. intros [k v] Hin. simpl.
  apply list_elem_of_In in Hin. f_equal.
  rewrite (column_or_nan_in b k v) by done.
  assert (Hk : k ∈ columns a).
  { rewrite <- Hc. apply list_elem_of_In, in_map_iff. exists (k, v).
    split; [done|]. by apply list_elem_of_In. }
  apply list_elem_of_In, in_map_iff in Hk as [[k' va] [Hk' Hva]].
  simpl in Hk'. subst k'. apply list_elem_of_In in Hva.
  rewrite Hc in Hnd.
  rewrite (column_or_nan_in a k va) by done.
  unfold cols_len_ok in Hlen. rewrite Forall_forall in Hlen.
  specialize (Hlen _ Hva). simpl in Hlen.
  rewrite app_nth2 by lia. f_equal. lia.
Qed.

Lemma seq_offset (n s len : nat) :
  seq (n + s) len = map (fun j => (n + j)%nat) (seq s len).
Proof.
  revert s. induction len as [|len IH]; intros s; simpl; [done|].
  f_equal. rewrite <- IH. f_equal. lia.
Qed.

Lemma iterrows_concat a b :
  columns b = columns a -> NoDup (columns a) -> cols_len_ok a ->
  iterrows (concat a b) = iterrows a ++ iterrows b.
Proof.
  intros Hc Hnd Hlen. unfold iterrows.
  change (df_len (concat a b)) with (df_len a + df_len b)%nat.
  rewrite seq_app, map_app. f_equal.
  - apply map_ext_in. intros i Hi. apply in_seq in Hi.
    apply row_at_concat_l; try done. lia.
  - replace (0 + df_len a)%nat with (df_len a + 0)%nat by lia.
    rewrite seq_offset, map_map.
    apply map_ext_in. intros j _. by apply row_at_concat_r.
Qed.

(** C6: the merged table is the rows of the normalized source-A table
    followed by the rows of the normalized source-B table, each group in its
    own order: with [m] and [n] rows it has [m + n] rows, row [i < m] is
    A's row [i] and row [m + j] is B's row [j]. *)
Theorem merger_is_ordered_concatenation (a b : DataFrame) :
  normalized a -> normalized b ->
  iterrows (concat a b) = iterrows a ++ iterrows b /\
  length (iterrows a) = df_len a /\
  length (iterrows b) = df_len b /\
  length (iterrows (concat a b)) = (df_len a + df_len b)%nat.
Proof.
  intros [Ha Hla] [Hb Hlb]. split.
  - apply iterrows_concat; [congruence| |done].
    rewrite Ha. apply NoDup_canonical_columns.
  - unfold iterrows. by rewrite !length_map, !length_seq.
Qed.

Lemma merger_is_ordered_concatenation_witness :
  normalized Demo.clean_usgs /\ normalized Demo.clean_isc /\
  df_len Demo.clean_usgs = 2%nat /\ df_len Demo.clean_isc = 3%nat /\
  iterrows (concat Demo.clean_usgs Demo.clean_isc)
  = iterrows Demo.clean_usgs ++ iterrows Demo.clean_isc.
Proof.
  assert (Ha : normalized Demo.clean_usgs).
  { split; [reflexivity|]. unfold cols_len_ok. vm_compute. repeat constructor. }
  assert (Hb : normalized Demo.clean_isc).
  { split; [reflexivity|]. unfold cols_len_ok. vm_compute. repeat constructor. }
  split; [exact Ha|]. split; [exact Hb|].
  split; [reflexivity|]. split; [reflexivity|].
  exact (proj1 (merger_is_ordered_concatenation _ _ Ha Hb)).
Defined.

(** ** Store initialisation *)

Lemma create_if_absent_idem name cols (db : database) :
  create_if_absent name cols (create_if_absent name cols db)
  = create_if_absent name cols db.
Proof.
  unfold create_if_absent at 2 3. destruct (db !! name) eqn:E.
  - unfold create_if_absent. by rewrite E.
  - unfold create_if_absent. by rewrite lookup_insert_eq.
Qed.

Lemma initialize_run ss (w : world) :
  initialize ss w =
    (Ok tt,
     let db := create_if_absent "earthquakes" earthquakes_cols (w_disk w) in
     mkWorld db (Some (mkConn db false))
             (w_out w ++ [EvConnect; EvExecute create_earthquakes []])).
Proof.
  unfold initialize, sqlite3_connect, execute, emit, the_conn, set_conn.
  unfold_st. simpl. by rewrite <- app_assoc.
Qed.

Lemma times_initialize_disk ss (n : nat) (w : world) :
  (times (S n) (initialize ss) w).1 = Ok tt /\
  w_disk (times (S n) (initialize ss) w).2
  = create_if_absent "earthquakes" earthquakes_cols (w_disk w).
Proof.
  revert w. induction n as [|n IH]; intros w.
  - change (times 1 (initialize ss)) with (initialize ss ;; mret tt).
    unfold mbind, ST_bind, bind. rewrite initialize_run. done.
  - change (times (S (S n)) (initialize ss)) with
      (initialize ss ;; times (S n) (initialize ss)).
    unfold mbind, ST_bind, bind. rewrite initialize_run.
    cbv zeta. destruct (IH (mkWorld
        (create_if_absent "earthquakes" earthquakes_cols (w_disk w))
        (Some (mkConn (create_if_absent "earthquakes" earthquakes_cols (w_disk w)) false))
        (w_out w ++ [EvConnect; EvExecute create_earthquakes []]))) as [H1 H2].
    split; [exact H1|]. rewrite H2. simpl. apply create_if_absent_idem.
Qed.

(** C7: initialising the store [N >= 1] times gives the same file as
    initialising it once: the table [earthquakes] is there with the
    canonical columns (the surrogate key and the five data columns), no
    table other than [earthquakes] is added, and every
    table already in the file, rows included, is left as it was. *)
Theorem initialize_idempotent ss (N : nat) (w : world) :
  (1 <= N)%nat -> store_ok (w_disk w) ->
  let w1 := (initialize ss w).2 in
  let wN := (times N (initialize ss) w).2 in
  (times N (initialize ss) w).1 = Ok tt /\
  w_disk wN = w_disk w1 /\
  (exists t, w_disk wN !! "earthquakes" = Some t /\
             t_cols t = earthquakes_cols /\
             data_columns t = ["time"; "magnitude"; "longitude"; "latitude"; "source"]) /\
  dom (w_disk wN) = {["earthquakes"]} ∪ dom (w_disk w) /\
  (forall name t, w_disk w !! name = Some t -> w_disk wN !! name = Some t).
Proof.
  intros HN Hok. destruct N as [|n]; [lia|]. cbv zeta.
  destruct (times_initialize_disk ss n w) as [Hr Hd]. rewrite Hd.
  rewrite initialize_run. simpl.
  split; [exact Hr|]. split; [done|].
  unfold create_if_absent. destruct (w_disk w !! "earthquakes") as [t|] eqn:E.
  - repeat split.
    + exists t. split; [done|]. rewrite (Hok t E) at 1.
      unfold data_columns. rewrite (Hok t E). done.
    + apply set_eq. intros x. rewrite elem_of_union, elem_of_singleton.
      split; [tauto|]. intros [->|H]; [|done]. apply elem_of_dom. eauto.
    + done.
  - repeat split.
    + eexists. split; [apply lookup_insert_eq|done].
    + by rewrite dom_insert_L.
    + intros name t Hl. rewrite lookup_insert_ne; [done|]. congruence.
Qed.

Lemma initialize_idempotent_witness :
  store_ok (w_disk Demo.fresh) /\
  w_disk (times 3 (initialize Demo.sqlite_select) Demo.fresh).2
  = w_disk (initialize Demo.sqlite_select Demo.fresh).2.
Proof.
  assert (H : store_ok (w_disk Demo.fresh)).
  { intros t Ht. simpl in Ht. rewrite lookup_empty in Ht. discriminate Ht. }
  split; [exact H|].
  exact (proj1 (proj2 (initialize_idempotent Demo.sqlite_select 3 Demo.fresh
                         (le_S _ _ (le_S _ _ (le_n 1))) H))).
Defined.

(** ** The command line *)

Lemma map_nth_seq {A B} (G : A -> B) (l : list A) (d : A) :
  map (fun i => G (nth i l d)) (seq 0 (length l)) = map G l.
Proof.
  induction l as [|x l IH]; simpl; [done|].
  f_equal. rewrite <- seq_shift, map_map. exact IH.
Qed.



Section CommandLine.

Variable http_get : nat -> string -> list (string * pyval) -> result response.
Variable py_float : string -> option pyfloat.
Variable to_datetime_cell : bool -> list pyval -> pyval -> result pyval.
Variable isoformat : Z -> string * string.
Variable sqlite_select : string -> database -> result (list (list sqlval)).

Local Abbreviation main' := (main http_get py_float to_datetime_cell sqlite_select).
(** The entry point itself is gated by the flags: with none it does
    nothing. *)
Lemma main_no_flags_noop (w : world) : noop (main' (mkArgs false None)) w.
Proof. reflexivity. Qed.




End CommandLine.

(** C3: the entry point [main] does nothing without a flag, but a run of
    the file with no flag is not a no-op: the cells that the notebook left
    at module level, before [main], fetch from both catalogs, normalise,
    create the table, insert and query on every run.  On replies with two
    source-A events and three source-B lines and an empty store, the run
    with no flag sends two requests, executes seven statements and leaves
    five records in the file. *)
Theorem run_without_flags_fetches_and_stores :
  let run := Demo.run_on (Demo.collection Demo.features2) Demo.text3
                         (mkArgs false None) in
  let entry := Demo.main_on (Demo.collection Demo.features2) Demo.text3
                            (mkArgs false None) in
  (forall w, noop entry w) /\
  ~ noop run Demo.fresh /\
  (run Demo.fresh).1 = Ok tt /\
  requests_made (run Demo.fresh).2 = 2%nat /\
  length (executed (run Demo.fresh).2) = 7%nat /\
  stored_rows Demo.fresh = [] /\
  length (stored_rows (run Demo.fresh).2) = 5%nat.
Proof.
  cbv zeta. split; [intros w; apply main_no_flags_noop|]. split.
  - unfold noop. intros H.
    apply (f_equal (fun r => length (w_out r.2))) in H.
    vm_compute in H. discriminate H.
  - repeat split; vm_compute; reflexivity.
Qed.





(** ** Unparseable fields and null filtering *)

Lemma astype_float_parses pf vs out :
  astype_float pf vs = Ok out -> existsb (unparseable pf) vs = false.
Proof.
  unfold astype_float. revert out.
  induction vs as [|v vs IH]; intros out H; simpl in *; [done|].
  destruct (astype_float_cell pf v) as [y|] eqn:Ev; [|done]. simpl in H.
  destruct (rmap (astype_float_cell pf) vs) as [ys|]; [|done].
  rewrite (IH ys eq_refl), orb_false_r.
  destruct v; simpl in *; try done. by destruct (pf s).
Qed.

Lemma standardize_isc_data_parses pf tdc raw out raw' :
  standardize_isc_data pf tdc raw = (Ok out, raw') ->
  has_unparseable pf raw = false.
Proof.
  intros H. apply standardize_isc_data_inv in H
    as (t & time & m & mag & lo & lon & la & lat &
        _ & _ & H3 & H4 & H5 & H6 & H7 & H8 & _).
  unfold has_unparseable. simpl.
  rewrite (getitem_assoc _ _ _ H3), (getitem_assoc _ _ _ H5),
          (getitem_assoc _ _ _ H7).
  by rewrite (astype_float_parses _ _ _ H4), (astype_float_parses _ _ _ H6),
             (astype_float_parses _ _ _ H8).
Qed.

Lemma mask_filter_Forall {A} (P : A -> Prop) (m : list bool) (vs : list A) :
  (forall i v, m !! i = Some true -> vs !! i = Some v -> P v) ->
  Forall P (mask_filter m vs).
Proof.
  revert vs. induction m as [|b m IH]; intros vs H; simpl.
  - destruct vs; constructor.
  - destruct vs as [|v vs]; [by destruct b; constructor|].
    assert (Forall P (mask_filter m vs)) as Htl.
    { apply IH. intros i x Hm Hx. by apply (H (S i) x). }
    destruct b; [|done]. constructor; [|done]. by apply (H 0%nat v).
Qed.

Lemma mask_filter_length {A} (m : list bool) (vs : list A) :
  length vs = length m ->
  length (mask_filter m vs) = length (filter (fun b => b = true) m).
Proof.
  revert vs. induction m as [|b m IH]; intros vs H; simpl.
  - by destruct vs.
  - destruct vs as [|v vs]; [done|]. simpl in H.
    rewrite filter_cons. destruct b; simpl.
    + destruct (decide (true = true)); [|done]. simpl. f_equal. apply IH. lia.
    + destruct (decide (false = true)); [done|]. apply IH. lia.
Qed.

Lemma assoc_map_values {A B} (g : A -> B) k (l : list (string * A)) :
  assoc k (map (fun kv => (kv.1, g kv.2)) l) = g <$> assoc k l.
Proof.
  induction l as [|[k' v] l IH]; simpl; [done|].
  by destruct (String.eqb k k').
Qed.

Lemma rmap_getitem_in cs df sub c :
  rmap (fun c => getitem c df) cs = Ok sub -> c ∈ cs ->
  exists vs, getitem c df = Ok vs /\ vs ∈ sub.
Proof.
  revert sub. induction cs as [|c0 cs IH]; intros sub H Hc; simpl in H.
  - by apply elem_of_nil in Hc.
  - destruct (getitem c0 df) as [v0|] eqn:E0; [|done]. simpl in H.
    destruct (rmap _ cs) as [rest|]; [|done]. inversion H; subst.
    apply elem_of_cons in Hc as [->|Hc].
    + exists v0. split; [done|]. apply elem_of_cons. by left.
    + destruct (IH rest eq_refl Hc) as (vs & Hg & Hin).
      exists vs. split; [done|]. apply elem_of_cons. by right.
Qed.

(** After [dropna(subset=cs)] every row has a value in each listed column. *)
Lemma dropna_rows_complete cs df kept row c :
  cols_len_ok df -> dropna cs df = Ok kept ->
  row ∈ iterrows kept -> c ∈ cs ->
  exists v, assoc c row = Some v /\ isna v = false.
Proof.
  intros Hlen Hd Hrow Hc. unfold dropna, keep_mask in Hd.
  destruct (rmap (fun c => getitem c df) cs) as [sub|] eqn:Es; [|done].
  simpl in Hd. inversion Hd; subst kept; clear Hd.
  destruct (rmap_getitem_in _ _ _ _ Es Hc) as (vs & Hg & Hin).
  set (m := map (fun i => forallb (fun vs => negb (isna (nth i vs NaN))) sub)
                (seq 0 (df_len df))) in *.
  pose proof (getitem_length _ _ _ Hlen Hg) as Hvs.
  assert (Hm : length m = df_len df) by (unfold m; by rewrite length_map, length_seq).
  apply list_elem_of_In, in_map_iff in Hrow as (i & <- & Hi).
  apply in_seq in Hi. simpl in Hi.
  unfold row_at. simpl. rewrite map_map. simpl.
  rewrite (assoc_map_values (fun x => nth i (mask_filter m x) NaN)).
  rewrite (getitem_assoc _ _ _ Hg). simpl. eexists. split; [done|].
  assert (HF : Forall (fun v => isna v = false) (mask_filter m vs)).
  { apply mask_filter_Forall. intros j v Hj Hv.
    assert (Hjlt : (j < df_len df)%nat).
    { apply lookup_lt_Some in Hv. lia. }
    assert (Hmj : nth j m false = true).
    { apply (nth_lookup_Some _ _ false) in Hj. exact Hj. }
    unfold m in Hmj.
    rewrite (nth_indep _ false (forallb (fun vs => negb (isna (nth 0 vs NaN))) sub))
      in Hmj by (rewrite length_map, length_seq; lia).
    rewrite (map_nth (fun i => forallb (fun vs => negb (isna (nth i vs NaN))) sub)) in Hmj.
    rewrite seq_nth in Hmj by lia. simpl in Hmj.
    rewrite forallb_forall in Hmj.
    specialize (Hmj vs (proj1 (list_elem_of_In _ _) Hin)).
    apply (nth_lookup_Some _ _ NaN) in Hv. rewrite Hv in Hmj.
    by destruct (isna v). }
  rewrite Forall_forall in HF. apply HF.
  apply list_elem_of_In, nth_In.
  rewrite mask_filter_length by lia. lia.
Qed.

Section WritePath.

Variable http_get : nat -> string -> list (string * pyval) -> result response.
Variable py_float : string -> option pyfloat.
Variable to_datetime_cell : bool -> list pyval -> pyval -> result pyval.
Variable isoformat : Z -> string * string.
Variable sqlite_select : string -> database -> result (list (list sqlval)).

Local Abbreviation main' := (main http_get py_float to_datetime_cell sqlite_select).

Lemma fetch_usgs_data_world a b c w r w' :
  fetch_usgs_data http_get a b c w = (r, w') -> fetched w w'.
Proof.
  unfold fetch_usgs_data, requests_get, emit. unfold_st. simpl.
  destruct (http_get _ _ _) as [resp|]; simpl.
  - destruct (resp_json resp) as [data|]; simpl.
    + destruct (py_getitem data "features") as [fs|]; simpl;
        intros [= _ <-]; repeat split; eauto.
    + intros [= _ <-]; repeat split; eauto.
  - intros [= _ <-]; repeat split; eauto.
Qed.

Lemma fetch_isc_data_world a b c w r w' :
  fetch_isc_data http_get a b c w = (r, w') -> fetched w w'.
Proof.
  unfold fetch_isc_data, requests_get, emit. unfold_st. simpl.
  destruct (http_get _ _ _) as [resp|]; simpl.
  - destruct (splitlines (resp_text resp)) as [|l0 rest]; simpl;
      intros [= _ <-]; repeat split; eauto.
  - intros [= _ <-]; repeat split; eauto.
Qed.

Lemma fetched_executed w w' : fetched w w' -> executed w' = executed w.
Proof.
  intros (_ & _ & url & ps & Ho). unfold executed. rewrite Ho, filter_app.
  rewrite filter_cons. simpl. destruct (decide (false = true)); [done|].
  by rewrite filter_nil, app_nil_r.
Qed.

(** In [main --fetch] a source-B table with an unparseable field ends the
    run before the connection is opened. *)
Lemma main_fetch_stops_on_unparseable q w :
  (forall w1 raw w2, fetch_isc_data http_get date_from date_to five w1 = (Ok raw, w2) ->
                     has_unparseable py_float raw = true) ->
  exists e w', main' (mkArgs true q) w = (Raise e, w') /\
               w_disk w' = w_disk w /\ executed w' = executed w.
Proof.
  intros Hbad. unfold main. cbn [fetch]. unfold mbind, ST_bind, bind.
  destruct (fetch_usgs_data http_get date_from date_to five w) as [[u|e] w1] eqn:E1.
  2:{ exists e, w1. split; [done|].
      pose proof (fetch_usgs_data_world _ _ _ _ _ _ E1) as Hf.
      split; [apply Hf|by apply fetched_executed]. }
  pose proof (fetch_usgs_data_world _ _ _ _ _ _ E1) as Hf1.
  destruct (fetch_isc_data http_get date_from date_to five w1) as [[i|e] w2] eqn:E2.
  2:{ exists e, w2. split; [done|].
      pose proof (fetch_isc_data_world _ _ _ _ _ _ E2) as Hf.
      split.
      - destruct Hf as [-> _]. apply Hf1.
      - rewrite (fetched_executed _ _ Hf). by apply fetched_executed. }
  pose proof (fetch_isc_data_world _ _ _ _ _ _ E2) as Hf2.
  assert (Hw2 : w_disk w2 = w_disk w /\ executed w2 = executed w).
  { split.
    - destruct Hf2 as [-> _]. apply Hf1.
    - rewrite (fetched_executed _ _ Hf2). by apply fetched_executed. }
  specialize (Hbad _ _ _ E2).
  unfold call_frame, lift.
  destruct (standardize_usgs_data to_datetime_cell u) as [[a|e] u'].
  2:{ by exists e, w2. }
  destruct (standardize_isc_data py_float to_datetime_cell i) as [[b|e] i'] eqn:E4.
  - apply standardize_isc_data_parses in E4. congruence.
  - by exists e, w2.
Qed.

(** C1, as amended: a source-B table in which a magnitude, longitude or
    latitude field is a string that does not parse as a float makes
    normalization raise for the whole table (no null is produced); the
    caller stops at that call, and [main --fetch] ends with an error
    without executing any insert and without changing the file, so no such
    row reaches a batch insert.  The rows that the script drops before its
    source-B insert loop are those with a missing value: after [dropna]
    every row has a non-null magnitude, longitude and latitude. *)
Theorem unparseable_field_aborts_normalization (raw clean kept : DataFrame) :
  has_unparseable py_float raw = true ->
  cols_len_ok clean ->
  dropna ["magnitude"; "longitude"; "latitude"] clean = Ok kept ->
  (exists e, (standardize_isc_data py_float to_datetime_cell raw).1 = Raise e /\
     forall w, call_frame (standardize_isc_data py_float to_datetime_cell) raw w
               = (Raise e, w)) /\
  (forall q w,
     (forall w1 w2 raw0, fetch_isc_data http_get date_from date_to five w1 = (Ok raw0, w2) ->
                         raw0 = raw) ->
     exists e w', main' (mkArgs true q) w = (Raise e, w') /\
                  w_disk w' = w_disk w /\ executed w' = executed w) /\
  (forall row c, row ∈ iterrows kept -> c ∈ ["magnitude"; "longitude"; "latitude"] ->
     exists v, assoc c row = Some v /\ isna v = false).
Proof.
  intros Hbad Hlen Hdrop. split; [|split].
  - destruct (standardize_isc_data py_float to_datetime_cell raw) as [[out|e] raw'] eqn:E.
    + apply standardize_isc_data_parses in E. congruence.
    + exists e. split; [done|]. intros w. unfold call_frame, lift. by rewrite E.
  - intros q w Hnet. apply main_fetch_stops_on_unparseable.
    intros w1 raw0 w2 Hf. by rewrite (Hnet _ _ _ Hf).
  - intros row c Hrow Hc. by eapply dropna_rows_complete.
Qed.

End WritePath.

Lemma unparseable_field_aborts_normalization_witness :
  has_unparseable Demo.py_float Demo.raw_bad = true /\
  cols_len_ok Demo.clean_short /\
  df_len Demo.clean_short = 2%nat /\
  dropna ["magnitude"; "longitude"; "latitude"] Demo.clean_short = Ok Demo.kept_short /\
  df_len Demo.kept_short = 1%nat /\
  (exists e,
     (standardize_isc_data Demo.py_float Demo.to_datetime_cell Demo.raw_bad).1 = Raise e) /\
  (forall row c, row ∈ iterrows Demo.kept_short ->
     c ∈ ["magnitude"; "longitude"; "latitude"] ->
     exists v, assoc c row = Some v /\ isna v = false).
Proof.
  assert (H1 : has_unparseable Demo.py_float Demo.raw_bad = true) by reflexivity.
  assert (H2 : cols_len_ok Demo.clean_short).
  { unfold cols_len_ok. vm_compute. repeat constructor. }
  assert (H3 : dropna ["magnitude"; "longitude"; "latitude"] Demo.clean_short
               = Ok Demo.kept_short) by reflexivity.
  destruct (unparseable_field_aborts_normalization Demo.net Demo.py_float
              Demo.to_datetime_cell Demo.sqlite_select
              Demo.raw_bad Demo.clean_short Demo.kept_short H1 H2 H3)
    as [[e [He _]] [_ Hrows]].
  split; [exact H1|]. split; [exact H2|]. split; [reflexivity|].
  split; [exact H3|]. split; [reflexivity|].
  split; [by exists e|exact Hrows].
Defined.

Lemma unparseable_field_counterexample :
  let run := Demo.main_on (Demo.collection Demo.features2) Demo.bad_text
                          (mkArgs true None) in
  getitem "Magnitude" Demo.raw_bad = Ok [VStr "n/a"; VStr "5.1"] /\
  Demo.py_float "n/a" = None /\
  standardize_isc_data Demo.py_float Demo.to_datetime_cell Demo.raw_bad
  = (Raise ValueError,
     setitem "time" [VTime 1682899200000000000; VTime 1682985600000000000]
             Demo.raw_bad) /\
  ~ (exists out raw',
       standardize_isc_data Demo.py_float Demo.to_datetime_cell Demo.raw_bad
       = (Ok out, raw')) /\
  (run Demo.stored2).1 = Raise ValueError /\
  executed (run Demo.stored2).2 = [] /\
  stored_rows (run Demo.stored2).2 = stored_rows Demo.stored2.
Proof.
  cbv zeta. split; [reflexivity|]. split; [reflexivity|].
  split; [reflexivity|]. split.
  - intros (out & raw' & H). vm_compute in H. discriminate H.
  - repeat split; vm_compute; reflexivity.
Qed.

(** ** The normalizers write into the caller's frame *)

Lemma assoc_filter_same c (l : list (string * list pyval)) :
  assoc c (filter (fun kv => kv.1 = c) l) = assoc c l.
Proof.
  induction l as [|[k v] l IH]; simpl; [done|].
  rewrite filter_cons. simpl. destruct (decide (k = c)) as [->|Hne]; simpl.
  - by rewrite String.eqb_refl.
  - rewrite (eqb_neq_false c k) by congruence. done.
Qed.

Lemma assoc_filter_other c c0 (l : list (string * list pyval)) :
  c ≠ c0 -> assoc c (filter (fun kv => kv.1 = c0) l) = None.
Proof.
  intros Hne. induction l as [|[k v] l IH]; simpl; [done|].
  rewrite filter_cons. simpl. destruct (decide (k = c0)) as [->|Hk]; simpl; [|done].
  by rewrite (eqb_neq_false c c0).
Qed.

Lemma assoc_select_cols cs cols sel c :
  select_cols cs cols = Ok sel -> c ∈ cs -> assoc c sel = assoc c cols.
Proof.
  revert sel. induction cs as [|c0 cs IH]; intros sel H Hc; simpl in H.
  - by apply elem_of_nil in Hc.
  - destruct (assoc c0 cols) as [v0|] eqn:E0; [|done].
    destruct (select_cols cs cols) as [rest|]; [|done]. simpl in H.
    inversion H; subst. destruct (decide (c = c0)) as [->|Hne].
    + rewrite (assoc_app_Some _ _ _ v0); [done|]. by rewrite assoc_filter_same.
    + rewrite assoc_app_None by (by apply assoc_filter_other).
      apply elem_of_cons in Hc as [?|Hc]; [done|]. by apply IH.
Qed.

Lemma in_canonical c :
  c ∈ canonical_columns ->
  c = "time" \/ c = "magnitude" \/ c = "longitude" \/ c = "latitude".
Proof.
  unfold canonical_columns. rewrite !elem_of_cons, elem_of_nil. tauto.
Qed.

Lemma after_assignments_canonical time mag lon lat raw :
  let raw' := after_assignments time mag lon lat raw in
  assoc "time" (df_cols raw') = Some time /\
  assoc "magnitude" (df_cols raw') = Some mag /\
  assoc "longitude" (df_cols raw') = Some lon /\
  assoc "latitude" (df_cols raw') = Some lat.
Proof.
  cbv zeta. unfold after_assignments. repeat split.
  - rewrite !assoc_setitem_ne by done. apply assoc_setitem_eq.
  - rewrite !assoc_setitem_ne by done. apply assoc_setitem_eq.
  - rewrite !assoc_setitem_ne by done. apply assoc_setitem_eq.
  - apply assoc_setitem_eq.
Qed.

Lemma after_assignments_frame time mag lon lat raw c :
  c ∉ canonical_columns ->
  assoc c (df_cols (after_assignments time mag lon lat raw)) = assoc c (df_cols raw).
Proof.
  unfold canonical_columns. rewrite !not_elem_of_cons. intros (H1 & H2 & H3 & H4 & _).
  unfold after_assignments. by rewrite !assoc_setitem_ne by congruence.
Qed.

Lemma after_assignments_spec time mag lon lat raw out :
  project canonical_columns (after_assignments time mag lon lat raw) = Ok out ->
  let raw' := after_assignments time mag lon lat raw in
  (forall c, c ∈ canonical_columns ->
     exists vs, assoc c (df_cols raw') = Some vs /\ assoc c (df_cols out) = Some vs) /\
  (forall c, c ∉ canonical_columns -> assoc c (df_cols raw') = assoc c (df_cols raw)) /\
  ((exists c, c ∈ canonical_columns /\ assoc c (df_cols raw) = None) -> raw' ≠ raw).
Proof.
  intros Hp. cbv zeta.
  destruct (after_assignments_canonical time mag lon lat raw) as (Ht & Hm & Hlo & Hla).
  assert (Hsome : forall c, c ∈ canonical_columns ->
            exists vs, assoc c (df_cols (after_assignments time mag lon lat raw)) = Some vs).
  { intros c Hc. apply in_canonical in Hc as [-> | [-> | [-> | ->]]]; eauto. }
  split; [|split].
  - intros c Hc. destruct (Hsome c Hc) as [vs Hvs]. exists vs. split; [done|].
    unfold project in Hp.
    destruct (select_cols canonical_columns _) as [sel|] eqn:Es; [|done].
    simpl in Hp. inversion Hp; subst out. simpl.
    by rewrite (assoc_select_cols _ _ _ _ Es Hc).
  - intros c Hc. by apply after_assignments_frame.
  - intros (c & Hc & Hnone) Heq. destruct (Hsome c Hc) as [vs Hvs].
    rewrite Heq in Hvs. congruence.
Qed.

(** A run of the source-A normalizer, statement by statement: the caller's
    frame at each point where the run can stop. *)
Lemma standardize_usgs_data_run tdc raw :
  standardize_usgs_data tdc raw =
    match getitem "properties.time" raw with
    | Raise e => (Raise e, raw)
    | Ok t =>
    match to_datetime tdc true t with
    | Raise e => (Raise e, raw)
    | Ok time =>
    match getitem "properties.mag" raw with
    | Raise e => (Raise e, assigned [("time", time)] raw)
    | Ok mag =>
    match (try! c := getitem "geometry.coordinates" raw in rmap (py_index 0) c) with
    | Raise e => (Raise e, assigned [("time", time); ("magnitude", mag)] raw)
    | Ok lon =>
    match (try! c := getitem "geometry.coordinates" raw in rmap (py_index 1) c) with
    | Raise e =>
        (Raise e, assigned [("time", time); ("magnitude", mag); ("longitude", lon)] raw)
    | Ok lat =>
        (project canonical_columns (after_assignments time mag lon lat raw),
         after_assignments time mag lon lat raw)
    end end end end end.
Proof.
  unfold standardize_usgs_data, assigned, after_assignments. unfold_st. simpl.
  destruct (getitem "properties.time" raw) as [t|]; simpl; [|done].
  destruct (to_datetime tdc true t) as [time|]; simpl; [|done].
  rewrite getitem_setitem_ne by done.
  destruct (getitem "properties.mag" raw) as [mag|]; simpl; [|done].
  rewrite !getitem_setitem_ne by done.
  destruct (getitem "geometry.coordinates" raw) as [c|] eqn:Ec; simpl; [|done].
  destruct (rmap (py_index 0) c) as [lon|]; simpl; [|done].
  rewrite !getitem_setitem_ne, Ec by done. simpl.
  by destruct (rmap (py_index 1) c) as [lat|].
Qed.

(** The same for source B. *)
Lemma standardize_isc_data_run pf tdc raw :
  standardize_isc_data pf tdc raw =
    match getitem "Time" raw with
    | Raise e => (Raise e, raw)
    | Ok t =>
    match to_datetime tdc false t with
    | Raise e => (Raise e, raw)
    | Ok time =>
    match (try! m := getitem "Magnitude" raw in astype_float pf m) with
    | Raise e => (Raise e, assigned [("time", time)] raw)
    | Ok mag =>
    match (try! lo := getitem "Longitude" raw in astype_float pf lo) with
    | Raise e => (Raise e, assigned [("time", time); ("magnitude", mag)] raw)
    | Ok lon =>
    match (try! la := getitem "Latitude" raw in astype_float pf la) with
    | Raise e =>
        (Raise e, assigned [("time", time); ("magnitude", mag); ("longitude", lon)] raw)
    | Ok lat =>
        (project canonical_columns (after_assignments time mag lon lat raw),
         after_assignments time mag lon lat raw)
    end end end end end.
Proof.
  unfold standardize_isc_data, assigned, after_assignments. unfold_st. simpl.
  destruct (getitem "Time" raw) as [t|]; simpl; [|done].
  destruct (to_datetime tdc false t) as [time|]; simpl; [|done].
  rewrite getitem_setitem_ne by done.
  destruct (getitem "Magnitude" raw) as [m|]; simpl; [|done].
  destruct (astype_float pf m) as [mag|]; simpl; [|done].
  rewrite !getitem_setitem_ne by done.
  destruct (getitem "Longitude" raw) as [lo|]; simpl; [|done].
  destruct (astype_float pf lo) as [lon|]; simpl; [|done].
  rewrite !getitem_setitem_ne by done.
  destruct (getitem "Latitude" raw) as [la|]; simpl; [|done].
  by destruct (astype_float pf la) as [lat|].
Qed.

(** Assignments to canonical labels leave the other columns alone, and the
    first one, to [time], stays whatever is assigned after it. *)
Lemma assigned_frame cols raw c :
  c ∉ map fst cols -> assoc c (df_cols (assigned cols raw)) = assoc c (df_cols raw).
Proof.
  unfold assigned. revert raw. induction cols as [|[k vs] cols IH]; intros raw Hc; [done|].
  simpl in *. apply not_elem_of_cons in Hc as [Hne Hc].
  rewrite IH by done. by apply assoc_setitem_ne.
Qed.

Lemma assigned_time time rest raw :
  "time" ∉ map fst rest ->
  assoc "time" (df_cols (assigned (("time", time) :: rest) raw)) = Some time.
Proof.
  intros Hrest. unfold assigned. simpl.
  change (foldl _ (setitem "time" time raw) rest)
    with (assigned rest (setitem "time" time raw)).
  rewrite assigned_frame by done. apply assoc_setitem_eq.
Qed.

Ltac time_first :=
  first [ apply assigned_time; simpl; rewrite ?not_elem_of_cons; repeat split;
          first [discriminate | apply not_elem_of_nil]
        | apply after_assignments_canonical ].

Ltac frame_kept Hc :=
  first [ reflexivity
        | apply assigned_frame; simpl; intros Hin; apply Hc;
          unfold canonical_columns; revert Hin;
          rewrite !elem_of_cons, !elem_of_nil; tauto
        | by apply after_assignments_frame ].

(** C10, as amended: both normalizers work on the table they are given, not
    on a copy.  Each assigns time, magnitude, longitude and latitude, in
    this order, on the caller's own frame as soon as the column is computed
    (for source B the float-coerced fields), and touches no other column.
    So for every input: once the first column is read and converted the
    caller's frame holds the new time column, and differs from the raw input
    unless it already held exactly that column; a call that fails later
    leaves in the caller's frame the columns assigned before the failing
    statement; a call that returns leaves the four columns there and
    returns their projection.  Only when the first column cannot be read or
    converted is the caller's frame left as it was. *)
Theorem normalizers_mutate_their_argument pf tdc (raw : DataFrame) :
  let a := standardize_usgs_data tdc raw in
  let b := standardize_isc_data pf tdc raw in
  (forall c, c ∉ canonical_columns ->
     assoc c (df_cols a.2) = assoc c (df_cols raw) /\
     assoc c (df_cols b.2) = assoc c (df_cols raw)) /\
  (forall t time,
     getitem "properties.time" raw = Ok t -> to_datetime tdc true t = Ok time ->
     assoc "time" (df_cols a.2) = Some time /\
     (assoc "time" (df_cols raw) <> Some time -> a.2 <> raw) /\
     (forall e, getitem "properties.mag" raw = Raise e ->
        a = (Raise e, assigned [("time", time)] raw)) /\
     forall mag, getitem "properties.mag" raw = Ok mag ->
       (forall e,
          (try! c := getitem "geometry.coordinates" raw in rmap (py_index 0) c) = Raise e ->
          a = (Raise e, assigned [("time", time); ("magnitude", mag)] raw)) /\
       forall c lon,
         getitem "geometry.coordinates" raw = Ok c -> rmap (py_index 0) c = Ok lon ->
         (forall e, rmap (py_index 1) c = Raise e ->
            a = (Raise e,
                 assigned [("time", time); ("magnitude", mag); ("longitude", lon)] raw)) /\
         forall lat, rmap (py_index 1) c = Ok lat ->
           a = (project canonical_columns (after_assignments time mag lon lat raw),
                after_assignments time mag lon lat raw)) /\
  (forall t time,
     getitem "Time" raw = Ok t -> to_datetime tdc false t = Ok time ->
     assoc "time" (df_cols b.2) = Some time /\
     (assoc "time" (df_cols raw) <> Some time -> b.2 <> raw) /\
     (forall e, (try! m := getitem "Magnitude" raw in astype_float pf m) = Raise e ->
        b = (Raise e, assigned [("time", time)] raw)) /\
     forall mag, (try! m := getitem "Magnitude" raw in astype_float pf m) = Ok mag ->
       (forall e, (try! lo := getitem "Longitude" raw in astype_float pf lo) = Raise e ->
          b = (Raise e, assigned [("time", time); ("magnitude", mag)] raw)) /\
       forall lon, (try! lo := getitem "Longitude" raw in astype_float pf lo) = Ok lon ->
         (forall e, (try! la := getitem "Latitude" raw in astype_float pf la) = Raise e ->
            b = (Raise e,
                 assigned [("time", time); ("magnitude", mag); ("longitude", lon)] raw)) /\
         forall lat, (try! la := getitem "Latitude" raw in astype_float pf la) = Ok lat ->
           b = (project canonical_columns (after_assignments time mag lon lat raw),
                after_assignments time mag lon lat raw)) /\
  ((forall t time, getitem "properties.time" raw = Ok t ->
                   to_datetime tdc true t <> Ok time) ->
   exists e, a = (Raise e, raw)) /\
  ((forall t time, getitem "Time" raw = Ok t -> to_datetime tdc false t <> Ok time) ->
   exists e, b = (Raise e, raw)).
Proof.
  cbv zeta. rewrite standardize_usgs_data_run, standardize_isc_data_run.
  split; [|split; [|split; [|split]]].
  - intros c Hc. split.
    + destruct (getitem "properties.time" raw) as [t|]; [|done].
      destruct (to_datetime tdc true t) as [time|]; [|done].
      destruct (getitem "properties.mag" raw) as [mag|]; [|frame_kept Hc].
      destruct (rbind (getitem "geometry.coordinates" raw) _) as [lon|]; [|frame_kept Hc].
      destruct (rbind (getitem "geometry.coordinates" raw) _) as [lat|]; frame_kept Hc.
    + destruct (getitem "Time" raw) as [t|]; [|done].
      destruct (to_datetime tdc false t) as [time|]; [|done].
      destruct (rbind (getitem "Magnitude" raw) _) as [mag|]; [|frame_kept Hc].
      destruct (rbind (getitem "Longitude" raw) _) as [lon|]; [|frame_kept Hc].
      destruct (rbind (getitem "Latitude" raw) _) as [lat|]; frame_kept Hc.
  - intros t time -> ->.
    assert (Htime : assoc "time" (df_cols
              (match getitem "properties.mag" raw with
               | Ok mag =>
                   match (try! c := getitem "geometry.coordinates" raw in rmap (py_index 0) c) with
                   | Ok lon =>
                       match (try! c := getitem "geometry.coordinates" raw in
                              rmap (py_index 1) c) with
                       | Ok lat =>
                           (project canonical_columns (after_assignments time mag lon lat raw),
                            after_assignments time mag lon lat raw)
                       | Raise e =>
                           (Raise e, assigned [("time", time); ("magnitude", mag);
                                               ("longitude", lon)] raw)
                       end
                   | Raise e => (Raise e, assigned [("time", time); ("magnitude", mag)] raw)
                   end
               | Raise e => (Raise e, assigned [("time", time)] raw)
               end).2) = Some time).
    { destruct (getitem "properties.mag" raw) as [mag|]; [|time_first].
      destruct (rbind (getitem "geometry.coordinates" raw) _) as [lon|]; [|time_first].
      destruct (rbind (getitem "geometry.coordinates" raw) _) as [lat|]; time_first. }
    split; [exact Htime|]. split; [intros Hne Heq; rewrite Heq in Htime; done|].
    split; [by intros e ->|]. intros mag ->.
    split; [by intros e ->|]. intros c lon -> Hlon. simpl. rewrite Hlon.
    split; [by intros e ->|]. by intros lat ->.
  - intros t time -> ->.
    assert (Htime : assoc "time" (df_cols
              (match (try! m := getitem "Magnitude" raw in astype_float pf m) with
               | Ok mag =>
                   match (try! lo := getitem "Longitude" raw in astype_float pf lo) with
                   | Ok lon =>
                       match (try! la := getitem "Latitude" raw in astype_float pf la) with
                       | Ok lat =>
                           (project canonical_columns (after_assignments time mag lon lat raw),
                            after_assignments time mag lon lat raw)
                       | Raise e =>
                           (Raise e, assigned [("time", time); ("magnitude", mag);
                                               ("longitude", lon)] raw)
                       end
                   | Raise e => (Raise e, assigned [("time", time); ("magnitude", mag)] raw)
                   end
               | Raise e => (Raise e, assigned [("time", time)] raw)
               end).2) = Some time).
    { destruct (rbind (getitem "Magnitude" raw) _) as [mag|]; [|time_first].
      destruct (rbind (getitem "Longitude" raw) _) as [lon|]; [|time_first].
      destruct (rbind (getitem "Latitude" raw) _) as [lat|]; time_first. }
    split; [exact Htime|]. split; [intros Hne Heq; rewrite Heq in Htime; done|].
    split; [by intros e ->|]. intros mag ->.
    split; [by intros e ->|]. intros lon ->.
    split; [by intros e ->|]. by intros lat ->.
  - intros Hno. destruct (getitem "properties.time" raw) as [t|e]; [|by exists e].
    destruct (to_datetime tdc true t) as [time|e] eqn:E; [|by exists e].
    by destruct (Hno t time).
  - intros Hno. destruct (getitem "Time" raw) as [t|e]; [|by exists e].
    destruct (to_datetime tdc false t) as [time|e] eqn:E; [|by exists e].
    by destruct (Hno t time).
Qed.

(** Both normalizers on the demo replies: the caller's frame has gained the
    four columns and kept its own. *)
Lemma normalizers_mutate_their_argument_witness :
  let a := standardize_usgs_data Demo.to_datetime_cell Demo.raw_usgs in
  let b := standardize_isc_data Demo.py_float Demo.to_datetime_cell Demo.raw_isc in
  a.2 <> Demo.raw_usgs /\
  columns a.2 = columns Demo.raw_usgs ++ canonical_columns /\
  b.2 <> Demo.raw_isc /\
  columns b.2 = columns Demo.raw_isc ++ canonical_columns /\
  assoc "magnitude" (df_cols b.2)
  = Some [Demo.dec 51 (-1); Demo.dec 65 (-1); Demo.dec 50 (-1)] /\
  assoc "Magnitude" (df_cols b.2) = Some [VStr "5.1"; VStr "6.5"; VStr "5.0"].
Proof.
  cbv zeta.
  destruct (normalizers_mutate_their_argument Demo.py_float Demo.to_datetime_cell
              Demo.raw_usgs) as (_ & Ha & _).
  destruct (normalizers_mutate_their_argument Demo.py_float Demo.to_datetime_cell
              Demo.raw_isc) as (_ & _ & Hb & _).
  destruct (Ha [VInt 1672531200000; VInt 1682899200000]
               [VTime 1672531200000000000; VTime 1682899200000000000])
    as (_ & Hna & _); [vm_compute; reflexivity|vm_compute; reflexivity|].
  destruct (Hb [VStr "2023-05-02T00:00:00"; VStr "2023-01-01T00:00:00";
                VStr "2023-05-01T00:00:00"]
               [VTime 1682985600000000000; VTime 1672531200000000000;
                VTime 1682899200000000000])
    as (_ & Hnb & _); [vm_compute; reflexivity|vm_compute; reflexivity|].
  split; [apply Hna; vm_compute; discriminate|].
  split; [vm_compute; reflexivity|].
  split; [apply Hnb; vm_compute; discriminate|].
  repeat split; vm_compute; reflexivity.
Defined.

(** A table a normalizer rejects at its first read is left as it was: the
    source-B table given to the source-A normalizer, and the other way
    round. *)
Lemma normalizers_rejected_input_counterexample :
  standardize_usgs_data Demo.to_datetime_cell Demo.raw_isc
  = (Raise (KeyError "properties.time"), Demo.raw_isc) /\
  (forall c, c ∈ canonical_columns -> assoc c (df_cols Demo.raw_isc) = None) /\
  standardize_isc_data Demo.py_float Demo.to_datetime_cell Demo.raw_usgs
  = (Raise (KeyError "Time"), Demo.raw_usgs) /\
  (forall c, c ∈ canonical_columns -> assoc c (df_cols Demo.raw_usgs) = None).
Proof.
  split; [vm_compute; reflexivity|]. split.
  - intros c Hc. apply in_canonical in Hc as [-> | [-> | [-> | ->]]]; reflexivity.
  - split; [vm_compute; reflexivity|].
    intros c Hc. apply in_canonical in Hc as [-> | [-> | [-> | ->]]]; reflexivity.
Qed.

(** ** Insert loops *)

Section InsertLoops.

Variable isoformat : Z -> string * string.
Variable sqlite_select : string -> database -> result (list (list sqlval)).

(** The source-B loop handles every failure of a row itself: it always runs
    to the end, whatever the rows and the state of the connection. *)
Lemma insert_isc_never_raises (clean : DataFrame) (w : world) :
  exists w', insert_isc isoformat sqlite_select clean w = (Ok tt, w').
Proof.
  unfold insert_isc. generalize (iterrows clean) as rows.
  intros rows. revert w. induction rows as [|row rows IH]; intros w; simpl.
  - by exists w.
  - unfold mbind, ST_bind, bind at 1. unfold try_except.
    match goal with
    | |- context [match ?body w with _ => _ end] => destruct (body w) as [[[]|e] w1]
    end.
    + apply IH.
    + unfold print, emit, modify, bind. simpl. apply IH.
  Qed.

End InsertLoops.

(** The rows of a projection carry only the requested labels. *)
Lemma select_cols_labels cs cols sel kv :
  select_cols cs cols = Ok sel -> kv ∈ sel -> kv.1 ∈ cs.
Proof.
  revert sel. induction cs as [|c cs IH]; intros sel H Hin; simpl in H.
  - inversion H; subst. by apply elem_of_nil in Hin.
  - destruct (assoc c cols); [|done].
    destruct (select_cols cs cols) as [rest|]; [|done]. simpl in H.
    inversion H; subst. apply elem_of_app in Hin as [Hin|Hin].
    + apply list_elem_of_filter in Hin as [-> _]. apply elem_of_cons. by left.
    + apply elem_of_cons. right. by apply (IH rest).
Qed.

Lemma assoc_In_labels {A} k (l : list (string * A)) v :
  assoc k l = Some v -> k ∈ map fst l.
Proof.
  intros H. destruct (decide (k ∈ map fst l)) as [|Hn]; [done|].
  apply assoc_None_not_in in Hn. congruence.
Qed.

(** No row of a merge of two projections on the canonical columns has a
    [source] entry, so [row.get('source', 'Unknown')] is ['Unknown']. *)
Lemma merged_rows_have_no_source rawA rawB a b row :
  project canonical_columns rawA = Ok a ->
  project canonical_columns rawB = Ok b ->
  row ∈ iterrows (concat a b) ->
  assoc "source" row = None /\ row_get "source" (VStr "Unknown") row = VStr "Unknown".
Proof.
  intros Ha Hb Hrow.
  assert (Hlab : forall out raw, project canonical_columns raw = Ok out ->
                   forall c, c ∈ columns out -> c ∈ canonical_columns).
  { intros out raw Hp c Hc. unfold project in Hp.
    destruct (select_cols _ _) as [sel|] eqn:E; [|done]. inversion Hp; subst.
    unfold columns in Hc. simpl in Hc.
    apply list_elem_of_In, in_map_iff in Hc as (kv & <- & Hkv).
    apply (select_cols_labels _ _ _ _ E). by apply list_elem_of_In. }
  assert (Hnone : assoc "source" row = None).
  { apply list_elem_of_In, in_map_iff in Hrow as (i & <- & _).
    unfold row_at. rewrite (assoc_map_values (fun vs => nth i vs NaN)).
    destruct (assoc "source" (df_cols (concat a b))) as [vs|] eqn:E; [|done].
    exfalso. apply assoc_In_labels in E. unfold concat in E. simpl in E.
    rewrite map_map in E. simpl in E. rewrite map_id in E.
    apply elem_of_app in E as [E|E].
    - apply (Hlab _ _ Ha), in_canonical in E. intuition discriminate.
    - apply list_elem_of_filter in E as [_ E].
      apply (Hlab _ _ Hb), in_canonical in E. intuition discriminate. }
  split; [done|]. unfold row_get. by rewrite Hnone.
Qed.

(** ** The write path on concrete replies *)

(** C2: only the source-B loop of the script catches a failing row
    ([insert_isc_never_raises]).  The loop of [main] has no handler: on a
    reply with two source-A and three source-B events the first insert fails
    (a pandas Timestamp is not a bindable parameter), the error leaves
    [main], the four other rows are never tried, nothing is committed and
    the file is unchanged.  The source-A loop of the script has no handler
    either: a row it cannot bind ends the script before the three source-B
    rows are inserted and before the commit. *)
Theorem row_failure_aborts_unhandled_loops :
  let run := Demo.main_on (Demo.collection Demo.features2) Demo.text3
                          (mkArgs true None) in
  let script := Demo.run_on (Demo.collection Demo.features_line) Demo.text3
                            (mkArgs false None) in
  (df_len (concat Demo.clean_usgs Demo.clean_isc) = 5%nat /\
   (run Demo.stored2).1 = Raise ProgrammingError /\
   length (executed (run Demo.stored2).2) = 1%nat /\
   existsb is_commit (w_out (run Demo.stored2).2) = false /\
   stored_rows (run Demo.stored2).2 = stored_rows Demo.stored2) /\
  ((script Demo.fresh).1 = Raise ProgrammingError /\
   length (executed (script Demo.fresh).2) = 2%nat /\
   existsb is_commit (w_out (script Demo.fresh).2) = false /\
   stored_rows (script Demo.fresh).2 = []).
Proof. cbv zeta. repeat split; vm_compute; reflexivity. Qed.

(** C4: the merged table has the four canonical columns and no source
    column, so the loop of [main] passes ['Unknown'] as the source of every
    row, those of source A and those of source B alike; the first statement
    it executes shows it. *)
Theorem merged_rows_are_tagged_unknown :
  let merged := concat Demo.clean_usgs Demo.clean_isc in
  let run := Demo.main_on (Demo.collection Demo.features2) Demo.text3
                          (mkArgs true None) in
  columns merged = canonical_columns /\
  Forall (fun row => assoc "source" row = None) (iterrows merged) /\
  map (fun row => match (main_params row Demo.stored2).1 with
                  | Ok ps => ps !! 4%nat
                  | Raise _ => None
                  end) (iterrows merged)
  = replicate 5 (Some (VStr "Unknown")) /\
  executed (run Demo.stored2).2
  = [ EvExecute insert_earthquake
        [ VTime 1672531200000000000; Demo.dec 62 (-1); Demo.dec (-1201) (-1);
          Demo.dec 350 (-1); VStr "Unknown" ] ].
Proof.
  cbv zeta. split; [reflexivity|]. split; [|split; reflexivity].
  vm_compute. repeat constructor.
Qed.

(** C5: the script stores a source-A event whose magnitude is null as a
    record with a NULL magnitude: nothing filters source-A rows and the
    table has no NOT NULL column. *)
Theorem null_magnitude_is_persisted :
  let script := Demo.run_on (Demo.collection Demo.features_null_mag) Demo.text3
                            (mkArgs false None) in
  (script Demo.fresh).1 = Ok tt /\
  length (stored_rows (script Demo.fresh).2) = 5%nat /\
  stored_rows (script Demo.fresh).2 !! 0%nat
  = Some [ SInt 1; SText "2023-01-01T00:00:00"; SNull;
           SReal (FFin (-1201) (-1)); SReal (FFin 350 (-1)); SText "USGS" ].
Proof. cbv zeta. repeat split; vm_compute; reflexivity. Qed.

(** C9: with no features the source-A table has no columns at all and its
    normalizer raises [KeyError] on the first column it reads, for any
    datetime parser; the header-only source-B table normalizes to a zero-row
    table.  So [main --fetch] and the script end with that error before a
    merged table exists and before any statement is executed. *)
Theorem empty_feature_collection_raises :
  let header_only := Demo.lf Demo.isc_header in
  let run := Demo.main_on (Demo.collection []) header_only (mkArgs true None) in
  let script := Demo.run_on (Demo.collection []) header_only (mkArgs false None) in
  json_normalize (VList []) = Ok empty_frame /\
  (forall tdc, standardize_usgs_data tdc empty_frame
               = (Raise (KeyError "properties.time"), empty_frame)) /\
  (standardize_isc_data Demo.py_float Demo.to_datetime_cell
     (Demo.table_of_text header_only)).1
  = Ok (mkDF 0 [("time", []); ("magnitude", []); ("longitude", []); ("latitude", [])]) /\
  (run Demo.stored2).1 = Raise (KeyError "properties.time") /\
  executed (run Demo.stored2).2 = [] /\
  (script Demo.fresh).1 = Raise (KeyError "properties.time") /\
  executed (script Demo.fresh).2 = [].
Proof.
  cbv zeta. split; [reflexivity|]. split; [intros tdc; reflexivity|].
  repeat split; vm_compute; reflexivity.
Qed.

(** * Further properties of the script *)

(** ** Splitting a line into fields *)

Lemma split_nonempty sep s : split sep s <> [].
Proof.
  destruct s as [|c s]; simpl; [done|].
  destruct (Ascii.eqb c sep); [done|]. by destruct (split sep s).
Qed.

Lemma join_cons_cons sep x y rest :
  join sep (x :: y :: rest) = x +:+ String sep (join sep (y :: rest)).
Proof. reflexivity. Qed.

(** X1: splitting a line at a separator loses nothing: the pieces joined
    with the separator are the line again, there is always at least one
    piece, there is one piece more than there are separators in the line,
    and no piece contains the separator. *)
Theorem split_join_round_trip (sep : ascii) (s : string) :
  join sep (split sep s) = s /\
  length (split sep s) = S (length (filter (fun c => c = sep) (chars s))) /\
  Forall (fun piece => sep ∉ chars piece) (split sep s).
Proof.
  induction s as [|c s (IHj & IHl & IHf)]; simpl.
  - split; [done|]. split; [done|].
    constructor; [apply not_elem_of_nil|constructor].
  - rewrite filter_cons. destruct (Ascii.eqb c sep) eqn:E.
    + apply Ascii.eqb_eq in E. subst c.
      destruct (decide (sep = sep)); [|done]. split; [|split].
      * pose proof (split_nonempty sep s) as Hne.
        destruct (split sep s) as [|y rest]; [done|].
        rewrite join_cons_cons, IHj. reflexivity.
      * simpl. by rewrite IHl.
      * constructor; [apply not_elem_of_nil|done].
    + apply Ascii.eqb_neq in E.
      destruct (decide (c = sep)); [done|].
      pose proof (split_nonempty sep s) as Hne.
      destruct (split sep s) as [|y rest]; [done|]. split; [|split].
      * destruct rest as [|z rest'].
        -- simpl in *. by rewrite IHj.
        -- rewrite join_cons_cons in IHj. rewrite join_cons_cons.
           rewrite <- IHj. reflexivity.
      * exact IHl.
      * inversion IHf; subst. constructor; [|done].
        simpl. apply not_elem_of_cons. split; [congruence|done].
Qed.

(** ** Source adapters *)

Lemma map_fst_imap {B} (f : nat -> string -> string * B) (l : list string) :
  (forall j h, (f j h).1 = h) -> map fst (imap f l) = l.
Proof.
  revert f. induction l as [|x l IH]; intros f Hf; [done|].
  rewrite imap_cons. simpl. rewrite Hf. f_equal. apply IH.
  intros j h. apply Hf.
Qed.

Lemma Forall_imap {A B} (P : B -> Prop) (f : nat -> A -> B) (l : list A) :
  (forall j x, P (f j x)) -> Forall P (imap f l).
Proof.
  revert f. induction l as [|x l IH]; intros f Hf; [constructor|].
  rewrite imap_cons. constructor; [apply Hf|]. apply IH. intros j y. apply Hf.
Qed.

Lemma map_imap {A B C} (g : B -> C) (f : nat -> A -> B) (l : list A) :
  map g (imap f l) = imap (fun j x => g (f j x)) l.
Proof.
  revert f. induction l as [|x l IH]; intros f; [done|].
  rewrite !imap_cons. simpl. f_equal. apply IH.
Qed.

(** What [pd.DataFrame(data, columns=headers)] holds when it is built. *)
Lemma frame_of_rows_ok data headers df :
  frame_of_rows data headers = Ok df ->
  columns df = headers /\ df_len df = length data /\ cols_len_ok df /\
  iterrows df = map (under_headers headers) data.
Proof.
  unfold frame_of_rows. destruct data as [|r0 data0] eqn:Ed.
  - intros [= <-]. unfold columns, cols_len_ok, iterrows. simpl.
    rewrite map_map. simpl. rewrite map_id. repeat split.
    apply Forall_forall. intros kv Hkv.
    apply list_elem_of_In, in_map_iff in Hkv as (h & <- & _). done.
  - rewrite <- Ed. destruct (_ =? _)%nat; [|done]. intros [= <-].
    unfold columns, cols_len_ok, iterrows, row_at. cbn [df_len df_cols].
    split; [by apply map_fst_imap|]. split; [done|]. split.
    + apply Forall_imap. intros j h. simpl. apply length_map.
    + rewrite <- (map_nth_seq (under_headers headers) data []).
      apply map_ext_in. intros i Hi. apply in_seq in Hi.
      rewrite map_imap. unfold under_headers. apply imap_ext.
      intros j h _. simpl. f_equal.
      rewrite (nth_indep _ NaN ((fun r => nth j r VNone) []))
        by (rewrite length_map; lia).
      by rewrite (map_nth (fun r => nth j r VNone)).
Qed.

Lemma widest_ge lines line :
  line ∈ lines -> (length (fields line) <= widest lines)%nat.
Proof.
  unfold widest. induction lines as [|l lines IH]; intros Hin.
  - by apply elem_of_nil in Hin.
  - simpl. apply elem_of_cons in Hin as [->|Hin]; [lia|].
    specialize (IH Hin). lia.
Qed.

Section Adapters.

Variable http_get : nat -> string -> list (string * pyval) -> result response.

(** One run of [fetch_isc_data], outcome by outcome. *)
Lemma fetch_isc_data_run a b c w :
  fetch_isc_data http_get a b c w =
    (match http_get (requests_made w) isc_url (isc_params a b c) with
     | Raise e => Raise e
     | Ok resp =>
         match splitlines (resp_text resp) with
         | [] => Raise IndexError
         | line0 :: rest => frame_of_rows (map fields rest) (split pipe line0)
         end
     end,
     requested isc_url (isc_params a b c) w).
Proof.
  unfold fetch_isc_data, requests_get, emit, requested. unfold_st. simpl.
  fold isc_url. fold (isc_params a b c).
  destruct (http_get _ _ _) as [resp|e]; simpl; [|done].
  by destruct (splitlines (resp_text resp)).
Qed.

(** One run of [fetch_usgs_data], outcome by outcome. *)
Lemma fetch_usgs_data_run a b c w :
  fetch_usgs_data http_get a b c w =
    (try! resp := http_get (requests_made w) usgs_url (usgs_params a b c) in
     try! data := resp_json resp in
     try! features := py_getitem data "features" in
     json_normalize features,
     requested usgs_url (usgs_params a b c) w).
Proof.
  unfold fetch_usgs_data, requests_get, emit, requested. unfold_st. simpl.
  fold usgs_url. fold (usgs_params a b c).
  destruct (http_get _ _ _) as [resp|e]; simpl; [|done].
  destruct (resp_json resp) as [data|e]; simpl; [|done].
  by destruct (py_getitem data "features").
Qed.

(** X2: when [fetch_isc_data] returns, the table has the tokens of the
    first line as labels and one row per further line; every column has one
    cell per row, and each row holds the fields of its line under the
    labels, in order, with [None] where the line has fewer fields than the
    header. *)
Theorem fetch_isc_data_table a b c w df w' :
  fetch_isc_data http_get a b c w = (Ok df, w') ->
  exists resp line0 rest,
    http_get (requests_made w) isc_url (isc_params a b c) = Ok resp /\
    splitlines (resp_text resp) = line0 :: rest /\
    columns df = split pipe line0 /\
    df_len df = length rest /\
    cols_len_ok df /\
    iterrows df = map (fun line => under_headers (split pipe line0) (fields line)) rest.
Proof.
  rewrite fetch_isc_data_run.
  destruct (http_get _ _ _) as [resp|e]; [|done].
  destruct (splitlines (resp_text resp)) as [|line0 rest] eqn:El; [done|].
  intros [= Hf _]. apply frame_of_rows_ok in Hf as (Hc & Hl & Hok & Hr).
  exists resp, line0, rest. repeat split; try done.
  - by rewrite Hl, length_map.
  - by rewrite Hr, map_map.
Qed.

(** X3: [fetch_isc_data] does not return on an empty body ([IndexError]
    from [lines[0]]), nor when the widest data line has not exactly as many
    fields as the header ([ValueError] from the table constructor); in both
    cases the request was sent and nothing else happened. *)
Theorem fetch_isc_data_rejects a b c w resp :
  http_get (requests_made w) isc_url (isc_params a b c) = Ok resp ->
  (resp_text resp = "" ->
   fetch_isc_data http_get a b c w
   = (Raise IndexError, requested isc_url (isc_params a b c) w)) /\
  (forall line0 rest,
     splitlines (resp_text resp) = line0 :: rest -> rest <> [] ->
     widest rest <> length (split pipe line0) ->
     fetch_isc_data http_get a b c w
     = (Raise ValueError, requested isc_url (isc_params a b c) w)).
Proof.
  intros Hresp. split.
  - intros Htxt. rewrite fetch_isc_data_run, Hresp, Htxt. done.
  - intros line0 rest Hl Hne Hw. rewrite fetch_isc_data_run, Hresp, Hl.
    unfold frame_of_rows. destruct (map fields rest) as [|r rs] eqn:Em.
    { destruct rest; [done|discriminate Em]. }
    rewrite <- Em. unfold widest in Hw. rewrite <- map_map in Hw.
    rewrite map_map.
    destruct (_ =? _)%nat eqn:E; [|done].
    apply Nat.eqb_eq in E. rewrite map_map in Hw. done.
Qed.

End Adapters.

Lemma fetch_isc_data_table_witness :
  exists resp line0 rest,
    Demo.net (requests_made Demo.fresh) isc_url (isc_params date_from date_to five)
    = Ok resp /\
    splitlines (resp_text resp) = line0 :: rest /\
    columns Demo.raw_isc = split pipe line0 /\
    df_len Demo.raw_isc = length rest /\
    cols_len_ok Demo.raw_isc /\
    iterrows Demo.raw_isc
    = map (fun line => under_headers (split pipe line0) (fields line)) rest.
Proof.
  apply (fetch_isc_data_table Demo.net date_from date_to five Demo.fresh Demo.raw_isc
           (requested isc_url (isc_params date_from date_to five) Demo.fresh)).
  vm_compute. reflexivity.
Defined.

Lemma fetch_isc_data_rejects_witness :
  fetch_isc_data (Demo.http_get (Demo.collection []) "") date_from date_to five Demo.fresh
  = (Raise IndexError, requested isc_url (isc_params date_from date_to five) Demo.fresh) /\
  fetch_isc_data (Demo.http_get (Demo.collection []) Demo.wide_text)
                 date_from date_to five Demo.fresh
  = (Raise ValueError, requested isc_url (isc_params date_from date_to five) Demo.fresh).
Proof.
  split.
  - apply (proj1 (fetch_isc_data_rejects (Demo.http_get (Demo.collection []) "")
                    date_from date_to five Demo.fresh
                    (mkResponse "" (Raise ValueError)) eq_refl)).
    reflexivity.
  - apply (proj2 (fetch_isc_data_rejects (Demo.http_get (Demo.collection []) Demo.wide_text)
                    date_from date_to five Demo.fresh
                    (mkResponse Demo.wide_text (Raise ValueError)) eq_refl)
             "Time|Magnitude" ["2023-05-01T00:00:00|5.0|GREECE"]).
    + vm_compute. reflexivity.
    + discriminate.
    + vm_compute. lia.
Defined.

(** *** The feature table *)

Lemma rmap_Forall2 {A B} (f : A -> result B) l l' :
  rmap f l = Ok l' -> Forall2 (fun x y => f x = Ok y) l l'.
Proof.
  revert l'. induction l as [|x l IH]; intros l' H; simpl in H.
  - inversion H. constructor.
  - destruct (f x) eqn:Hx; [|done]. simpl in H.
    destruct (rmap f l) as [ys|]; [|done]. simpl in H.
    inversion H; subst. constructor; auto.
Qed.

Lemma foldl_keeps {A B} (P : A -> Prop) (f : A -> B -> A) (l : list B) (a : A) :
  (forall x y, P x -> P (f x y)) -> P a -> P (foldl f a l).
Proof.
  intros Hf. revert a. induction l as [|y l IH]; intros a Ha; simpl; auto.
Qed.

Lemma frame_of_dicts_ok ds :
  df_wf (frame_of_dicts ds) /\ df_len (frame_of_dicts ds) = length ds /\
  iterrows (frame_of_dicts ds)
  = map (fun d => map (fun c => (c, default NaN (assoc c d)))
                      (columns (frame_of_dicts ds))) ds.
Proof.
  unfold frame_of_dicts.
  set (labels := foldl _ [] ds).
  assert (Hnd : NoDup labels).
  { unfold labels. apply (foldl_keeps (fun l : list string => NoDup l)).
    - intros acc d Hacc. apply (foldl_keeps (fun l : list string => NoDup l)); [|done].
      intros acc' kv Hacc'. case_bool_decide as Hin; [done|].
      apply NoDup_app. split; [done|]. split; [|apply NoDup_singleton].
      intros x Hx Hx'. apply list_elem_of_singleton in Hx'. by subst.
    - constructor. }
  assert (Hcols : columns (mkDF (length ds)
             (map (fun c => (c, map (fun d => default NaN (assoc c d)) ds)) labels))
           = labels).
  { unfold columns. simpl. rewrite map_map. simpl. apply map_id. }
  split; [split|split].
  - unfold cols_len_ok. simpl. apply Forall_forall. intros kv Hkv.
    apply list_elem_of_In, in_map_iff in Hkv as (c & <- & _). simpl.
    apply length_map.
  - by rewrite Hcols.
  - done.
  - rewrite Hcols. unfold iterrows, row_at. cbn [df_len df_cols].
    rewrite <- (map_nth_seq (fun d => map (fun c => (c, default NaN (assoc c d))) labels)
                  ds []).
    apply map_ext_in. intros i Hi. apply in_seq in Hi.
    rewrite map_map. apply map_ext. intros c. simpl. f_equal.
    rewrite (nth_indep _ NaN ((fun d => default NaN (assoc c d)) []))
      by (rewrite length_map; lia).
    by rewrite (map_nth (fun d => default NaN (assoc c d))).
Qed.

Lemma json_normalize_list l :
  l <> [] -> json_normalize (VList l) = frame_of_normalised (map normalise_record l).
Proof. by destruct l. Qed.

Lemma records_length rows ds : records rows = Some ds -> length ds = length rows.
Proof.
  revert ds. induction rows as [|[d|] rows IH]; intros ds H; simpl in H.
  - by inversion H.
  - destruct (records rows) as [ds'|]; [|done]. simpl in H. inversion H; subst.
    simpl. by rewrite (IH ds').
  - done.
Qed.

Lemma frame_of_normalised_records rows ds :
  records rows = Some ds -> frame_of_normalised rows = Ok (frame_of_dicts ds).
Proof.
  unfold frame_of_normalised. destruct rows as [|[d|] rows]; intros H.
  - by rewrite H.
  - by rewrite H.
  - discriminate H.
Qed.

Lemma frame_of_normalised_wf rows df : frame_of_normalised rows = Ok df -> df_wf df.
Proof.
  unfold frame_of_normalised. destruct rows as [|[d|] rows].
  - simpl. intros [= <-]. apply frame_of_dicts_ok.
  - destruct (records (NRecord d :: rows)) as [ds|]; [|done].
    intros [= <-]. apply frame_of_dicts_ok.
  - intros [= <-]. split; [constructor|constructor].
Qed.

Lemma json_normalize_wf features df : json_normalize features = Ok df -> df_wf df.
Proof.
  destruct features as [| | | | | | |l|kv]; try done.
  - destruct l as [|x l]; [intros [= <-]; split; constructor|].
    rewrite json_normalize_list by done. apply frame_of_normalised_wf.
  - apply frame_of_normalised_wf.
Qed.

(** The normalised elements are all records exactly when no element is a
    list. *)
Lemma records_no_list l :
  forallb (fun f => negb (is_list f)) l = true ->
  exists ds, records (map normalise_record l) = Some ds /\
             Forall2 (fun f d => normalise_record f = NRecord d) l ds.
Proof.
  induction l as [|f l IH]; simpl; intros H.
  - exists []. split; [done|constructor].
  - apply andb_true_iff in H as [Hf Hl]. destruct (IH Hl) as (ds & Hds & Hall).
    destruct (normalise_record f) as [d|] eqn:E.
    + exists (d :: ds). rewrite Hds. split; [done|]. by constructor.
    + destruct f; try discriminate E. discriminate Hf.
Qed.

Section FeatureTable.

Variable http_get : nat -> string -> list (string * pyval) -> result response.

(** X4: when [fetch_usgs_data] returns, the table has distinct labels and
    one cell per row in every column.  On a reply whose [features] is a list
    none of whose elements is itself a list, it has one row per feature,
    and each row holds, under every label, the entry of that dotted path in
    its flattened feature, NaN when the feature has none; a feature that is
    not a JSON object gives a row of NaN. *)
Theorem fetch_usgs_data_table a b c w df w' :
  fetch_usgs_data http_get a b c w = (Ok df, w') ->
  df_wf df /\
  exists resp data features,
    http_get (requests_made w) usgs_url (usgs_params a b c) = Ok resp /\
    resp_json resp = Ok data /\
    py_getitem data "features" = Ok features /\
    forall l, features = VList l ->
      forallb (fun f => negb (is_list f)) l = true ->
      df_len df = length l /\
      exists ds,
        Forall2 (fun f d => normalise_record f = NRecord d) l ds /\
        Forall2 (fun f d => is_dict f = false -> d = []) l ds /\
        iterrows df
        = map (fun d => map (fun c => (c, default NaN (assoc c d))) (columns df)) ds.
Proof.
  rewrite fetch_usgs_data_run.
  destruct (http_get _ _ _) as [resp|e] eqn:E1; [|done]. simpl.
  destruct (resp_json resp) as [data|e] eqn:E2; [|done]. simpl.
  destruct (py_getitem data "features") as [features|e] eqn:E3; [|done]. simpl.
  intros [= Hn _].
  split; [by eapply json_normalize_wf|].
  exists resp, data, features. split; [done|]. split; [done|]. split; [done|].
  intros l -> Hl. destruct (records_no_list l Hl) as (ds & Hds & Hall).
  assert (Hempty : Forall2 (fun f d => is_dict f = false -> d = []) l ds).
  { clear -Hall. induction Hall as [|f d l ds Hf _ IH]; constructor; [|done].
    intros Hnd. destruct f; simpl in *; try discriminate; by inversion Hf. }
  destruct l as [|f l].
  { inversion Hall; subst. inversion Hn; subst df. split; [done|]. exists [].
    split; [constructor|]. split; [constructor|done]. }
  rewrite json_normalize_list, (frame_of_normalised_records _ _ Hds) in Hn by done.
  inversion Hn; subst df. split.
  - rewrite (proj1 (proj2 (frame_of_dicts_ok ds))).
    apply records_length in Hds. by rewrite Hds, length_map.
  - exists ds. split; [done|]. split; [done|]. apply frame_of_dicts_ok.
Qed.

(** X5: a fetch sends exactly one GET, with the four parameters format,
    starttime, endtime and minmagnitude, and does nothing else: whatever
    the reply, and whether the fetch returns or raises, the store and the
    connection are as before and the trace has that one request more. *)
Theorem fetchers_only_send_one_request a b c w :
  (fetch_usgs_data http_get a b c w).2 = requested usgs_url (usgs_params a b c) w /\
  (fetch_isc_data http_get a b c w).2 = requested isc_url (isc_params a b c) w /\
  forall url ps,
    w_disk (requested url ps w) = w_disk w /\
    w_conn (requested url ps w) = w_conn w /\
    requests_made (requested url ps w) = S (requests_made w) /\
    executed (requested url ps w) = executed w.
Proof.
  rewrite fetch_usgs_data_run, fetch_isc_data_run.
  split; [done|]. split; [done|]. intros url ps.
  unfold requested, requests_made, executed. simpl.
  rewrite !filter_app, !filter_cons. simpl.
  destruct (decide (true = true)); [|done].
  destruct (decide (false = true)); [done|].
  rewrite !filter_nil, length_app, app_nil_r. simpl.
  repeat split. lia.
Qed.

End FeatureTable.

Lemma fetch_usgs_data_table_witness :
  df_wf Demo.raw_usgs /\
  exists resp data features,
    Demo.net (requests_made Demo.fresh) usgs_url (usgs_params date_from date_to five)
    = Ok resp /\
    resp_json resp = Ok data /\
    py_getitem data "features" = Ok features /\
    forall l, features = VList l ->
      forallb (fun f => negb (is_list f)) l = true ->
      df_len Demo.raw_usgs = length l /\
      exists ds,
        Forall2 (fun f d => normalise_record f = NRecord d) l ds /\
        Forall2 (fun f d => is_dict f = false -> d = []) l ds /\
        iterrows Demo.raw_usgs
        = map (fun d => map (fun c => (c, default NaN (assoc c d))) (columns Demo.raw_usgs)) ds.
Proof.
  apply (fetch_usgs_data_table Demo.net date_from date_to five Demo.fresh Demo.raw_usgs
           (requested usgs_url (usgs_params date_from date_to five) Demo.fresh)).
  vm_compute. reflexivity.
Defined.

(** ** Normalizer *)

Lemma only_assigns_refl raw : only_assigns_canonical raw raw.
Proof. by repeat split. Qed.

Lemma columns_setitem c vs df c' :
  c' ∈ columns df -> c' ∈ columns (setitem c vs df).
Proof.
  unfold columns, setitem. destruct (assoc c (df_cols df)); simpl.
  - by rewrite setitem_columns_replace.
  - rewrite map_app. intros H. apply elem_of_app. by left.
Qed.

Lemma only_assigns_setitem raw x c vs :
  c ∈ canonical_columns -> only_assigns_canonical raw x ->
  only_assigns_canonical raw (setitem c vs x).
Proof.
  intros Hc (Hl & Ho & Hk). split; [|split].
  - by rewrite df_len_setitem.
  - intros c' Hc'. rewrite assoc_setitem_ne; [by apply Ho|]. congruence.
  - intros c' Hc'. by apply columns_setitem, Hk.
Qed.

Lemma canonical_time : "time" ∈ canonical_columns.
Proof. apply elem_of_cons. by left. Qed.
Lemma canonical_magnitude : "magnitude" ∈ canonical_columns.
Proof. apply elem_of_cons. right. apply elem_of_cons. by left. Qed.
Lemma canonical_longitude : "longitude" ∈ canonical_columns.
Proof. do 2 (apply elem_of_cons; right). apply elem_of_cons. by left. Qed.
Lemma canonical_latitude : "latitude" ∈ canonical_columns.
Proof. do 3 (apply elem_of_cons; right). apply elem_of_cons. by left. Qed.

Ltac assigned :=
  repeat first
    [ apply only_assigns_refl
    | apply only_assigns_setitem;
      [first [apply canonical_time | apply canonical_magnitude
             | apply canonical_longitude | apply canonical_latitude]|] ].

Section NormalizerMore.

Variable py_float : string -> option pyfloat.
Variable to_datetime_cell : bool -> list pyval -> pyval -> result pyval.

(** X6: on a well-formed raw table a normalizer that returns gives a table
    with exactly the columns time, magnitude, longitude, latitude, in that
    order, with as many rows as the raw table, one cell per row in every
    column. *)
Theorem normalizers_return_canonical_table (raw out raw' : DataFrame) :
  df_wf raw ->
  standardize_usgs_data to_datetime_cell raw = (Ok out, raw') \/
  standardize_isc_data py_float to_datetime_cell raw = (Ok out, raw') ->
  columns out = canonical_columns /\
  df_len out = df_len raw /\
  cols_len_ok out /\
  length (iterrows out) = df_len raw /\
  Forall (fun row => map fst row = canonical_columns) (iterrows out).
Proof.
  intros Hwf H.
  assert (Hn : normalized out /\ df_len out = df_len raw).
  { destruct H as [H|H].
    - by eapply standardize_usgs_data_normalized.
    - by eapply standardize_isc_data_normalized. }
  destruct Hn as [[Hc Hl] Hlen]. repeat split; try done.
  - unfold iterrows. by rewrite length_map, length_seq.
  - apply Forall_forall. intros row Hrow.
    apply list_elem_of_In, in_map_iff in Hrow as (i & <- & _).
    unfold row_at. rewrite map_map. simpl. exact Hc.
Qed.

(** X7: the table returned for source A holds, row by row, the converted
    [properties.time] as time, [properties.mag] unchanged as magnitude, the
    first element of [geometry.coordinates] as longitude and the second as
    latitude. *)
Theorem standardize_usgs_data_columns (raw out raw' : DataFrame) :
  standardize_usgs_data to_datetime_cell raw = (Ok out, raw') ->
  exists t mag c time lon lat,
    getitem "properties.time" raw = Ok t /\
    getitem "properties.mag" raw = Ok mag /\
    getitem "geometry.coordinates" raw = Ok c /\
    assoc "time" (df_cols out) = Some time /\
    Forall2 (fun x v => to_datetime_cell true t x = Ok v) t time /\
    assoc "magnitude" (df_cols out) = Some mag /\
    assoc "longitude" (df_cols out) = Some lon /\
    Forall2 (fun x v => py_index 0 x = Ok v) c lon /\
    assoc "latitude" (df_cols out) = Some lat /\
    Forall2 (fun x v => py_index 1 x = Ok v) c lat.
Proof.
  intros H. apply standardize_usgs_data_inv in H
    as (t & time & mag & c & lon & lat & H1 & H2 & H3 & H4 & H5 & H6 & -> & Hp).
  destruct (after_assignments_canonical time mag lon lat raw) as (Ht & Hm & Hlo & Hla).
  unfold project in Hp.
  destruct (select_cols canonical_columns _) as [sel|] eqn:Es; [|done].
  inversion Hp; subst out. simpl.
  exists t, mag, c, time, lon, lat.
  rewrite (assoc_select_cols _ _ _ _ Es canonical_time),
          (assoc_select_cols _ _ _ _ Es canonical_magnitude),
          (assoc_select_cols _ _ _ _ Es canonical_longitude),
          (assoc_select_cols _ _ _ _ Es canonical_latitude).
  repeat split; try done; by apply rmap_Forall2.
Qed.

(** X8: whatever the input and whether it returns or raises, a normalizer
    only ever assigns the four canonical columns of the caller's frame: the
    row count, every other column and every label already there are as
    before. *)
Theorem normalizers_only_assign_canonical (raw : DataFrame) :
  only_assigns_canonical raw (standardize_usgs_data to_datetime_cell raw).2 /\
  only_assigns_canonical raw (standardize_isc_data py_float to_datetime_cell raw).2.
Proof.
  split.
  - unfold standardize_usgs_data. unfold_st. simpl.
    destruct (getitem "properties.time" raw) as [t|]; simpl; [|assigned].
    destruct (to_datetime _ true t) as [time|]; simpl; [|assigned].
    destruct (getitem "properties.mag" _) as [mag|]; simpl; [|assigned].
    destruct (getitem "geometry.coordinates" _) as [c|]; simpl; [|assigned].
    destruct (rmap (py_index 0) c) as [lon|]; simpl; [|assigned].
    destruct (getitem "geometry.coordinates" _) as [c'|]; simpl; [|assigned].
    destruct (rmap (py_index 1) c') as [lat|]; simpl; assigned.
  - unfold standardize_isc_data. unfold_st. simpl.
    destruct (getitem "Time" raw) as [t|]; simpl; [|assigned].
    destruct (to_datetime _ false t) as [time|]; simpl; [|assigned].
    destruct (getitem "Magnitude" _) as [m|]; simpl; [|assigned].
    destruct (astype_float _ m) as [mag|]; simpl; [|assigned].
    destruct (getitem "Longitude" _) as [lo|]; simpl; [|assigned].
    destruct (astype_float _ lo) as [lon|]; simpl; [|assigned].
    destruct (getitem "Latitude" _) as [la|]; simpl; [|assigned].
    destruct (astype_float _ la) as [lat|]; simpl; assigned.
Qed.

End NormalizerMore.

Lemma normalizers_return_canonical_table_witness :
  columns Demo.clean_usgs = canonical_columns /\
  df_len Demo.clean_usgs = df_len Demo.raw_usgs /\
  cols_len_ok Demo.clean_usgs /\
  length (iterrows Demo.clean_usgs) = df_len Demo.raw_usgs /\
  Forall (fun row => map fst row = canonical_columns) (iterrows Demo.clean_usgs).
Proof.
  apply (normalizers_return_canonical_table Demo.py_float Demo.to_datetime_cell
           Demo.raw_usgs Demo.clean_usgs
           (standardize_usgs_data Demo.to_datetime_cell Demo.raw_usgs).2).
  - split; [unfold cols_len_ok|]; apply (bool_decide_unpack _); vm_compute; reflexivity.
  - left. vm_compute. reflexivity.
Defined.

Lemma standardize_usgs_data_columns_witness :
  exists t mag c time lon lat,
    getitem "properties.time" Demo.raw_usgs = Ok t /\
    getitem "properties.mag" Demo.raw_usgs = Ok mag /\
    getitem "geometry.coordinates" Demo.raw_usgs = Ok c /\
    assoc "time" (df_cols Demo.clean_usgs) = Some time /\
    Forall2 (fun x v => Demo.to_datetime_cell true t x = Ok v) t time /\
    assoc "magnitude" (df_cols Demo.clean_usgs) = Some mag /\
    assoc "longitude" (df_cols Demo.clean_usgs) = Some lon /\
    Forall2 (fun x v => py_index 0 x = Ok v) c lon /\
    assoc "latitude" (df_cols Demo.clean_usgs) = Some lat /\
    Forall2 (fun x v => py_index 1 x = Ok v) c lat.
Proof.
  apply (standardize_usgs_data_columns Demo.to_datetime_cell Demo.raw_usgs Demo.clean_usgs
           (standardize_usgs_data Demo.to_datetime_cell Demo.raw_usgs).2).
  vm_compute. reflexivity.
Defined.

(** *** Inputs a normalizer rejects *)

Lemma rmap_py_index_lists i c :
  forallb is_list c = true ->
  (exists vs, rmap (py_index i) c = Ok vs) \/ rmap (py_index i) c = Raise IndexError.
Proof.
  induction c as [|x c IH]; simpl; intros H.
  - left. by exists [].
  - apply andb_true_iff in H as [Hx Hc].
    destruct x; try discriminate Hx. simpl.
    destruct (l !! i) as [v|]; simpl; [|by right].
    destruct (IH Hc) as [[vs ->] | ->]; simpl; [left; by eexists|by right].
Qed.

Lemma rmap_py_index_short c :
  existsb short_coordinates c = true ->
  forall vs, rmap (py_index 1) c <> Ok vs.
Proof.
  intros Hs vs H. apply rmap_Forall2 in H.
  induction H as [|x v c vs Hx _ IH]; simpl in Hs; [done|].
  apply orb_true_iff in Hs as [Hs|Hs]; [|auto].
  destruct x; try discriminate Hs. simpl in Hs, Hx.
  apply Nat.ltb_lt in Hs.
  destruct (l !! 1%nat) eqn:E; [|done].
  apply lookup_lt_Some in E. lia.
Qed.

Section Rejected.

Variable py_float : string -> option pyfloat.
Variable to_datetime_cell : bool -> list pyval -> pyval -> result pyval.

(** X9: if every coordinates cell is a list and one of them has fewer
    than two elements, the source-A normalizer raises [IndexError] (once
    the time column converted); the time and magnitude columns it had
    already assigned stay in the caller's frame. *)
Theorem short_coordinates_raise_IndexError (raw : DataFrame) t time mag c :
  getitem "properties.time" raw = Ok t ->
  to_datetime to_datetime_cell true t = Ok time ->
  getitem "properties.mag" raw = Ok mag ->
  getitem "geometry.coordinates" raw = Ok c ->
  forallb is_list c = true ->
  existsb short_coordinates c = true ->
  let r := standardize_usgs_data to_datetime_cell raw in
  r.1 = Raise IndexError /\
  assoc "time" (df_cols r.2) = Some time /\
  assoc "magnitude" (df_cols r.2) = Some mag /\
  assoc "latitude" (df_cols r.2) = assoc "latitude" (df_cols raw).
Proof.
  intros H1 H2 H3 H4 Hl Hs. cbv zeta.
  unfold standardize_usgs_data. unfold_st. simpl.
  rewrite H1. simpl. rewrite H2. simpl.
  rewrite getitem_setitem_ne, H3 by done. simpl.
  rewrite !getitem_setitem_ne, H4 by done. simpl.
  destruct (rmap_py_index_lists 0 c Hl) as [[lon E0]|E0]; rewrite E0; simpl.
  - rewrite !getitem_setitem_ne, H4 by done. simpl.
    destruct (rmap_py_index_lists 1 c Hl) as [[lat E1]|E1].
    + by apply rmap_py_index_short in E1.
    + rewrite E1. simpl. repeat split.
      * rewrite !assoc_setitem_ne by done. apply assoc_setitem_eq.
      * rewrite !assoc_setitem_ne by done. apply assoc_setitem_eq.
      * by rewrite !assoc_setitem_ne by done.
  - repeat split.
    + rewrite !assoc_setitem_ne by done. apply assoc_setitem_eq.
    + apply assoc_setitem_eq.
    + by rewrite !assoc_setitem_ne by done.
Qed.

(** X10: a raw table that lacks one of the columns a normalizer reads is
    never normalized: the call raises.  When the missing column is the
    first one read ([properties.time] for source A, [Time] for source B)
    the error is the [KeyError] for that label and the caller's frame is
    untouched. *)
Theorem missing_input_column_raises (raw : DataFrame) :
  ((exists c, c ∈ ["properties.time"; "properties.mag"; "geometry.coordinates"] /\
              assoc c (df_cols raw) = None) ->
   exists e, (standardize_usgs_data to_datetime_cell raw).1 = Raise e) /\
  ((exists c, c ∈ ["Time"; "Magnitude"; "Longitude"; "Latitude"] /\
              assoc c (df_cols raw) = None) ->
   exists e, (standardize_isc_data py_float to_datetime_cell raw).1 = Raise e) /\
  (assoc "properties.time" (df_cols raw) = None ->
   standardize_usgs_data to_datetime_cell raw = (Raise (KeyError "properties.time"), raw)) /\
  (assoc "Time" (df_cols raw) = None ->
   standardize_isc_data py_float to_datetime_cell raw = (Raise (KeyError "Time"), raw)).
Proof.
  split; [|split; [|split]].
  - intros (c & Hc & Hnone).
    destruct (standardize_usgs_data to_datetime_cell raw) as [[out|e] raw'] eqn:E;
      [|by exists e].
    apply standardize_usgs_data_inv in E
      as (t & time & mag & cs & lon & lat & H1 & _ & H3 & H4 & _).
    apply getitem_assoc in H1, H3, H4.
    rewrite !elem_of_cons, elem_of_nil in Hc.
    destruct Hc as [-> | [-> | [-> | []]]]; congruence.
  - intros (c & Hc & Hnone).
    destruct (standardize_isc_data py_float to_datetime_cell raw) as [[out|e] raw'] eqn:E;
      [|by exists e].
    apply standardize_isc_data_inv in E
      as (t & time & m & mag & lo & lon & la & lat & H1 & _ & H3 & _ & H5 & _ & H7 & _).
    apply getitem_assoc in H1, H3, H5, H7.
    rewrite !elem_of_cons, elem_of_nil in Hc.
    destruct Hc as [-> | [-> | [-> | [-> | []]]]]; congruence.
  - intros Hnone. unfold standardize_usgs_data. unfold_st. simpl.
    unfold getitem. by rewrite Hnone.
  - intros Hnone. unfold standardize_isc_data. unfold_st. simpl.
    unfold getitem. by rewrite Hnone.
Qed.

End Rejected.

Lemma short_coordinates_raise_IndexError_witness :
  (standardize_usgs_data Demo.to_datetime_cell Demo.raw_short_coordinates).1
  = Raise IndexError /\
  assoc "time"
        (df_cols (standardize_usgs_data Demo.to_datetime_cell Demo.raw_short_coordinates).2)
  = Some [VTime 1672531200000000000].
Proof.
  destruct (short_coordinates_raise_IndexError Demo.to_datetime_cell
              Demo.raw_short_coordinates
              [VInt 1672531200000] [VTime 1672531200000000000]
              [Demo.dec 62 (-1)] [VList [Demo.dec (-1201) (-1)]])
    as (H1 & H2 & _); try (vm_compute; reflexivity).
  split; [exact H1|exact H2].
Defined.

Lemma missing_input_column_raises_witness :
  standardize_usgs_data Demo.to_datetime_cell Demo.raw_isc
  = (Raise (KeyError "properties.time"), Demo.raw_isc) /\
  standardize_isc_data Demo.py_float Demo.to_datetime_cell Demo.raw_usgs
  = (Raise (KeyError "Time"), Demo.raw_usgs).
Proof.
  split.
  - apply (proj1 (proj2 (proj2 (missing_input_column_raises
                                   Demo.py_float Demo.to_datetime_cell Demo.raw_isc)))).
    vm_compute. reflexivity.
  - apply (proj2 (proj2 (proj2 (missing_input_column_raises
                                   Demo.py_float Demo.to_datetime_cell Demo.raw_usgs)))).
    vm_compute. reflexivity.
Defined.

(** ** Null filtering, row by row *)

Lemma iterrows_S n (cols : list (string * list pyval)) :
  iterrows (mkDF (S n) cols)
  = map (fun kv => (kv.1, hd NaN kv.2)) cols
    :: iterrows (mkDF n (map (fun kv => (kv.1, tl kv.2)) cols)).
Proof.
  unfold iterrows. cbn [df_len]. rewrite <- cons_seq, <- seq_shift.
  cbn [map]. f_equal.
  - unfold row_at. simpl. apply map_ext. intros [k v]. simpl. by destruct v.
  - rewrite map_map. apply map_ext. intros i. unfold row_at. simpl.
    rewrite map_map. apply map_ext. intros [k v]. simpl.
    destruct v; [by destruct i|done].
Qed.

Lemma iterrows_mask_filter (m : list bool) (cols : list (string * list pyval)) :
  Forall (fun kv => length kv.2 = length m) cols ->
  iterrows (mkDF (length (filter (fun b => b = true) m))
                 (map (fun kv => (kv.1, mask_filter m kv.2)) cols))
  = mask_filter m (iterrows (mkDF (length m) cols)).
Proof.
  revert cols. induction m as [|b m IH]; intros cols Hlen.
  - reflexivity.
  - cbn [length]. rewrite (iterrows_S (length m) cols).
    assert (Htl : Forall (fun kv : string * list pyval => length kv.2 = length m)
                         (map (fun kv => (kv.1, tl kv.2)) cols)).
    { apply Forall_forall. intros kv Hkv.
      apply list_elem_of_In, in_map_iff in Hkv as ([k v] & <- & Hin).
      rewrite Forall_forall in Hlen.
      specialize (Hlen _ (proj2 (list_elem_of_In _ _) Hin)). simpl in *.
      destruct v; simpl in *; lia. }
    specialize (IH _ Htl). rewrite map_map in IH. simpl in IH.
    rewrite filter_cons. destruct b; simpl.
    + destruct (decide (true = true)); [|done]. cbn [length].
      rewrite iterrows_S. rewrite !map_map. simpl. f_equal.
      * apply map_ext_in. intros [k v] Hin. simpl.
        rewrite Forall_forall in Hlen.
        specialize (Hlen _ (proj2 (list_elem_of_In _ _) Hin)). simpl in Hlen.
        by destruct v.
      * rewrite <- IH. f_equal. f_equal. apply map_ext_in. intros [k v] Hin. simpl.
        rewrite Forall_forall in Hlen.
        specialize (Hlen _ (proj2 (list_elem_of_In _ _) Hin)). simpl in Hlen.
        by destruct v.
    + destruct (decide (false = true)); [done|].
      rewrite <- IH. f_equal. f_equal. apply map_ext_in. intros [k v] Hin. simpl.
      rewrite Forall_forall in Hlen.
      specialize (Hlen _ (proj2 (list_elem_of_In _ _) Hin)). simpl in Hlen.
      by destruct v.
Qed.

Lemma mask_filter_map {A} (P : A -> bool) (l : list A) :
  mask_filter (map P l) l = filter (fun x => P x = true) l.
Proof.
  induction l as [|x l IH]; [done|]. simpl. rewrite filter_cons.
  destruct (P x); simpl.
  - destruct (decide (true = true)); [|done]. by rewrite IH.
  - destruct (decide (false = true)); [done|]. exact IH.
Qed.

Lemma forallb_Forall2 {A B} (f : A -> bool) (g : B -> bool) l l' :
  Forall2 (fun x y => f x = g y) l l' -> forallb f l = forallb g l'.
Proof. induction 1 as [|x y l l' H _ IH]; simpl; [done|]. by rewrite H, IH. Qed.

(** X11: on a table with one cell per row in every column, [dropna] keeps
    exactly the rows that have no missing value in the listed columns, in
    their order and with all their columns; the other rows are dropped. *)
Theorem dropna_keeps_complete_rows (cs : list string) (df kept : DataFrame) :
  cols_len_ok df ->
  dropna cs df = Ok kept ->
  columns kept = columns df /\
  iterrows kept = filter (fun row => row_complete cs row = true) (iterrows df).
Proof.
  intros Hlen Hd. unfold dropna, keep_mask in Hd.
  destruct (rmap (fun c => getitem c df) cs) as [sub|] eqn:Es; [|done].
  simpl in Hd. inversion Hd; subst kept; clear Hd. split.
  - unfold columns. simpl. rewrite map_map. done.
  - set (m := map (fun i => forallb (fun vs => negb (isna (nth i vs NaN))) sub)
                  (seq 0 (df_len df))).
    assert (Hm : length m = df_len df) by (unfold m; by rewrite length_map, length_seq).
    rewrite iterrows_mask_filter by (by rewrite Hm).
    rewrite Hm. destruct df as [n cols]. simpl in *.
    assert (Hrows : m = map (row_complete cs) (iterrows (mkDF n cols))).
    { unfold m, iterrows. simpl. rewrite map_map. apply map_ext_in.
      intros i Hi. unfold row_complete. symmetry. apply forallb_Forall2.
      apply rmap_Forall2 in Es. clear -Es.
      induction Es as [|c vs cs sub Hc _ IH]; constructor; [|done].
      apply getitem_assoc in Hc. simpl in Hc. unfold row_get, row_at. simpl.
      rewrite (assoc_map_values (fun x => nth i x NaN)), Hc. done. }
    rewrite Hrows. apply mask_filter_map.
Qed.

Lemma dropna_keeps_complete_rows_witness :
  columns Demo.kept_short = columns Demo.clean_short /\
  iterrows Demo.kept_short
  = filter (fun row => row_complete ["magnitude"; "longitude"; "latitude"] row = true)
           (iterrows Demo.clean_short).
Proof.
  apply dropna_keeps_complete_rows.
  - unfold cols_len_ok. apply (bool_decide_unpack _). vm_compute. reflexivity.
  - vm_compute. reflexivity.
Defined.

(** ** The store, statement by statement *)

Lemma data_affinities_eq :
  data_affinities = [AffNumeric; AffReal; AffReal; AffReal; AffText].
Proof. reflexivity. Qed.

Lemma numeric_of_text_number s v :
  numeric_of_text s = Some v -> (exists z, v = SInt z) \/ (exists f, v = SReal f).
Proof.
  unfold numeric_of_text. destruct (read_number s PLead acc0) as [a|]; [|done].
  simpl. intros [= <-]. destruct (a_plain a).
  - destruct (_ && _); eauto.
  - destruct (int_of_decimal _ _); eauto.
Qed.

(** No affinity makes a NULL of a value or a value of a NULL. *)
Lemma apply_affinity_null a v : apply_affinity a v = SNull <-> v = SNull.
Proof.
  split; [|by intros ->; destruct a].
  assert (Htext : forall s, numeric_of_text s <> Some SNull).
  { intros s H. apply numeric_of_text_number in H as [[z H]|[f H]]; discriminate H. }
  destruct a; destruct v as [|z|f|s]; simpl; try done.
  - destruct f as [| |m e]; try done. by destruct (int_of_decimal m e).
  - pose proof (Htext s). by destruct (numeric_of_text s) as [[]|].
  - destruct f as [| |m e]; try done. by destruct (int_of_decimal m e).
  - pose proof (Htext s). by destruct (numeric_of_text s) as [[]|].
  - pose proof (Htext s). by destruct (numeric_of_text s) as [[]|].
Qed.

Section Store.

Variable sqlite_select : string -> database -> result (list (list sqlval)).

Local Abbreviation execute' := (execute sqlite_select).

(** One [INSERT] of the script on an open connection whose table is the
    canonical one, outcome by outcome. *)
Lemma execute_insert_run ps w c t :
  w_conn w = Some c ->
  conn_db c !! "earthquakes" = Some t ->
  t_cols t = earthquakes_cols ->
  length ps = 5%nat ->
  execute' insert_earthquake ps w =
    match rmap bind_param ps with
    | Raise e => (Raise e, attempted insert_earthquake ps (mkConn (conn_db c) true) w)
    | Ok vals =>
        if int64_max <=? t_seq t
        then (Raise OperationalError, attempted insert_earthquake ps (rolled_back w) w)
        else (Ok [], attempted insert_earthquake ps (with_record c t vals) w)
    end.
Proof.
  intros Hc Ht Hcols Hlen.
  unfold execute, insert_earthquake, emit, the_conn, set_conn, attempted, rolled_back.
  unfold_st. simpl. rewrite Hc. simpl. rewrite Ht.
  unfold has_col. rewrite Hcols. simpl. rewrite Hlen. simpl.
  destruct (rmap bind_param ps) as [vals|e] eqn:Eb; simpl; [|done].
  apply rmap_length in Eb. rewrite Hlen in Eb.
  unfold insert_row, needs_id. rewrite Hcols. simpl.
  destruct (int64_max <=? t_seq t); simpl; [done|].
  destruct vals as [|v1 [|v2 [|v3 [|v4 [|v5 [|v6 vals]]]]]]; try discriminate Eb.
  reflexivity.
Qed.

(** X12: on an open connection whose [earthquakes] table is the canonical
    one, an insert whose five parameters can be bound appends exactly one
    record: a new id, one more than the table's counter, followed by the
    five bound values as their columns store them (the time under NUMERIC
    affinity, magnitude, longitude and latitude under REAL affinity, the
    source under TEXT affinity); the earlier records stay in place, the
    other tables and the file are untouched, and a transaction is open. *)
Theorem insert_appends_one_record ps vals w c t :
  w_conn w = Some c ->
  conn_db c !! "earthquakes" = Some t ->
  t_cols t = earthquakes_cols ->
  length ps = 5%nat ->
  rmap bind_param ps = Ok vals ->
  t_seq t < int64_max ->
  exists w',
    execute' insert_earthquake ps w = (Ok [], w') /\
    w_disk w' = w_disk w /\
    exists c' t',
      w_conn w' = Some c' /\ conn_in_tx c' = true /\
      conn_db c' !! "earthquakes" = Some t' /\
      t_cols t' = earthquakes_cols /\
      t_rows t' = t_rows t ++ [SInt (t_seq t + 1) :: stored_fields vals] /\
      stored_fields vals
      = zip_with apply_affinity [AffNumeric; AffReal; AffReal; AffReal; AffText] vals /\
      t_seq t' = t_seq t + 1 /\
      forall name, name <> "earthquakes" -> conn_db c' !! name = conn_db c !! name.
Proof.
  intros Hc Ht Hcols Hlen Hb Hseq.
  rewrite (execute_insert_run ps w c t) by done. rewrite Hb.
  destruct (int64_max <=? t_seq t) eqn:E; [apply Z.leb_le in E; lia|].
  eexists. split; [done|]. split; [done|].
  exists (with_record c t vals). eexists. split; [done|]. split; [done|].
  split; [apply lookup_insert_eq|]. simpl. repeat split.
  intros name Hne. by rewrite lookup_insert_ne.
Qed.

(** X13: an insert that fails stores nothing.  With a parameter that cannot
    be bound, without the table or on a closed connection, [execute] raises
    and the tables the connection sees and the file are exactly as before.
    When no id is left [execute] raises [OperationalError] and the open
    transaction is rolled back: the connection sees the file again, so the
    records inserted since the last commit are gone as well. *)
Theorem failed_insert_stores_nothing ps w :
  length ps = 5%nat ->
  (forall c t e,
     w_conn w = Some c -> conn_db c !! "earthquakes" = Some t ->
     t_cols t = earthquakes_cols ->
     rmap bind_param ps = Raise e ->
     execute' insert_earthquake ps w
     = (Raise e, attempted insert_earthquake ps (mkConn (conn_db c) true) w)) /\
  (forall c t vals,
     w_conn w = Some c -> conn_db c !! "earthquakes" = Some t ->
     t_cols t = earthquakes_cols ->
     rmap bind_param ps = Ok vals -> int64_max <= t_seq t ->
     execute' insert_earthquake ps w
     = (Raise OperationalError,
        attempted insert_earthquake ps (mkConn (w_disk w) false) w)) /\
  (forall c,
     w_conn w = Some c -> conn_db c !! "earthquakes" = None ->
     execute' insert_earthquake ps w
     = (Raise OperationalError, attempted insert_earthquake ps c w)) /\
  (w_conn w = None ->
   execute' insert_earthquake ps w
   = (Raise ProgrammingError,
      mkWorld (w_disk w) None (w_out w ++ [EvExecute insert_earthquake ps]))).
Proof.
  intros Hlen. split; [|split; [|split]].
  - intros c t e Hc Ht Hcols Hb.
    rewrite (execute_insert_run ps w c t) by done. by rewrite Hb.
  - intros c t vals Hc Ht Hcols Hb Hfull.
    rewrite (execute_insert_run ps w c t) by done. rewrite Hb.
    destruct (int64_max <=? t_seq t) eqn:E; [done|]. apply Z.leb_gt in E. lia.
  - intros c Hc Hnone.
    unfold execute, insert_earthquake, emit, the_conn, attempted.
    unfold_st. simpl. rewrite Hc. simpl. by rewrite Hnone.
  - intros Hc.
    unfold execute, insert_earthquake, emit, the_conn.
    unfold_st. simpl. by rewrite Hc.
Qed.

End Store.

Lemma insert_appends_one_record_witness :
  exists w' c' t',
    execute Demo.sqlite_select insert_earthquake Demo.params_mixed Demo.opened
    = (Ok [], w') /\
    w_disk w' = w_disk Demo.opened /\
    w_conn w' = Some c' /\
    conn_db c' !! "earthquakes" = Some t' /\
    t_rows t' = t_rows Demo.two_records
                ++ [[SInt 3; SText "2023-05-01T00:00:00"; SReal (FFin 7 0);
                     SReal (FFin 140 0); SReal (FFin 365 (-1)); SText "USGS"]] /\
    t_seq t' = 3.
Proof.
  destruct (insert_appends_one_record Demo.sqlite_select Demo.params_mixed Demo.bound_mixed
              Demo.opened (mkConn {["earthquakes" := Demo.two_records]} false)
              Demo.two_records)
    as (w' & H1 & H2 & c' & t' & H3 & _ & H4 & _ & H5 & _ & H6 & _);
    try (vm_compute; reflexivity).
  exists w', c', t'. repeat split; [exact H1|exact H2|exact H3|exact H4|exact H5|exact H6].
Defined.

Lemma failed_insert_stores_nothing_witness :
  execute Demo.sqlite_select insert_earthquake Demo.params_timestamp Demo.opened
  = (Raise ProgrammingError,
     attempted insert_earthquake Demo.params_timestamp
               (mkConn {["earthquakes" := Demo.two_records]} true) Demo.opened) /\
  (stored_rows Demo.full = t_rows Demo.last_id /\
   execute Demo.sqlite_select insert_earthquake Demo.params_text Demo.full
   = (Raise OperationalError,
      attempted insert_earthquake Demo.params_text
                (mkConn {["earthquakes" := Demo.last_id]} false) Demo.full)) /\
  execute Demo.sqlite_select insert_earthquake Demo.params_text Demo.fresh_conn
  = (Raise OperationalError,
     attempted insert_earthquake Demo.params_text (mkConn ∅ false) Demo.fresh_conn) /\
  execute Demo.sqlite_select insert_earthquake Demo.params_text Demo.stored2
  = (Raise ProgrammingError,
     mkWorld (w_disk Demo.stored2) None [EvExecute insert_earthquake Demo.params_text]).
Proof.
  split; [|split; [|split]].
  - assert (H := proj1 (failed_insert_stores_nothing Demo.sqlite_select
                          Demo.params_timestamp Demo.opened eq_refl)
                    (mkConn {["earthquakes" := Demo.two_records]} false)
                    Demo.two_records ProgrammingError).
    exact (H ltac:(reflexivity) ltac:(vm_compute; reflexivity) ltac:(reflexivity)
             ltac:(vm_compute; reflexivity)).
  - split; [vm_compute; reflexivity|].
    assert (H := proj1 (proj2 (failed_insert_stores_nothing Demo.sqlite_select
                                 Demo.params_text Demo.full eq_refl))
                    (with_record (mkConn {["earthquakes" := Demo.last_id]} false)
                                 Demo.last_id Demo.bound_text)
                    (mkTable earthquakes_cols
                       (t_rows Demo.last_id ++ [SInt int64_max :: Demo.bound_text])
                       int64_max)
                    Demo.bound_text).
    exact (H ltac:(vm_compute; reflexivity) ltac:(vm_compute; reflexivity)
             ltac:(reflexivity) ltac:(vm_compute; reflexivity)
             ltac:(vm_compute; discriminate)).
  - assert (H := proj1 (proj2 (proj2 (failed_insert_stores_nothing Demo.sqlite_select
                                        Demo.params_text Demo.fresh_conn eq_refl)))
                    (mkConn ∅ false)).
    exact (H ltac:(reflexivity) ltac:(vm_compute; reflexivity)).
  - apply (proj2 (proj2 (proj2 (failed_insert_stores_nothing Demo.sqlite_select
                                   Demo.params_text Demo.stored2 eq_refl)))).
    reflexivity.
Defined.

Section Durability.

Variable sqlite_select : string -> database -> result (list (list sqlval)).

Local Abbreviation execute' := (execute sqlite_select).

(** X14: an inserted record reaches the file only through [commit]: insert
    then commit leaves in the file all the connection saw plus the new
    record, its fields as the columns store them, while insert then close
    leaves the file as it was and no open connection. *)
Theorem commit_makes_insert_durable ps vals w c t :
  w_conn w = Some c ->
  conn_db c !! "earthquakes" = Some t ->
  t_cols t = earthquakes_cols ->
  length ps = 5%nat ->
  rmap bind_param ps = Ok vals ->
  t_seq t < int64_max ->
  let committed := (execute' insert_earthquake ps ;; commit) w in
  let dropped := (execute' insert_earthquake ps ;; close) w in
  committed.1 = Ok tt /\
  w_disk committed.2 = conn_db (with_record c t vals) /\
  stored_rows committed.2 = t_rows t ++ [SInt (t_seq t + 1) :: stored_fields vals] /\
  dropped.1 = Ok tt /\
  w_disk dropped.2 = w_disk w /\
  w_conn dropped.2 = None.
Proof.
  intros Hc Ht Hcols Hlen Hb Hseq. cbv zeta.
  unfold mbind, ST_bind, bind.
  rewrite (execute_insert_run sqlite_select ps w c t) by done. rewrite Hb.
  destruct (int64_max <=? t_seq t) eqn:E; [apply Z.leb_le in E; lia|].
  unfold commit, close, emit, the_conn, set_conn, attempted, stored_rows.
  unfold_st. simpl. rewrite lookup_insert_eq. done.
Qed.

(** X15: ids are never reused: the table that [CREATE TABLE IF NOT EXISTS]
    makes has distinct ids bounded by its counter, and a successful insert
    keeps it so, the new record getting an id above every id in the
    table. *)
Theorem inserted_ids_are_fresh ps vals w c t :
  w_conn w = Some c ->
  conn_db c !! "earthquakes" = Some t ->
  t_cols t = earthquakes_cols ->
  length ps = 5%nat ->
  rmap bind_param ps = Ok vals ->
  t_seq t < int64_max ->
  ids_ok t ->
  ids_ok (mkTable earthquakes_cols [] 0) /\
  exists c' t',
    w_conn (execute' insert_earthquake ps w).2 = Some c' /\
    conn_db c' !! "earthquakes" = Some t' /\
    ids_ok t' /\
    last (t_rows t') = Some (SInt (t_seq t + 1) :: stored_fields vals) /\
    Forall (fun r => exists z, record_id r = Some z /\ z < t_seq t + 1) (t_rows t).
Proof.
  intros Hc Ht Hcols Hlen Hb Hseq [Hids Hnd]. split.
  { split; [constructor|constructor]. }
  rewrite (execute_insert_run sqlite_select ps w c t) by done. rewrite Hb.
  destruct (int64_max <=? t_seq t) eqn:E; [apply Z.leb_le in E; lia|].
  exists (with_record c t vals). eexists. split; [done|].
  split; [apply lookup_insert_eq|].
  assert (Hlt : Forall (fun r => exists z, record_id r = Some z /\ z < t_seq t + 1)
                       (t_rows t)).
  { eapply Forall_impl; [exact Hids|]. intros r (z & Hz & Hle). exists z. split; [done|lia]. }
  split; [|split; [|exact Hlt]].
  - split; simpl.
    + apply Forall_app. split.
      * eapply Forall_impl; [exact Hids|]. intros r (z & Hz & Hle).
        exists z. split; [done|lia].
      * constructor; [|constructor]. exists (t_seq t + 1). split; [done|lia].
    + rewrite map_app. simpl. apply NoDup_app. split; [done|].
      split; [|apply NoDup_singleton].
      intros x Hx Hx'. apply list_elem_of_singleton in Hx'. subst x.
      apply list_elem_of_In, in_map_iff in Hx as (r & Hr & Hin).
      rewrite Forall_forall in Hlt.
      destruct (Hlt r (proj2 (list_elem_of_In _ _) Hin)) as (z & Hz & Hzlt).
      rewrite Hz in Hr. inversion Hr. lia.
  - simpl. by rewrite last_snoc.
Qed.

End Durability.

Lemma commit_makes_insert_durable_witness :
  stored_rows ((execute Demo.sqlite_select insert_earthquake Demo.params_mixed ;; commit)
                 Demo.opened).2
  = t_rows Demo.two_records
    ++ [[SInt 3; SText "2023-05-01T00:00:00"; SReal (FFin 7 0);
         SReal (FFin 140 0); SReal (FFin 365 (-1)); SText "USGS"]] /\
  w_disk ((execute Demo.sqlite_select insert_earthquake Demo.params_mixed ;; close)
            Demo.opened).2
  = w_disk Demo.opened.
Proof.
  destruct (commit_makes_insert_durable Demo.sqlite_select Demo.params_mixed
              Demo.bound_mixed
              Demo.opened (mkConn {["earthquakes" := Demo.two_records]} false)
              Demo.two_records)
    as (_ & _ & H3 & _ & H5 & _); try (vm_compute; reflexivity).
  split; [exact H3|exact H5].
Defined.

Lemma two_records_ids_ok : ids_ok Demo.two_records.
Proof.
  split.
  - repeat constructor; eexists; (split; [reflexivity|]); vm_compute; discriminate.
  - simpl. apply (bool_decide_unpack _). vm_compute. reflexivity.
Qed.

Lemma inserted_ids_are_fresh_witness :
  exists c' t',
    w_conn (execute Demo.sqlite_select insert_earthquake Demo.params_text Demo.opened).2
    = Some c' /\
    conn_db c' !! "earthquakes" = Some t' /\
    ids_ok t' /\
    last (t_rows t') = Some (SInt 3 :: Demo.bound_text).
Proof.
  destruct (inserted_ids_are_fresh Demo.sqlite_select Demo.params_text Demo.bound_text
              Demo.opened (mkConn {["earthquakes" := Demo.two_records]} false)
              Demo.two_records)
    as (_ & c' & t' & H1 & H2 & H3 & H4 & _);
    try (vm_compute; reflexivity); [apply two_records_ids_ok|].
  exists c', t'. repeat split; [exact H1|exact H2|apply H3|apply H3|exact H4].
Defined.

(** ** Loops and the file *)

Lemma for_each_keeps {A} (R : world -> world -> Prop) (body : A -> M unit) xs :
  (forall w, R w w) ->
  (forall w1 w2 w3, R w1 w2 -> R w2 w3 -> R w1 w3) ->
  (forall x w r w', body x w = (r, w') -> R w w') ->
  forall w r w', for_each xs body w = (r, w') -> R w w'.
Proof.
  intros Hrefl Htrans Hbody. induction xs as [|x xs IH]; intros w r w' H; simpl in H.
  - inversion H; subst. apply Hrefl.
  - unfold mbind, ST_bind, bind in H.
    destruct (body x w) as [[[]|e] w1] eqn:E.
    + eapply Htrans; [by eapply Hbody|by eapply IH].
    + inversion H; subst. by eapply Hbody.
Qed.

Lemma same_file_refl w : same_file w w.
Proof. done. Qed.

Lemma same_file_trans w1 w2 w3 : same_file w1 w2 -> same_file w2 w3 -> same_file w1 w3.
Proof. unfold same_file. congruence. Qed.

Section Loops.

Variable isoformat : Z -> string * string.
Variable sqlite_select : string -> database -> result (list (list sqlval)).

Local Abbreviation execute' := (execute sqlite_select).

Lemma execute_insert_same_file name cols ps w r w' :
  execute' (InsertInto name cols) ps w = (r, w') -> same_file w w'.
Proof.
  unfold execute, emit, the_conn, set_conn, same_file. unfold_st. simpl.
  destruct (w_conn w) as [c|]; simpl; [|by intros [= _ <-]].
  destruct (conn_db c !! name) as [t|]; simpl; [|by intros [= _ <-]].
  destruct (negb (forallb (has_col t) cols)); simpl; [by intros [= _ <-]|].
  destruct (negb (length cols =? length ps)%nat); simpl; [by intros [= _ <-]|].
  destruct (rmap bind_param ps) as [vals|]; simpl; [|by intros [= _ <-]].
  destruct (insert_row t cols vals); simpl; by intros [= _ <-].
Qed.

Lemma tagged_params_world tag row w r w' :
  tagged_params isoformat tag row w = (r, w') -> w' = w.
Proof.
  unfold tagged_params. unfold_st. simpl.
  destruct (row_getitem "time" row) as [t|]; simpl; [|by intros [= _ <-]].
  destruct (py_isoformat isoformat t); simpl; [|by intros [= _ <-]].
  destruct (row_getitem "magnitude" row); simpl; [|by intros [= _ <-]].
  destruct (row_getitem "longitude" row); simpl; [|by intros [= _ <-]].
  destruct (row_getitem "latitude" row); simpl; by intros [= _ <-].
Qed.

Lemma main_params_world row w :
  (exists t mag lon lat,
     row_getitem "time" row = Ok t /\
     main_params row w = (Ok [t; mag; lon; lat; row_get "source" (VStr "Unknown") row], w)) \/
  (exists e, main_params row w = (Raise e, w)).
Proof.
  unfold main_params. unfold_st. simpl.
  destruct (row_getitem "time" row) as [t|e]; simpl; [|right; by exists e].
  destruct (row_getitem "magnitude" row) as [m|e]; simpl; [|right; by exists e].
  destruct (row_getitem "longitude" row) as [lo|e]; simpl; [|right; by exists e].
  destruct (row_getitem "latitude" row) as [la|e]; simpl; [|right; by exists e].
  left. by exists t, m, lo, la.
Qed.

Lemma insert_combined_same_file df w r w' :
  insert_combined sqlite_select df w = (r, w') -> same_file w w'.
Proof.
  unfold insert_combined.
  apply (for_each_keeps same_file); [apply same_file_refl|apply same_file_trans|].
  intros row w0 r0 w0'. unfold mbind, ST_bind, bind.
  destruct (main_params_world row w0) as [(t & m & lo & la & _ & ->)|[e ->]].
  - destruct (execute' insert_earthquake _ w0) as [[rows|e] w1] eqn:E;
      intros [= _ <-]; by eapply execute_insert_same_file.
  - by intros [= _ <-].
Qed.

Lemma insert_usgs_same_file df w r w' :
  insert_usgs isoformat sqlite_select df w = (r, w') -> same_file w w'.
Proof.
  unfold insert_usgs.
  apply (for_each_keeps same_file); [apply same_file_refl|apply same_file_trans|].
  intros row w0 r0 w0'. unfold mbind, ST_bind, bind.
  destruct (tagged_params isoformat "USGS" row w0) as [[ps|e] w1] eqn:Ep;
    apply tagged_params_world in Ep; subst w1.
  - destruct (execute' insert_earthquake ps w0) as [[rows|e] w1] eqn:E;
      intros [= _ <-]; by eapply execute_insert_same_file.
  - by intros [= _ <-].
Qed.

(** X16: the source-B insert loop always runs to its end, whatever the rows
    and the state of the connection, and neither it nor the source-A loop
    writes to the file: what they insert is pending until the commit that
    follows them. *)
Theorem insert_loops_leave_file_to_commit (clean : DataFrame) (w : world) :
  (exists w', insert_isc isoformat sqlite_select clean w = (Ok tt, w') /\
              w_disk w' = w_disk w) /\
  w_disk (insert_usgs isoformat sqlite_select clean w).2 = w_disk w.
Proof.
  split.
  - destruct (insert_isc_never_raises isoformat sqlite_select clean w) as [w' Hw'].
    exists w'. split; [done|]. revert Hw'. unfold insert_isc.
    apply (for_each_keeps same_file); [apply same_file_refl|apply same_file_trans|].
    intros row w0 r0 w0'. unfold try_except, mbind, ST_bind, bind.
    destruct (tagged_params isoformat "ISC" row w0) as [[ps|e] w1] eqn:Ep;
      apply tagged_params_world in Ep; subst w1.
    + destruct (execute' insert_earthquake ps w0) as [[rows|e] w1] eqn:E;
        apply execute_insert_same_file in E.
      * by intros [= _ <-].
      * unfold print, emit, modify, bind. simpl. by intros [= _ <-].
    + unfold print, emit, modify, bind. simpl. by intros [= _ <-].
  - destruct (insert_usgs isoformat sqlite_select clean w) as [r w'] eqn:E.
    by apply insert_usgs_same_file in E.
Qed.

End Loops.

(** ** [main] and the file *)

Lemma sqlite3_connect_run w : sqlite3_connect w = (Ok tt, connected w).
Proof. reflexivity. Qed.

Section MainFile.

Variable http_get : nat -> string -> list (string * pyval) -> result response.
Variable py_float : string -> option pyfloat.
Variable to_datetime_cell : bool -> list pyval -> pyval -> result pyval.
Variable sqlite_select : string -> database -> result (list (list sqlval)).

Local Abbreviation main' := (main http_get py_float to_datetime_cell sqlite_select).

(** The end of the write path of [main], from the commit on. *)
Lemma commit_close_print w r w' :
  (commit ;; close ;; print (PText "Data fetched and stored successfully.")) w = (r, w') ->
  (r = Ok tt /\ exists c, w_conn w = Some c /\ w_disk w' = conn_db c) \/
  (exists e, r = Raise e /\ w_disk w' = w_disk w).
Proof.
  unfold commit, close, print, emit, the_conn, set_conn. unfold_st. simpl.
  destruct (w_conn w) as [c|]; simpl; intros [= <- <-].
  - left. split; [done|]. by exists c.
  - right. by eexists.
Qed.

(** The query path never writes. *)
Lemma main_query_same_file q w :
  same_file w (main' (mkArgs false q) w).2.
Proof.
  unfold main, same_file. cbn [fetch query].
  destruct (truthy q); [|done].
  unfold sqlite3_connect, execute, fetchall, close, print, emit, the_conn,
         set_conn, select_where.
  unfold_st. simpl.
  destruct (sqlite_select _ (w_disk w)) as [rows|]; simpl; [|done].
  by destruct (frame_of_results rows).
Qed.

(** X17: [main] is all or nothing on the file: if it ends with an error,
    whatever the flags, the replies and the rows, the committed file is
    exactly as it was before the call. *)
Theorem main_error_leaves_file_unchanged (args : Args) (w w' : world) (e : exn) :
  main' args w = (Raise e, w') -> w_disk w' = w_disk w.
Proof.
  destruct args as [f q]. destruct f.
  2:{ intros H. pose proof (main_query_same_file q w) as Hs.
      rewrite H in Hs. exact Hs. }
  unfold main. cbn [fetch]. unfold mbind at 1, ST_bind at 1, bind at 1.
  rewrite fetch_usgs_data_run.
  destruct (rbind _ _) as [u|e1]; [|by intros [= _ <-]].
  unfold mbind at 1, ST_bind at 1, bind at 1. rewrite fetch_isc_data_run.
  match goal with
  | |- context [match ?r with Ok _ => _ | Raise _ => _ end] =>
      destruct r as [i|e2]
  end; [|by intros [= _ <-]].
  unfold mbind at 1, ST_bind at 1, bind at 1. unfold call_frame at 1, lift at 1.
  destruct (standardize_usgs_data to_datetime_cell u) as [[a|e3] u'];
    [|by intros [= _ <-]].
  unfold mbind at 1, ST_bind at 1, bind at 1. unfold call_frame at 1, lift at 1.
  destruct (standardize_isc_data py_float to_datetime_cell i) as [[b|e4] i'];
    [|by intros [= _ <-]].
  unfold mbind at 1, ST_bind at 1, bind at 1. rewrite sqlite3_connect_run.
  unfold mbind at 1, ST_bind at 1, bind at 1.
  destruct (insert_combined sqlite_select (concat a b) _) as [[[]|e5] w2] eqn:E5;
    apply insert_combined_same_file in E5; unfold same_file in E5; simpl in E5.
  - intros H. apply commit_close_print in H as [[H _]|(e' & _ & H)]; [done|].
    congruence.
  - intros [= _ <-]. exact E5.
Qed.

End MainFile.

Lemma main_error_leaves_file_unchanged_witness :
  w_disk (Demo.main_on (Demo.collection Demo.features2) Demo.text3 (mkArgs true None)
            Demo.stored2).2
  = w_disk Demo.stored2.
Proof.
  apply (main_error_leaves_file_unchanged
           (Demo.http_get (Demo.collection Demo.features2) Demo.text3)
           Demo.py_float Demo.to_datetime_cell Demo.sqlite_select
           (mkArgs true None) Demo.stored2 _ ProgrammingError).
  vm_compute. reflexivity.
Defined.

(** ** What [main --fetch] can store *)

Lemma assoc_map_labels {B} (F : string -> B) (labels : list string) c :
  c ∈ labels -> assoc c (map (fun c => (c, F c)) labels) = Some (F c).
Proof.
  induction labels as [|l labels IH]; intros Hc; simpl.
  - by apply elem_of_nil in Hc.
  - destruct (String.eqb c l) eqn:E.
    + apply String.eqb_eq in E. by subst.
    + apply String.eqb_neq in E. apply elem_of_cons in Hc as [?|Hc]; [done|auto].
Qed.

Lemma Forall2_right {A B} (R : A -> B -> Prop) (P : B -> Prop) l l' :
  Forall2 R l l' -> (forall x y, R x y -> P y) -> Forall P l'.
Proof. induction 1; intros HR; constructor; eauto. Qed.

Lemma concat_time_cell a b ta tb i :
  assoc "time" (df_cols a) = Some ta -> assoc "time" (df_cols b) = Some tb ->
  row_getitem "time" (row_at (concat a b) i) = Ok (nth i (ta ++ tb) NaN).
Proof.
  intros Ha Hb. unfold row_getitem, row_at.
  rewrite (assoc_map_values (fun vs => nth i vs NaN)).
  unfold concat. cbn [df_cols].
  rewrite (assoc_map_labels (fun c => column_or_nan c a ++ column_or_nan c b)).
  - unfold column_or_nan. by rewrite Ha, Hb.
  - apply elem_of_app. left. by eapply assoc_In_labels.
Qed.

Section NothingStored.

Variable http_get : nat -> string -> list (string * pyval) -> result response.
Variable py_float : string -> option pyfloat.
Variable to_datetime_cell : bool -> list pyval -> pyval -> result pyval.
Variable sqlite_select : string -> database -> result (list (list sqlval)).
Hypothesis to_datetime_cell_datetimes : datetime_parser to_datetime_cell.

Local Abbreviation main' := (main http_get py_float to_datetime_cell sqlite_select).

Lemma to_datetime_datetimes u t time :
  to_datetime to_datetime_cell u t = Ok time ->
  Forall (fun v => is_datetime v = true) time.
Proof.
  unfold to_datetime. intros H. apply rmap_Forall2 in H.
  eapply Forall2_right; [exact H|]. intros x y Hxy.
  exact (to_datetime_cell_datetimes u t x y Hxy).
Qed.

Lemma time_column_of_projection time mag lon lat raw out :
  project canonical_columns (after_assignments time mag lon lat raw) = Ok out ->
  assoc "time" (df_cols out) = Some time /\ df_len out = df_len raw.
Proof.
  unfold project.
  destruct (select_cols canonical_columns _) as [sel|] eqn:Es; [|done].
  intros [= <-]. simpl. split.
  - rewrite (assoc_select_cols _ _ _ _ Es canonical_time).
    apply after_assignments_canonical.
  - unfold after_assignments. by rewrite !df_len_setitem.
Qed.

Lemma normalized_time_column raw out raw' :
  cols_len_ok raw ->
  standardize_usgs_data to_datetime_cell raw = (Ok out, raw') \/
  standardize_isc_data py_float to_datetime_cell raw = (Ok out, raw') ->
  exists time, assoc "time" (df_cols out) = Some time /\
               length time = df_len out /\
               Forall (fun v => is_datetime v = true) time.
Proof.
  intros Hlen [H|H].
  - apply standardize_usgs_data_inv in H
      as (t & time & mag & c & lon & lat & H1 & H2 & _ & _ & _ & _ & -> & Hp).
    apply time_column_of_projection in Hp as [Ht Hl]. exists time.
    split; [done|]. split; [|by eapply to_datetime_datetimes].
    rewrite Hl. unfold to_datetime in H2. apply rmap_length in H2. rewrite H2.
    by eapply getitem_length.
  - apply standardize_isc_data_inv in H
      as (t & time & m & mag & lo & lon & la & lat &
          H1 & H2 & _ & _ & _ & _ & _ & _ & -> & Hp).
    apply time_column_of_projection in Hp as [Ht Hl]. exists time.
    split; [done|]. split; [|by eapply to_datetime_datetimes].
    rewrite Hl. unfold to_datetime in H2. apply rmap_length in H2. rewrite H2.
    by eapply getitem_length.
Qed.

(** No insert goes through with a Timestamp or NaT as first parameter. *)
Lemma execute_datetime_raises t rest w :
  is_datetime t = true -> length rest = 4%nat ->
  exists e w', execute sqlite_select insert_earthquake (t :: rest) w = (Raise e, w').
Proof.
  intros Ht Hrest.
  unfold execute, insert_earthquake, emit, the_conn, set_conn. unfold_st. simpl.
  destruct (w_conn w) as [c|]; simpl; [|by eexists _, _].
  destruct (conn_db c !! "earthquakes") as [tb|]; simpl; [|by eexists _, _].
  destruct (negb _); simpl; [by eexists _, _|].
  rewrite Hrest. simpl.
  destruct t; try discriminate Ht; simpl; by eexists _, _.
Qed.

Lemma insert_combined_datetime_raises a b ta tb w :
  assoc "time" (df_cols a) = Some ta -> assoc "time" (df_cols b) = Some tb ->
  length ta = df_len a -> length tb = df_len b ->
  Forall (fun v => is_datetime v = true) (ta ++ tb) ->
  (0 < df_len a + df_len b)%nat ->
  exists e w', insert_combined sqlite_select (concat a b) w = (Raise e, w').
Proof.
  intros Ha Hb Hla Hlb Hdt Hpos. unfold insert_combined, iterrows.
  change (df_len (concat a b)) with (df_len a + df_len b)%nat.
  destruct (df_len a + df_len b)%nat as [|n] eqn:En; [lia|].
  rewrite <- cons_seq. cbn [map for_each]. unfold mbind, ST_bind, bind.
  destruct (main_params_world (row_at (concat a b) 0) w)
    as [(t & m & lo & la & Ht & ->)|[e ->]]; [|by eexists _, _].
  rewrite (concat_time_cell a b ta tb) in Ht by done. inversion Ht; subst t.
  assert (Hd : is_datetime (nth 0 (ta ++ tb) NaN) = true).
  { rewrite Forall_forall in Hdt. apply Hdt, list_elem_of_In, nth_In.
    rewrite length_app. lia. }
  destruct (execute_datetime_raises (nth 0 (ta ++ tb) NaN)
              [m; lo; la; row_get "source" (VStr "Unknown") (row_at (concat a b) 0)]
              w Hd eq_refl) as (e & w' & ->).
  by eexists _, _.
Qed.

Lemma insert_combined_empty a b w :
  (df_len a + df_len b = 0)%nat ->
  insert_combined sqlite_select (concat a b) w = (Ok tt, w).
Proof.
  intros H. unfold insert_combined, iterrows.
  change (df_len (concat a b)) with (df_len a + df_len b)%nat. by rewrite H.
Qed.

(** X18: given that [pd.to_datetime] yields Timestamps and NaT, [main]
    never changes the store, with any flags and replies: a non-empty merged
    table makes the first insert fail on its time parameter before anything
    is committed, an empty one commits nothing new, and the query path does
    not write. *)
Theorem main_never_changes_the_store (args : Args) (w : world) :
  w_disk (main' args w).2 = w_disk w.
Proof.
  destruct args as [f q]. destruct f; [|apply main_query_same_file].
  unfold main. cbn [fetch]. unfold mbind at 1, ST_bind at 1, bind at 1.
  rewrite fetch_usgs_data_run.
  destruct (rbind _ _) as [u|e1] eqn:Eu; [|done].
  assert (Hu : cols_len_ok u).
  { destruct (http_get _ usgs_url _) as [resp|]; [|done]. simpl in Eu.
    destruct (resp_json resp) as [data|]; [|done]. simpl in Eu.
    destruct (py_getitem data "features") as [fs|]; [|done]. simpl in Eu.
    by apply json_normalize_wf in Eu as [? _]. }
  unfold mbind at 1, ST_bind at 1, bind at 1. rewrite fetch_isc_data_run.
  match goal with
  | |- context [match ?r with Ok _ => _ | Raise _ => _ end] =>
      destruct r as [i|e2] eqn:Ei
  end; [|done].
  assert (Hi : cols_len_ok i).
  { destruct (http_get _ isc_url _) as [resp|]; [|done].
    destruct (splitlines (resp_text resp)) as [|l0 rest]; [done|].
    by apply frame_of_rows_ok in Ei as (_ & _ & ? & _). }
  unfold mbind at 1, ST_bind at 1, bind at 1. unfold call_frame at 1, lift at 1.
  destruct (standardize_usgs_data to_datetime_cell u) as [[a|e3] u'] eqn:Ea; [|done].
  unfold mbind at 1, ST_bind at 1, bind at 1. unfold call_frame at 1, lift at 1.
  destruct (standardize_isc_data py_float to_datetime_cell i) as [[b|e4] i'] eqn:Eb;
    [|done].
  destruct (normalized_time_column u a u' Hu (or_introl Ea)) as (ta & Hta & Hla & Hda).
  destruct (normalized_time_column i b i' Hi (or_intror Eb)) as (tb & Htb & Hlb & Hdb).
  unfold mbind at 1, ST_bind at 1, bind at 1. rewrite sqlite3_connect_run.
  unfold mbind at 1, ST_bind at 1, bind at 1.
  destruct (Nat.eq_dec (df_len a + df_len b) 0) as [Hz|Hnz].
  - rewrite insert_combined_empty by done.
    destruct ((commit ;; close ;; print _) _) as [r w'] eqn:Ec. cbn [snd].
    apply commit_close_print in Ec as [(_ & c & Hc & ->)|(e & _ & ->)]; [|done].
    simpl in Hc. by inversion Hc.
  - destruct (insert_combined_datetime_raises a b ta tb
                (connected (requested isc_url (isc_params date_from date_to five)
                   (requested usgs_url (usgs_params date_from date_to five) w)))
                Hta Htb Hla Hlb) as (e & w' & Hr).
    + apply Forall_app. by split.
    + lia.
    + rewrite Hr. cbn [snd]. apply insert_combined_same_file in Hr. exact Hr.
Qed.

End NothingStored.

Lemma demo_to_datetime_cell_datetimes : datetime_parser Demo.to_datetime_cell.
Proof.
  intros unit_ms series v r. unfold Demo.to_datetime_cell.
  destruct v as [| | |f| | | | |]; try discriminate.
  - by intros [= <-].
  - destruct unit_ms; [|discriminate]. by intros [= <-].
  - destruct f; try discriminate. by intros [= <-].
  - destruct unit_ms; [discriminate|].
    destruct (assoc _ _); [|discriminate]. by intros [= <-].
Qed.

Lemma main_never_changes_the_store_witness :
  w_disk (Demo.main_on (Demo.collection Demo.features2) Demo.text3 (mkArgs true None)
            Demo.stored2).2
  = w_disk Demo.stored2 /\
  w_disk (Demo.main_on (Demo.collection []) Demo.isc_header (mkArgs true None)
            Demo.fresh).2
  = w_disk Demo.fresh.
Proof.
  split.
  - exact (main_never_changes_the_store
             (Demo.http_get (Demo.collection Demo.features2) Demo.text3)
             Demo.py_float Demo.to_datetime_cell Demo.sqlite_select
             demo_to_datetime_cell_datetimes (mkArgs true None) Demo.stored2).
  - exact (main_never_changes_the_store
             (Demo.http_get (Demo.collection []) Demo.isc_header)
             Demo.py_float Demo.to_datetime_cell Demo.sqlite_select
             demo_to_datetime_cell_datetimes (mkArgs true None) Demo.fresh).
Defined.

(** ** What the insert loops store *)

Lemma bind_param_nonnull v sv :
  bind_param v = Ok sv -> isna v = false -> sv <> SNull.
Proof.
  destruct v as [| | |f| | | | |]; simpl; try done.
  - intros [= <-]. done.
  - destruct (_ && _); [intros [= <-]; done|done].
  - destruct f; [done| |]; intros [= <-]; done.
  - intros [= <-]. done.
Qed.

(** A text with a ["T"] in it is not a number: the time text of a record
    stays a text in its NUMERIC column. *)
Lemma read_number_T s1 s2 ph a : read_number (s1 +:+ String "T" s2) ph a = None.
Proof.
  revert ph a. induction s1 as [|c s1 IH]; intros ph a.
  - reflexivity.
  - change (String c s1 +:+ String "T" s2) with (String c (s1 +:+ String "T" s2)).
    cbn [read_number]. destruct (classify c); destruct ph; try done; try apply IH;
      by destruct (a_digit a).
Qed.

Lemma numeric_of_text_iso d t : numeric_of_text (d +:+ "T" +:+ t) = None.
Proof.
  unfold numeric_of_text.
  change (d +:+ "T" +:+ t) with (d +:+ String "T" t). by rewrite read_number_T.
Qed.

Lemma row_complete_cell cs row c v :
  row_complete cs row = true -> c ∈ cs -> row_getitem c row = Ok v ->
  isna v = false.
Proof.
  unfold row_complete, row_getitem, row_get. intros H Hc Hv.
  rewrite forallb_forall in H. specialize (H c (proj1 (list_elem_of_In _ _) Hc)).
  destruct (assoc c row); [|done]. inversion Hv; subst.
  by destruct (isna v).
Qed.

Section InsertedRecords.

Variable isoformat : Z -> string * string.
Variable sqlite_select : string -> database -> result (list (list sqlval)).

(** The parameters of one insert of the script loops: a time text that is
    not a number, the three cells of the row, the tag. *)
Lemma tagged_params_ok tag row w :
  (exists e, tagged_params isoformat tag row w = (Raise e, w)) \/
  (exists s mag lon lat,
     tagged_params isoformat tag row w = (Ok [VStr s; mag; lon; lat; VStr tag], w) /\
     numeric_of_text s = None /\
     row_getitem "magnitude" row = Ok mag /\
     row_getitem "longitude" row = Ok lon /\
     row_getitem "latitude" row = Ok lat).
Proof.
  unfold tagged_params. unfold_st. simpl.
  destruct (row_getitem "time" row) as [t|e]; simpl; [|left; by exists e].
  destruct (py_isoformat isoformat t) as [iso|e] eqn:Ei; simpl; [|left; by exists e].
  destruct (row_getitem "magnitude" row) as [m|e]; simpl; [|left; by exists e].
  destruct (row_getitem "longitude" row) as [lo|e]; simpl; [|left; by exists e].
  destruct (row_getitem "latitude" row) as [la|e]; simpl; [|left; by exists e].
  right. destruct t; simpl in Ei; try discriminate Ei; inversion Ei; subst.
  - eexists _, m, lo, la. split; [done|]. split; [apply numeric_of_text_iso|done].
  - eexists _, m, lo, la. split; [done|]. by split.
Qed.

(** One insert of a loop, whatever its outcome, keeps the file and lets the
    connection grow by a record of the loop at most; a roll-back takes the
    connection back to the file. *)
Lemma tagged_insert_keeps (P : list sqlval -> Prop) tag base pending row w r w' :
  (forall id iso mag lon lat vm vlo vla,
     row_getitem "magnitude" row = Ok mag -> bind_param mag = Ok vm ->
     row_getitem "longitude" row = Ok lon -> bind_param lon = Ok vlo ->
     row_getitem "latitude" row = Ok lat -> bind_param lat = Ok vla ->
     P [SInt id; SText iso; apply_affinity AffReal vm; apply_affinity AffReal vlo;
        apply_affinity AffReal vla; SText tag]) ->
  pending_over P base pending w ->
  (ps ← tagged_params isoformat tag row;
   execute sqlite_select insert_earthquake ps ;; mret tt) w = (r, w') ->
  pending_over P base pending w'.
Proof.
  intros HP (c & t & td & added & Hc & Ht & Hcols & Hd & Hdcols & Hbase & Hadded & Hrows).
  unfold mbind at 1, ST_bind at 1, bind at 1.
  destruct (tagged_params_ok tag row w)
    as [[e ->]|(s & mag & lon & lat & -> & Hs & Hm & Hlo & Hla)].
  { intros [= _ <-]. by exists c, t, td, added. }
  unfold mbind, ST_bind, bind.
  rewrite (execute_insert_run sqlite_select _ w c t) by done.
  destruct (rmap bind_param _) as [vals|e] eqn:Eb.
  2:{ intros [= _ <-]. exists (mkConn (conn_db c) true), t, td, added. by repeat split. }
  destruct (int64_max <=? t_seq t).
  { intros [= _ <-]. exists (rolled_back w), td, td, []. unfold rolled_back. simpl.
    repeat split; try done. right. by rewrite app_nil_r. }
  intros [= _ <-]. simpl in Eb.
  destruct (bind_param mag) as [vm|] eqn:Em; [|done]. simpl in Eb.
  destruct (bind_param lon) as [vlo|] eqn:Elo; [|done]. simpl in Eb.
  destruct (bind_param lat) as [vla|] eqn:Ela; [|done]. simpl in Eb.
  inversion Eb; subst vals.
  exists (with_record c t [SText s; vm; vlo; vla; SText tag]). eexists. exists td.
  exists (added ++ [SInt (t_seq t + 1) :: stored_fields [SText s; vm; vlo; vla; SText tag]]).
  split; [done|]. split; [apply lookup_insert_eq|]. split; [done|].
  split; [done|]. split; [done|]. split; [done|]. split.
  - apply Forall_app. split; [done|]. constructor; [|constructor].
    unfold stored_fields. rewrite data_affinities_eq. simpl. rewrite Hs. simpl.
    by eapply HP.
  - simpl. destruct Hrows as [-> | ->]; [left|right]; by rewrite <- !app_assoc.
Qed.

Lemma tagged_insert_same_file tag row w r w' :
  (ps ← tagged_params isoformat tag row;
   execute sqlite_select insert_earthquake ps ;; mret tt) w = (r, w') ->
  w_disk w' = w_disk w.
Proof.
  unfold mbind at 1, ST_bind at 1, bind at 1.
  destruct (tagged_params_ok tag row w)
    as [[e ->]|(s & mag & lon & lat & -> & _)]; [by intros [= _ <-]|].
  unfold mbind, ST_bind, bind.
  destruct (execute sqlite_select insert_earthquake _ w) as [[rows|e] w1] eqn:E;
    intros [= _ <-]; by apply (execute_insert_same_file sqlite_select) in E.
Qed.

(** The source-A loop. *)
Lemma insert_usgs_keeps clean base pending w r w' :
  pending_over usgs_record base pending w ->
  insert_usgs isoformat sqlite_select clean w = (r, w') ->
  pending_over usgs_record base pending w'.
Proof.
  intros Hw H. revert Hw. revert H. unfold insert_usgs.
  apply (for_each_keeps
           (fun w1 w2 => pending_over usgs_record base pending w1 ->
                         pending_over usgs_record base pending w2));
    [auto|auto|].
  intros row w1 r1 w2 Hbody Hw1. eapply tagged_insert_keeps; [|exact Hw1|exact Hbody].
  intros id iso mag lon lat vm vlo vla _ _ _ _ _ _. by eexists _, _, _, _, _.
Qed.

(** One row of the source-B loop, under its handler. *)
Lemma insert_isc_row base pending row w :
  pending_over isc_record base pending w ->
  row_complete ["magnitude"; "longitude"; "latitude"] row = true ->
  exists w',
    try_except
      (ps ← tagged_params isoformat "ISC" row;
       execute sqlite_select insert_earthquake ps ;; mret tt)
      (fun e => print (PErrorRow row) ;; print (PErrorMessage e)) w = (Ok tt, w') /\
    pending_over isc_record base pending w'.
Proof.
  intros Hw Hrow. unfold try_except.
  destruct ((ps ← tagged_params isoformat "ISC" row;
             execute sqlite_select insert_earthquake ps ;; mret tt) w)
    as [[[]|e] w1] eqn:E.
  - exists w1. split; [done|]. eapply tagged_insert_keeps; [|exact Hw|exact E].
    intros id iso mag lon lat vm vlo vla Hm Bm Hlo Blo Hla Bla.
    exists id, iso, (apply_affinity AffReal vm), (apply_affinity AffReal vlo),
           (apply_affinity AffReal vla).
    assert (Hin : forall c0, c0 ∈ ["magnitude"; "longitude"; "latitude"] ->
              forall v, row_getitem c0 row = Ok v -> isna v = false).
    { intros c0 Hc0 v Hv. by eapply row_complete_cell. }
    split; [done|]. rewrite !apply_affinity_null. repeat split.
    + eapply bind_param_nonnull; [exact Bm|]. eapply Hin; [|exact Hm].
      apply elem_of_cons. by left.
    + eapply bind_param_nonnull; [exact Blo|]. eapply Hin; [|exact Hlo].
      apply elem_of_cons. right. apply elem_of_cons. by left.
    + eapply bind_param_nonnull; [exact Bla|]. eapply Hin; [|exact Hla].
      do 2 (apply elem_of_cons; right). apply elem_of_cons. by left.
  - assert (Hw1 : pending_over isc_record base pending w1).
    { eapply tagged_insert_keeps; [|exact Hw|exact E].
      intros id iso mag lon lat vm vlo vla Hm Bm Hlo Blo Hla Bla.
      exists id, iso, (apply_affinity AffReal vm), (apply_affinity AffReal vlo),
             (apply_affinity AffReal vla).
      assert (Hin : forall c0, c0 ∈ ["magnitude"; "longitude"; "latitude"] ->
                forall v, row_getitem c0 row = Ok v -> isna v = false).
      { intros c0 Hc0 v Hv. by eapply row_complete_cell. }
      split; [done|]. rewrite !apply_affinity_null. repeat split.
      + eapply bind_param_nonnull; [exact Bm|]. eapply Hin; [|exact Hm].
        apply elem_of_cons. by left.
      + eapply bind_param_nonnull; [exact Blo|]. eapply Hin; [|exact Hlo].
        apply elem_of_cons. right. apply elem_of_cons. by left.
      + eapply bind_param_nonnull; [exact Bla|]. eapply Hin; [|exact Hla].
        do 2 (apply elem_of_cons; right). apply elem_of_cons. by left. }
    eexists. split; [reflexivity|].
    destruct Hw1 as (c1 & t1 & td1 & a1 & H1). by exists c1, t1, td1, a1.
Qed.

(** The source-B loop over complete rows. *)
Lemma insert_isc_keeps (kept : DataFrame) base pending (w : world) :
  pending_over isc_record base pending w ->
  Forall (fun row => row_complete ["magnitude"; "longitude"; "latitude"] row = true)
         (iterrows kept) ->
  exists w', insert_isc isoformat sqlite_select kept w = (Ok tt, w') /\
             pending_over isc_record base pending w'.
Proof.
  intros Hstart Hrows. unfold insert_isc. revert w Hstart.
  induction Hrows as [|row rows Hrow _ IH]; intros w Hw.
  - by exists w.
  - cbn [for_each]. unfold mbind at 1, ST_bind at 1, bind at 1.
    destruct (insert_isc_row base pending row w Hw Hrow) as (w1 & -> & Hw1).
    by apply IH.
Qed.

(** X19: on an open connection whose canonical table holds the records of
    the file followed by pending ones, the source-B loop, given rows without
    missing magnitude, longitude or latitude (what [dropna] leaves), runs to
    its end and only ever adds complete records tagged ['ISC']: an id, a
    time text, a non-null magnitude, longitude and latitude and the tag.
    Afterwards the connection holds the records of the file, the pending
    ones and the added ones, or, when the ids ran out and SQLite rolled the
    transaction back, the records of the file and those added since.  Rows
    whose insert fails add nothing, and the file keeps its records. *)
Theorem insert_isc_adds_complete_records (kept : DataFrame) (w : world) c t td pending :
  w_conn w = Some c ->
  conn_db c !! "earthquakes" = Some t ->
  t_cols t = earthquakes_cols ->
  w_disk w !! "earthquakes" = Some td ->
  t_cols td = earthquakes_cols ->
  t_rows t = t_rows td ++ pending ->
  Forall (fun row => row_complete ["magnitude"; "longitude"; "latitude"] row = true)
         (iterrows kept) ->
  exists w', insert_isc isoformat sqlite_select kept w = (Ok tt, w') /\
             pending_over isc_record (t_rows td) pending w'.
Proof.
  intros Hc Ht Hcols Hd Hdcols Hrows Hkept. apply insert_isc_keeps; [|exact Hkept].
  exists c, t, td, []. repeat split; try done. left. by rewrite app_nil_r.
Qed.

(** X20: on an open connection whose canonical table holds the records of
    the file followed by pending ones, the source-A loop only ever adds
    records tagged ['USGS'] (an id, a time text, three values, the tag),
    whether it runs to its end or stops at a failing row.  Afterwards the
    connection holds the records of the file, the pending ones and the
    added ones, or, when the ids ran out and SQLite rolled the transaction
    back, the records of the file and those added since; the file keeps
    its records. *)
Theorem insert_usgs_adds_tagged_records (clean : DataFrame) (w w' : world)
    c t td pending r :
  w_conn w = Some c ->
  conn_db c !! "earthquakes" = Some t ->
  t_cols t = earthquakes_cols ->
  w_disk w !! "earthquakes" = Some td ->
  t_cols td = earthquakes_cols ->
  t_rows t = t_rows td ++ pending ->
  insert_usgs isoformat sqlite_select clean w = (r, w') ->
  pending_over usgs_record (t_rows td) pending w'.
Proof.
  intros Hc Ht Hcols Hd Hdcols Hrows. apply insert_usgs_keeps.
  exists c, t, td, []. repeat split; try done. left. by rewrite app_nil_r.
Qed.

End InsertedRecords.

Lemma insert_isc_adds_complete_records_witness :
  exists w',
    insert_isc Demo.isoformat Demo.sqlite_select Demo.kept_short Demo.opened = (Ok tt, w') /\
    pending_over isc_record (t_rows Demo.two_records) [] w'.
Proof.
  apply (insert_isc_adds_complete_records Demo.isoformat Demo.sqlite_select
           Demo.kept_short Demo.opened
           (mkConn {["earthquakes" := Demo.two_records]} false)
           Demo.two_records Demo.two_records []).
  - reflexivity.
  - vm_compute. reflexivity.
  - reflexivity.
  - vm_compute. reflexivity.
  - reflexivity.
  - reflexivity.
  - apply (bool_decide_unpack _). vm_compute. reflexivity.
Defined.

Lemma insert_usgs_adds_tagged_records_witness :
  pending_over usgs_record (t_rows Demo.last_id) []
    (insert_usgs Demo.isoformat Demo.sqlite_select Demo.clean_usgs Demo.nearly_full).2 /\
  (insert_usgs Demo.isoformat Demo.sqlite_select Demo.clean_usgs Demo.nearly_full).1
  = Raise OperationalError.
Proof.
  split; [|vm_compute; reflexivity].
  apply (insert_usgs_adds_tagged_records Demo.isoformat Demo.sqlite_select
           Demo.clean_usgs Demo.nearly_full _
           (mkConn {["earthquakes" := Demo.last_id]} false)
           Demo.last_id Demo.last_id [] (Raise OperationalError)).
  - reflexivity.
  - vm_compute. reflexivity.
  - reflexivity.
  - vm_compute. reflexivity.
  - reflexivity.
  - reflexivity.
  - vm_compute. reflexivity.
Defined.

(** ** The script as a whole *)

Lemma setitem_cols_len_ok c vs df :
  cols_len_ok df -> length vs = df_len df -> cols_len_ok (setitem c vs df).
Proof.
  intros Hlen Hvs. unfold cols_len_ok, setitem in *.
  destruct (assoc c (df_cols df)); simpl.
  - apply Forall_forall. intros x Hx.
    apply list_elem_of_In, in_map_iff in Hx as [[k v] [<- Hin]]. simpl.
    destruct (String.eqb c k); simpl; [done|].
    rewrite Forall_forall in Hlen. apply (Hlen (k, v)). by apply list_elem_of_In.
  - apply Forall_app. split; [done|]. by constructor.
Qed.

Lemma select_cols_in cs (cols sel : list (string * list pyval)) kv :
  select_cols cs cols = Ok sel -> kv ∈ sel -> kv ∈ cols.
Proof.
  revert sel. induction cs as [|c cs IH]; intros sel H Hin; simpl in H.
  - inversion H; subst. by apply elem_of_nil in Hin.
  - destruct (assoc c cols); [|done].
    destruct (select_cols cs cols) as [rest|]; [|done]. simpl in H.
    inversion H; subst. apply elem_of_app in Hin as [Hin|Hin].
    + by apply list_elem_of_filter in Hin as [_ Hin].
    + by apply (IH rest).
Qed.

Lemma project_cols_len_ok cs df out :
  cols_len_ok df -> project cs df = Ok out -> cols_len_ok out.
Proof.
  intros Hlen. unfold project.
  destruct (select_cols cs (df_cols df)) as [sel|] eqn:E; [|done].
  intros [= <-]. unfold cols_len_ok in *. simpl.
  apply Forall_forall. intros kv Hkv. rewrite Forall_forall in Hlen.
  apply Hlen. by eapply select_cols_in.
Qed.

Lemma print_run p w :
  print p w = (Ok tt, mkWorld (w_disk w) (w_conn w) (w_out w ++ [EvPrint p])).
Proof. reflexivity. Qed.

Section Script.

Variable http_get : nat -> string -> list (string * pyval) -> result response.
Variable py_float : string -> option pyfloat.
Variable to_datetime_cell : bool -> list pyval -> pyval -> result pyval.
Variable isoformat : Z -> string * string.
Variable sqlite_select : string -> database -> result (list (list sqlval)).

Local Abbreviation cells' :=
  (cells http_get py_float to_datetime_cell isoformat sqlite_select).

Lemma standardize_isc_data_cols_len_ok raw out raw' :
  cols_len_ok raw ->
  standardize_isc_data py_float to_datetime_cell raw = (Ok out, raw') ->
  cols_len_ok out.
Proof.
  intros Hlen H. apply standardize_isc_data_inv in H
    as (t & time & m & mag & lo & lon & la & lat &
        H1 & H2 & H3 & H4 & H5 & H6 & H7 & H8 & -> & Hp).
  eapply project_cols_len_ok; [|exact Hp]. unfold after_assignments.
  unfold to_datetime in H2.
  apply rmap_length in H2, H4, H6, H8.
  pose proof (getitem_length _ _ _ Hlen H1).
  pose proof (getitem_length _ _ _ Hlen H3).
  pose proof (getitem_length _ _ _ Hlen H5).
  pose proof (getitem_length _ _ _ Hlen H7).
  repeat (apply setitem_cols_len_ok; rewrite ?df_len_setitem; [|congruence]).
  done.
Qed.

(** X21: when the cells of the script run to the end on a file whose
    [earthquakes] table, if there, is the canonical one, the file only
    gained records: those it held come first and are unchanged, then come
    records tagged ['USGS'], then complete records tagged ['ISC']; the table
    is still the canonical one and the connection is closed. *)
Theorem cells_only_append_tagged_records (w w' : world) :
  store_ok (w_disk w) ->
  cells' w = (Ok tt, w') ->
  exists from_usgs from_isc,
    stored_rows w' = stored_rows w ++ from_usgs ++ from_isc /\
    Forall usgs_record from_usgs /\
    Forall isc_record from_isc /\
    store_ok (w_disk w') /\
    w_conn w' = None.
Proof.
  intros Hok. unfold cells.
  unfold mbind at 1, ST_bind at 1, bind at 1. rewrite fetch_usgs_data_run.
  destruct (rbind _ _) as [u|e1]; [|done].
  unfold mbind at 1, ST_bind at 1, bind at 1. rewrite print_run.
  unfold mbind at 1, ST_bind at 1, bind at 1. rewrite fetch_isc_data_run.
  match goal with
  | |- context [match ?r with Ok _ => _ | Raise _ => _ end] =>
      destruct r as [i|e2] eqn:Ei
  end; [|done].
  assert (Hi : cols_len_ok i).
  { destruct (http_get _ isc_url _) as [resp|]; [|done].
    destruct (splitlines (resp_text resp)) as [|l0 rest]; [done|].
    by apply frame_of_rows_ok in Ei as (_ & _ & ? & _). }
  unfold mbind at 1, ST_bind at 1, bind at 1. rewrite print_run.
  unfold mbind at 1, ST_bind at 1, bind at 1. unfold call_frame at 1, lift at 1.
  destruct (standardize_usgs_data to_datetime_cell u) as [[a|e3] u']; [|done].
  unfold mbind at 1, ST_bind at 1, bind at 1. unfold call_frame at 1, lift at 1.
  destruct (standardize_isc_data py_float to_datetime_cell i) as [[b|e4] i'] eqn:Eb;
    [|done].
  pose proof (standardize_isc_data_cols_len_ok _ _ _ Hi Eb) as Hb.
  unfold mbind at 1, ST_bind at 1, bind at 1. rewrite print_run.
  unfold mbind at 1, ST_bind at 1, bind at 1. rewrite initialize_run.
  cbv zeta. cbn [w_disk w_conn w_out requested].
  set (db := create_if_absent "earthquakes" earthquakes_cols (w_disk w)).
  assert (Hdb : exists t0, db !! "earthquakes" = Some t0 /\
                           t_cols t0 = earthquakes_cols /\ t_rows t0 = stored_rows w).
  { unfold db, create_if_absent, stored_rows.
    destruct (w_disk w !! "earthquakes") as [t|] eqn:Et.
    - exists t. rewrite Et. by split; [|split; [apply Hok|]].
    - eexists. split; [apply lookup_insert_eq|]. done. }
  destruct Hdb as (t0 & Ht0 & Hcols0 & Hrows0).
  unfold mbind at 1, ST_bind at 1, bind at 1.
  destruct (insert_usgs isoformat sqlite_select a _) as [[[]|e5] w5] eqn:E5; [|done].
  apply (insert_usgs_keeps _ _ _ (t_rows t0) []) in E5.
  2:{ exists (mkConn db false), t0, t0, []. repeat split; try done.
      left. by rewrite !app_nil_r. }
  destruct E5 as (c5 & t5 & td5 & from_usgs & Hc5 & Ht5 & Hcols5 & Hd5 & Hdcols5 & Hbase5
                  & Husgs & Hrows5).
  assert (Hrows5' : t_rows t5 = t_rows td5 ++ from_usgs).
  { rewrite Hbase5. by destruct Hrows5 as [-> | ->]. }
  unfold mbind at 1, ST_bind at 1, bind at 1. unfold lift at 1.
  destruct (dropna _ b) as [kept|e6] eqn:Ed; [|done].
  unfold mbind at 1, ST_bind at 1, bind at 1. rewrite print_run.
  unfold mbind at 1, ST_bind at 1, bind at 1.
  assert (Hkept : Forall (fun row => row_complete ["magnitude"; "longitude"; "latitude"] row
                                     = true) (iterrows kept)).
  { apply Forall_forall. intros row Hrow. unfold row_complete.
    apply forallb_forall. intros c Hc.
    destruct (dropna_rows_complete _ _ _ row c Hb Ed Hrow (proj2 (list_elem_of_In _ _) Hc))
      as (v & Hv & Hna).
    unfold row_get. by rewrite Hv, Hna. }
  match goal with
  | |- context [insert_isc _ _ kept ?w0] =>
      destruct (insert_isc_keeps isoformat sqlite_select kept (t_rows td5) from_usgs w0)
        as (w6 & -> & c6 & t6 & td6 & from_isc & Hc6 & Ht6 & Hcols6 & _ & _ & _
            & Hisc & Hrows6);
        [exists c5, t5, td5, []; repeat split; try done; left; by rewrite app_nil_r
        |exact Hkept|]
  end.
  unfold commit, close, sqlite3_connect, execute, fetchall, print, emit, the_conn,
         set_conn, lift.
  unfold_st. simpl. rewrite Hc6. simpl.
  destruct (sqlite_select _ (conn_db c6)) as [rows|]; simpl; [|done].
  destruct (frame_of_results rows) as [hm|]; simpl; [|done].
  destruct (getitem "longitude" (concat a b)) as [xs|]; simpl; [|done].
  destruct (getitem "latitude" (concat a b)) as [ys|]; simpl; [|done].
  destruct (getitem "magnitude" (concat a b)) as [cs|]; simpl; [|done].
  intros [= <-].
  assert (Hbase : t_rows td5 = stored_rows w).
  { rewrite Hbase5. exact Hrows0. }
  assert (Hrows : exists from_usgs',
            t_rows t6 = stored_rows w ++ from_usgs' ++ from_isc /\
            Forall usgs_record from_usgs').
  { destruct Hrows6 as [-> | ->]; [exists from_usgs|exists []]; by rewrite Hbase. }
  destruct Hrows as (from_usgs' & Hrows & Husgs').
  exists from_usgs', from_isc.
  unfold stored_rows at 1, store_ok. simpl. rewrite Ht6.
  split; [done|]. split; [done|]. split; [done|]. split; [|done].
  intros t Ht. by inversion Ht; subst.
Qed.

End Script.

Lemma cells_only_append_tagged_records_witness :
  let w' := (cells Demo.net Demo.py_float Demo.to_datetime_cell Demo.isoformat
                   Demo.sqlite_select Demo.stored2).2 in
  length (stored_rows w') = 7%nat /\
  exists from_usgs from_isc,
    stored_rows w' = stored_rows Demo.stored2 ++ from_usgs ++ from_isc /\
    Forall usgs_record from_usgs /\
    Forall isc_record from_isc /\
    store_ok (w_disk w') /\
    w_conn w' = None.
Proof.
  cbv zeta. split; [vm_compute; reflexivity|].
  apply (cells_only_append_tagged_records Demo.net Demo.py_float Demo.to_datetime_cell
           Demo.isoformat Demo.sqlite_select Demo.stored2).
  - intros t Ht. vm_compute in Ht. by inversion Ht.
  - vm_compute. reflexivity.
Defined.
